(** * generate_synthetic_data.py: the stochastic record generator

    A shallow embedding of the sampling core of [generate_synthetic_data.py]
    (condition sampling, medication assignment, the daily sub-generators)
    and the properties of the dataset that follow from it.

    Randomness.  The script draws from two process-wide generators,
    Python's [random] and NumPy's [np.random].  Each is modelled as an
    infinite tape of rationals with a read cursor; a sampling primitive
    reads the next entry and decodes it onto the support of its
    distribution.  A statement quantified over every generator state is
    therefore a statement about every outcome of the draws.

    Numbers.  Python [int]s are [Z].  Python/NumPy floats are exact
    rationals [Q]: every finite double is a rational, and the range
    thresholds the code compares against (4.0, 7.0, 5.0, 10.0) are exactly
    representable.  A decimal literal such as 0.657 stands for the rational
    it spells; rounding error inside float arithmetic is not modelled.

    Failure.  A library call that raises in Python ([random.choice] on an
    empty list, [random.sample] with too large a sample, [randint] over an
    empty range, [np.random.choice] with probabilities that do not sum to
    one, an index out of range) yields [None]. *)

From Stdlib Require Import QArith Qround Qabs Qminmax Lqa.
From stdpp Require Import gmap strings list fin_maps pretty sorting.

Open Scope string_scope.
Open Scope Z_scope.

(** ** The random source and its monad *)

Record rng := Rng {
  py_tape : nat -> Q;   (* entropy read by the [random] module *)
  py_pos  : nat;
  np_tape : nat -> Q;   (* entropy read by [np.random] *)
  np_pos  : nat
}.

Definition Rand (A : Type) : Type := rng -> option (A * rng).

Global Instance rand_ret : MRet Rand := λ A a g, Some (a, g).

Global Instance rand_bind : MBind Rand := λ A B k m g,
  match m g with
  | Some (a, g') => k a g'
  | None => None
  end.

(** An uncaught Python exception. *)
Definition raise {A} : Rand A := λ _, None.

Definition or_raise {A} (o : option A) : Rand A :=
  match o with
  | Some a => mret a
  | None => raise
  end.

Definition py_next : Rand Q := λ g,
  Some (py_tape g (py_pos g),
        Rng (py_tape g) (S (py_pos g)) (np_tape g) (np_pos g)).

Definition np_next : Rand Q := λ g,
  Some (np_tape g (np_pos g),
        Rng (py_tape g) (py_pos g) (np_tape g) (S (np_pos g))).

(** Monadic iteration over a list ([for x in l: ...]) with an accumulator;
    list comprehensions use stdpp's [mapM]. *)
Fixpoint foldM {A S} (f : S -> A -> Rand S) (s : S) (l : list A) : Rand S :=
  match l with
  | [] => mret s
  | x :: l' => s' ← f s x; foldM f s' l'
  end.

(** ** Rational helpers *)

Definition Qltb (x y : Q) : bool := negb (Qle_bool y x).

(** The fractional part: a uniform variate in [0, 1). *)
Definition unit_interval (q : Q) : Q := (q - inject_Z (Qfloor q))%Q.

(** [int(x)]: truncation toward zero. *)
Definition int_of_Q (q : Q) : Z := Z.quot (Qnum q) (Zpos (Qden q)).

(** Round half to even, to an integer. *)
Definition rint (q : Q) : Z :=
  let f := Qfloor q in
  let r := (q - inject_Z f)%Q in
  if Qltb r (1 # 2) then f
  else if Qltb (1 # 2) r then f + 1
  else if Z.even f then f else f + 1.

(** [round(x, 1)]. *)
Definition round1 (q : Q) : Q := (inject_Z (rint (q * 10)) / 10)%Q.

(** [np.clip(x, lo, hi)] with both bounds, and with [hi = None]. *)
Definition np_clip (x lo hi : Q) : Q := Qmin (Qmax x lo) hi.
Definition np_clip_lo (x lo : Q) : Q := Qmax x lo.

Definition Qsum (l : list Q) : Q := foldr Qplus 0%Q l.
Definition Zsum (l : list Z) : Z := foldr Z.add 0 l.

(** ** Primitives of the [random] module *)

(** [random.random()]. *)
Definition random_random : Rand Q := q ← py_next; mret (unit_interval q).

(** [random._randbelow(n)]: a uniform integer in [0, n). *)
Definition randbelow (n : Z) : Rand Z :=
  u ← random_random; mret (Qfloor (u * inject_Z n)).

(** [random.randint(a, b)]: uniform on [a, b]; ValueError on an empty range. *)
Definition random_randint (a b : Z) : Rand Z :=
  if b <? a then raise else k ← randbelow (b - a + 1); mret (a + k).

(** [random.choice(seq)]: IndexError on an empty sequence. *)
Definition random_choice {A} (l : list A) : Rand A :=
  match l with
  | [] => raise
  | _ => k ← randbelow (Z.of_nat (length l)); or_raise (l !! Z.to_nat k)
  end.

(** [random.uniform(a, b)]. *)
Definition random_uniform (a b : Q) : Rand Q :=
  u ← random_random; mret (a + (b - a) * u)%Q.

(** [random.normalvariate(mu, sigma)]: the tape entry is read as the
    standard normal variate, so any value can come out. *)
Definition random_normalvariate (mu sigma : Q) : Rand Q :=
  z ← py_next; mret (mu + sigma * z)%Q.

(** One step of the pool selection of [random.sample]: take [pool[j]],
    move the last live element into position [j], shrink the pool by one. *)
Definition pool_take {A} (pool : list A) (j : nat) : option (A * list A) :=
  x ← pool !! j;
  lst ← last pool;
  Some (x, take (length pool - 1) (<[j := lst]> pool)).

Fixpoint sample_loop {A} (k : nat) (pool : list A) : Rand (list A) :=
  match k with
  | O => mret []
  | S k' =>
      j ← randbelow (Z.of_nat (length pool));
      '(x, pool') ← or_raise (pool_take pool (Z.to_nat j));
      rest ← sample_loop k' pool';
      mret (x :: rest)
  end.

(** [random.sample(population, k)]: [k] elements at distinct positions;
    ValueError when [k] is negative or exceeds the population. *)
Definition random_sample {A} (population : list A) (k : Z) : Rand (list A) :=
  if (k <? 0) || (Z.of_nat (length population) <? k) then raise
  else sample_loop (Z.to_nat k) population.

(** [x[i], x[j] = x[j], x[i]]. *)
Definition swap {A} (l : list A) (i j : nat) : list A :=
  match l !! i, l !! j with
  | Some a, Some b => <[j := a]> (<[i := b]> l)
  | _, _ => l
  end.

(** [random.shuffle(x)]: the in-place Fisher-Yates pass
    [for i in reversed(range(1, len(x))): j = randbelow(i + 1); swap].
    The loop index [i] runs from [len(x) - 1] down to 1 and [j] ranges
    over [0 .. i], so [j = i] (no exchange) is one of the outcomes. *)
Fixpoint shuffle_loop {A} (i : nat) (x : list A) : Rand (list A) :=
  match i with
  | O => mret x
  | S i' =>
      j ← randbelow (Z.of_nat (S i') + 1);
      shuffle_loop i' (swap x (S i') (Z.to_nat j))
  end.

Definition random_shuffle {A} (x : list A) : Rand (list A) :=
  shuffle_loop (length x - 1) x.

(** ** Primitives of [np.random] *)

(** [np.random.normal(loc, scale)]. *)
Definition np_random_normal (loc scale : Q) : Rand Q :=
  z ← np_next; mret (loc + scale * z)%Q.

Fixpoint cumsum (acc : Q) (p : list Q) : list Q :=
  match p with
  | [] => []
  | x :: p' => (acc + x)%Q :: cumsum (acc + x)%Q p'
  end.

(** [cdf.searchsorted(u, side='right')] on an ascending [cdf]. *)
Fixpoint searchsorted_right (cdf : list Q) (u : Q) : nat :=
  match cdf with
  | [] => O
  | c :: cdf' => if Qle_bool c u then S (searchsorted_right cdf' u) else O
  end.

(** [np.random.choice(a, p=p)]: inverse-CDF selection with one uniform
    variate, as NumPy does it ([cdf = p.cumsum()], then [searchsorted]);
    ValueError unless [p] has the length of [a], is non-negative and sums
    to one. *)
Definition np_random_choice {A} (a : list A) (p : list Q) : Rand A :=
  if negb (length a =? length p)%nat
     || negb (forallb (Qle_bool 0) p)
     || negb (Qeq_bool (Qsum p) 1)
  then raise
  else
    q ← np_next;
    or_raise (a !! searchsorted_right (cumsum 0 p) (unit_interval q)).

(** ** Python built-ins used by the script *)

(** [l[i]] for a Python integer index (negative indices count from the
    end); [None] is IndexError. *)
Definition getitem {A} (l : list A) (i : Z) : option A :=
  if i <? 0 then
    (if Z.of_nat (length l) + i <? 0 then None
     else l !! Z.to_nat (Z.of_nat (length l) + i))
  else l !! Z.to_nat i.

Definition len {A} (l : list A) : Z := Z.of_nat (length l).

(** [range(n)]. *)
Definition range (n : Z) : list Z := seqZ 0 n.

(** [needle in hay] on strings: substring test. *)
Fixpoint str_in (needle hay : string) : bool :=
  String.prefix needle hay ||
  match hay with
  | EmptyString => false
  | String _ hay' => str_in needle hay'
  end.

(** [sorted(l)] on integers. *)
Fixpoint insert_sorted (x : Z) (l : list Z) : list Z :=
  match l with
  | [] => [x]
  | y :: l' => if x <=? y then x :: y :: l' else y :: insert_sorted x l'
  end.

Definition sorted (l : list Z) : list Z := foldr insert_sorted [] l.

(** [f"{n:0wd}"]: decimal digits, zero-padded after the sign to width [w]. *)
Definition format_0d (w : nat) (n : Z) : string :=
  let digits := pretty (Z.abs n) in
  let sign := if n <? 0 then "-" else "" in
  sign +:+
  String.concat "" (replicate (w - String.length sign - String.length digits) "0") +:+
  digits.

(** [sep.join(l)]. *)
Definition join (sep : string) (l : list string) : string := String.concat sep l.

(** ** Module-level tables *)

Definition MOOD_PROBABILITIES : list Q := [0.25; 0.15; 0.10; 0.10; 0.40]%Q.
Definition MOOD_VALUES_WITH_EMPTY : list string := ["happy"; "sad"; "angry"; "contempt"; ""].
Definition WEATHER_VALUES : list string := ["Good"; "Bad"].
Definition SLEEP_QUALITIES : list string := ["Very good"; "Fairly good"; "Fairly bad"; "Very bad"].
Definition MEAL_COMPONENTS : list string := ["Protein"; "Vegetables"; "Fruit"; "Alcohol"; "Carbohydrates"].
Definition SUGAR_CATEGORIES : list string := [""; "1-20g"; "20-40g"; "40-60g"; "60g+"].
Definition SUGAR_WEIGHTS : list Q := [0.516; 0.258; 0.129; 0.065; 0.032]%Q.

Definition MEAL_FOOD_PROBABILITIES : gmap string Q :=
  <["Breakfast" := 1.0%Q]> (<["Lunch" := 0.9%Q]> (<["Dinner" := 1.0%Q]>
    (<["Late night snack" := 0.1%Q]> ∅))).

Definition BREAKFAST_TIME_RANGE : Z * Z := (6, 11).
Definition LUNCH_TIME_RANGE : Z * Z := (11, 15).
Definition DINNER_TIME_RANGE : Z * Z := (16, 22).
Definition LATE_NIGHT_SNACK_TIME_RANGE : Z * Z := (22, 24).

Definition EXERCISE_TYPES : list string :=
  ["walking"; "swimming"; "running"; "biking"; "muscle-strengthening"; "balance"; "other"].

Definition PAIN_LOCATIONS : list string :=
  ["head"; "neck"; "shoulders"; "back"; "chest"; "stomach"; "hips"; "arms";
   "elbows"; "hands"; "legs"; "knees"; "feet"].

Definition BINARY_VALUES : list string := ["Yes"; "No"].

(** [date_range]: the days from 2024-07-01 to 2025-07-31 inclusive, kept as
    day offsets from the start date (the [strftime] rendering is not modelled). *)
Definition date_range : list nat := seq 0 396.

(** ** Meals *)

Definition generate_meal_contents (meal_type : option string)
  : Rand (list (string * Z) * string) :=
  no_food ←
    match meal_type with
    | Some mt =>
        if negb (String.eqb mt "") then
          match MEAL_FOOD_PROBABILITIES !! mt with
          | Some has_food_probability =>
              r ← random_random; mret (Qltb has_food_probability r)
          | None => mret false
          end
        else mret false
    | None => mret false
    end;
  if (no_food : bool) then
    mret ((λ comp, (comp, 0)) <$> MEAL_COMPONENTS, "")
  else
    components ← mapM (λ comp, v ← random_choice [1; 0]; mret (comp, v)) MEAL_COMPONENTS;
    added_sugar ← np_random_choice SUGAR_CATEGORIES SUGAR_WEIGHTS;
    mret (components, added_sugar).

(** ** Exercise *)

(** The dictionary literal returned by [generate_exercise_data]. *)
Record exercise_data := ExerciseData {
  Exercise_Type_1 : string; Exercise_Minutes_1 : Z; Exercise_Category_1 : string;
  Exercise_Type_2 : string; Exercise_Minutes_2 : Z; Exercise_Category_2 : string;
  Exercise_Type_3 : string; Exercise_Minutes_3 : Z; Exercise_Category_3 : string;
  Exercise_Type_4 : string; Exercise_Minutes_4 : Z; Exercise_Category_4 : string;
  Exercise_Type_5 : string; Exercise_Minutes_5 : Z; Exercise_Category_5 : string
}.

Definition exercise_probs : list Q := [0.516; 0.258; 0.129; 0.065; 0.032]%Q.

(** [l[i] if len(selected_exercises) > i else d]. *)
Definition slot_or {A} (selected_exercises : list string) (l : list A) (i : Z) (d : A)
  : option A :=
  if i <? len selected_exercises then getitem l i else Some d.

(** The minutes of the day's exercises: the whole budget for a single
    exercise, consecutive differences of the sorted split points otherwise. *)
Definition split_minutes (num_exercises total_minutes : Z) : Rand (list Z) :=
  if num_exercises =? 1 then mret [total_minutes]
  else
    points ← mapM (λ _, random_randint 1 (total_minutes - 1)) (range (num_exercises - 1));
    let splits := ([0] ++ sorted points ++ [total_minutes])%list in
    or_raise
      (mapM
         (λ i, a ← getitem splits (i + 1); b ← getitem splits i; Some (a - b))
         (range num_exercises)).

Definition exercise_slots (selected_exercises : list string) (exercise_minutes : list Z)
  : option exercise_data :=
  t1 ← slot_or selected_exercises selected_exercises 0 "";
  m1 ← slot_or selected_exercises exercise_minutes 0 0;
  t2 ← slot_or selected_exercises selected_exercises 1 "";
  m2 ← slot_or selected_exercises exercise_minutes 1 0;
  t3 ← slot_or selected_exercises selected_exercises 2 "";
  m3 ← slot_or selected_exercises exercise_minutes 2 0;
  t4 ← slot_or selected_exercises selected_exercises 3 "";
  m4 ← slot_or selected_exercises exercise_minutes 3 0;
  t5 ← slot_or selected_exercises selected_exercises 4 "";
  m5 ← slot_or selected_exercises exercise_minutes 4 0;
  Some (ExerciseData t1 m1 t1 t2 m2 t2 t3 m3 t3 t4 m4 t4 t5 m5 t5).

Definition generate_exercise_data : Rand exercise_data :=
  num_exercises ← np_random_choice [1; 2; 3; 4; 5] exercise_probs;
  total_minutes ← random_randint 5 29;
  selected_exercises ← random_sample EXERCISE_TYPES num_exercises;
  exercise_minutes ← split_minutes num_exercises total_minutes;
  or_raise (exercise_slots selected_exercises exercise_minutes).

(** Slot [i] (1 to 5) of the exercise columns. *)
Definition Exercise_Type (d : exercise_data) (i : Z) : string :=
  if i =? 1 then Exercise_Type_1 d else if i =? 2 then Exercise_Type_2 d
  else if i =? 3 then Exercise_Type_3 d else if i =? 4 then Exercise_Type_4 d
  else Exercise_Type_5 d.

Definition Exercise_Minutes (d : exercise_data) (i : Z) : Z :=
  if i =? 1 then Exercise_Minutes_1 d else if i =? 2 then Exercise_Minutes_2 d
  else if i =? 3 then Exercise_Minutes_3 d else if i =? 4 then Exercise_Minutes_4 d
  else Exercise_Minutes_5 d.

(** ** Chronic conditions *)

(** [if random.random() < p: conditions.append(c)]. *)
Definition prevalence_draw (p : Q) (c : string) (conditions : list string)
  : Rand (list string) :=
  r ← random_random;
  mret (if Qltb r p then conditions ++ [c] else conditions)%list.

(** The last-resort loop: append the common conditions not yet present
    until there are two. *)
Fixpoint force_common (common_conditions conditions : list string) : list string :=
  match common_conditions with
  | [] => conditions
  | condition :: rest =>
      if bool_decide (condition ∉ conditions) then
        let conditions' := (conditions ++ [condition])%list in
        if 2 <=? len conditions' then conditions'
        else force_common rest conditions'
      else force_common rest conditions
  end.

Definition assign_conditions : Rand (list string) :=
  conditions ← prevalence_draw 0.657 "Hypertension" [];
  conditions ← prevalence_draw 0.52 "Periodontal disease" conditions;
  conditions ← prevalence_draw 0.38 "Osteoarthritis" conditions;
  conditions ← prevalence_draw 0.27 "Ischemic heart disease" conditions;
  conditions ← prevalence_draw 0.268 "Diabetes" conditions;
  conditions ← prevalence_draw 0.251 "Osteoporosis" conditions;
  conditions ← prevalence_draw 0.215 "Cancer" conditions;
  conditions ← prevalence_draw 0.202 "COPD" conditions;
  conditions ← prevalence_draw 0.107 "Asthma" conditions;
  conditions ← prevalence_draw 0.105 "Mood and/or anxiety disorder" conditions;
  conditions ←
    (if len conditions =? 0 then
       extra ← random_sample ["Hypertension"; "Osteoarthritis"; "Diabetes"; "Osteoporosis"] 2;
       mret (conditions ++ extra)%list
     else if len conditions =? 1 then
       let additional_conditions :=
         ["Hypertension"; "Diabetes"; "Osteoarthritis"; "Osteoporosis";
          "Mood and/or anxiety disorder"; "Ischemic heart disease"] in
       let available_conditions := filter (λ c, c ∉ conditions) additional_conditions in
       match available_conditions with
       | [] => mret conditions
       | _ => c ← random_choice available_conditions; mret (conditions ++ [c])%list
       end
     else mret conditions);
  mret (if len conditions <? 2
        then force_common ["Hypertension"; "Osteoarthritis"; "Diabetes"] conditions
        else conditions).

(** ** Medication assignment *)

(** A catalog entry: (name, type, category, dosage). *)
Definition medication : Type := string * string * string * string.

Definition med_category (m : medication) : string := m.1.2.

(** The condition flags computed at the top of
    [assign_medications_by_conditions]. *)
Record cond_flags := CondFlags {
  has_hypertension : bool;
  has_diabetes : bool;
  has_pain : bool;
  has_mood_disorder : bool;
  has_respiratory : bool;
  has_cancer : bool
}.

Definition flags_of (conditions : list string) : cond_flags :=
  let cond_set : gset string := list_to_set conditions in
  {| has_hypertension :=
       bool_decide ("Hypertension" ∈ cond_set) || bool_decide ("Ischemic heart disease" ∈ cond_set);
     has_diabetes := bool_decide ("Diabetes" ∈ cond_set);
     has_pain := bool_decide ("Osteoarthritis" ∈ cond_set) || bool_decide ("Osteoporosis" ∈ cond_set);
     has_mood_disorder := bool_decide ("Mood and/or anxiety disorder" ∈ cond_set);
     has_respiratory := bool_decide ("COPD" ∈ cond_set) || bool_decide ("Asthma" ∈ cond_set);
     has_cancer := bool_decide ("Cancer" ∈ cond_set) |}.

(** The arms of the [if]/[elif] chain that sets [should_assign], in the
    order they are tested; [NoMatch] leaves it [False]. *)
Inductive eligibility_rule :=
  | ByHeart | ByDiabetes | ByPain | ByMentalHealth
  | ByRespiratory | ByCancer | ByVitamins | NoMatch.

(** The first arm whose condition holds. *)
Definition matching_rule (f : cond_flags) (category : string) : eligibility_rule :=
  if str_in "Heart health and hypertension" category && has_hypertension f then ByHeart
  else if str_in "Diabetes" category && has_diabetes f then ByDiabetes
  else if str_in "Chronic pain and musculoskeletal" category && has_pain f then ByPain
  else if str_in "Mental health" category && has_mood_disorder f then ByMentalHealth
  else if has_respiratory f && str_in "Other" category then ByRespiratory
  else if has_cancer f && (str_in "Other" category || str_in "Vitamins and supplements" category)
       then ByCancer
  else if str_in "Vitamins and supplements" category then ByVitamins
  else NoMatch.

(** The body of each arm. *)
Definition apply_rule (r : eligibility_rule) : Rand bool :=
  match r with
  | ByHeart | ByDiabetes | ByPain | ByMentalHealth => mret true
  | ByRespiratory => r ← random_random; mret (Qltb r 0.6)
  | ByCancer => r ← random_random; mret (Qltb r 0.7)
  | ByVitamins => r ← random_random; mret (Qltb r 0.7)
  | NoMatch => mret false
  end.

Definition should_assign (f : cond_flags) (category : string) : Rand bool :=
  apply_rule (matching_rule f category).

(** [category_counts.get(category, 0)]. *)
Definition count_of (category_counts : gmap string Z) (category : string) : Z :=
  default 0 (category_counts !! category).

(** One iteration of the loop over the catalog. *)
Definition assign_step (f : cond_flags)
    (st : list medication * gmap string Z) (m : medication)
  : Rand (list medication * gmap string Z) :=
  let '(assigned_meds, category_counts) := st in
  let category := med_category m in
  if 2 <=? count_of category_counts category then mret st
  else
    eligible ← should_assign f category;
    keep ← (if (eligible : bool) then r ← random_random; mret (Qltb r 0.9) else mret false);
    if (keep : bool) then
      mret ((assigned_meds ++ [m])%list,
            <[category := count_of category_counts category + 1]> category_counts)
    else mret st.

Definition default_medication (f : cond_flags) : medication :=
  if has_hypertension f then
    ("Lisinopril", "Prescribed", "Heart health and hypertension", "10 mg once daily")
  else if has_diabetes f then
    ("Metformin", "Prescribed", "Diabetes (oral or injectable)", "500 mg twice daily")
  else if has_pain f then
    ("Ibuprofen", "Prescribed", "Chronic pain and musculoskeletal", "400 mg as needed")
  else if has_mood_disorder f then
    ("Sertraline", "Prescribed", "Mental health (mood and anxiety)", "50 mg once daily")
  else
    ("Vitamin D", "Supplement", "Vitamins and supplements", "1000 IU once daily").

(** [assign_medications_by_conditions(conditions, all_medications)].  The
    catalog is a mutable list shared with the caller and
    [random.shuffle] permutes it in place, so the result carries, next to
    [assigned_meds], the catalog as the caller finds it after the call. *)
Definition assign_medications_by_conditions
    (conditions : list string) (all_medications : list medication)
  : Rand (list medication * list medication) :=
  let f := flags_of conditions in
  all_medications ← random_shuffle all_medications;
  '(assigned_meds, _) ← foldM (assign_step f) ([], ∅) all_medications;
  let assigned_meds :=
    match assigned_meds with
    | [] => [default_medication f]
    | _ => assigned_meds
    end in
  mret (assigned_meds, all_medications).

(** ** Blood pressure and glucose *)

Definition get_bp_type (systolic diastolic : Z) : string * string :=
  let systolic_type :=
    if systolic <? 90 then "Low blood pressure"
    else if (90 <=? systolic) && (systolic <=? 120) then "Ideal"
    else if (120 <? systolic) && (systolic <=? 140) then "Pre-high blood pressure"
    else "High blood pressure" in
  let diastolic_type :=
    if diastolic <? 60 then "Low blood pressure"
    else if (60 <=? diastolic) && (diastolic <=? 80) then "Ideal"
    else if (80 <? diastolic) && (diastolic <=? 90) then "Pre-high blood pressure"
    else "High blood pressure" in
  (systolic_type, diastolic_type).

Definition get_glucose_range (glucose : Q) (measurement_type : string) : string :=
  if String.eqb measurement_type "Pre meal" then
    if Qltb glucose 4.0 then "below range"
    else if Qle_bool 4.0 glucose && Qle_bool glucose 7.0 then "in range"
    else "above range"
  else
    if Qltb glucose 5.0 then "below range"
    else if Qle_bool 5.0 glucose && Qle_bool glucose 10.0 then "in range"
    else "above range".

(** [time_diff] between a candidate and a used time, with the wrap-around
    at midnight, against the minimum spacing. *)
Definition too_close (min_hours_between time_in_minutes used_time : Z) : bool :=
  let time_diff := Z.abs (time_in_minutes - used_time) in
  let time_diff := if 12 * 60 <? time_diff then 24 * 60 - time_diff else time_diff in
  time_diff <? min_hours_between * 60.

(** The [while attempts < max_attempts] loop: [more] is the number of
    attempts that remain after this one.  Returns the last hour and minute
    drawn and whether they passed the spacing test. *)
Fixpoint draw_spaced_time (more : nat) (min_hours_between : Z) (used_times : list Z)
  : Rand (Z * Z * bool) :=
  hour ← random_randint 0 23;
  minute ← random_randint 0 59;
  let time_in_minutes := hour * 60 + minute in
  if forallb (λ used_time, negb (too_close min_hours_between time_in_minutes used_time)) used_times
  then mret (hour, minute, true)
  else
    match more with
    | O => mret (hour, minute, false)
    | S more' => draw_spaced_time more' min_hours_between used_times
    end.

Definition timestamp_step (min_hours_between : Z)
    (st : list string * list Z) (i : Z) : Rand (list string * list Z) :=
  let '(timestamps, used_times) := st in
  '(hour, minute, valid_time) ← draw_spaced_time 49 min_hours_between used_times;
  let timestamp := format_0d 2 hour +:+ ":" +:+ format_0d 2 minute in
  mret ((timestamps ++ [timestamp])%list,
        if (valid_time : bool) then (used_times ++ [hour * 60 + minute])%list else used_times).

Definition generate_measurement_timestamps_with_spacing
    (num_readings : Z) (min_hours_between : Z) : Rand (list string) :=
  if num_readings =? 0 then mret [""; ""; ""; ""]
  else
    '(timestamps, _) ← foldM (timestamp_step min_hours_between) ([], []) (range num_readings);
    mret (timestamps ++ replicate (4 - length timestamps) "")%list.

(** The weights of the reading count, as written at both call sites. *)
Definition reading_count_probs : list Q := [0.516; 0.258; 0.129; 0.097]%Q.

(** The five lists returned by [generate_blood_pressure_readings]. *)
Record bp_readings := BpReadings {
  systolic_readings : list Z;
  diastolic_readings : list Z;
  systolic_types : list string;
  diastolic_types : list string;
  bp_timestamps : list string
}.

(** The body of [for i in range(4)]: one slot's values. *)
Definition bp_slot (num_readings i : Z) : Rand (Z * Z * string * string) :=
  if i <? num_readings then
    s ← random_normalvariate 130 15;
    let systolic := int_of_Q s in
    let max_diastolic := systolic - 10 in
    d ← random_normalvariate 85 10;
    let diastolic := int_of_Q d in
    let diastolic := Z.min diastolic max_diastolic in
    let diastolic := if systolic <=? diastolic then Z.max 40 (systolic - 10) else diastolic in
    let '(systolic_type, diastolic_type) := get_bp_type systolic diastolic in
    mret (systolic, diastolic, systolic_type, diastolic_type)
  else mret (0, 0, "", "").

Definition generate_blood_pressure_readings (has_condition : bool) : Rand bp_readings :=
  if negb has_condition then
    mret (BpReadings [0; 0; 0; 0] [0; 0; 0; 0] [""; ""; ""; ""] [""; ""; ""; ""] [""; ""; ""; ""])
  else
    num_readings ← np_random_choice [1; 2; 3; 4] reading_count_probs;
    timestamps ← generate_measurement_timestamps_with_spacing num_readings 1;
    slots ← mapM (bp_slot num_readings) (range 4);
    mret (BpReadings (slots.*1.*1.*1) (slots.*1.*1.*2) (slots.*1.*2) (slots.*2) timestamps).

(** The four lists returned by [generate_glucose_readings]. *)
Record glucose_readings_t := GlucoseReadings {
  glucose_readings : list Q;
  measurement_types : list string;
  glucose_ranges : list string;
  glucose_timestamps : list string
}.

Definition glucose_slot (num_readings i : Z) : Rand (Q * string * string) :=
  if i <? num_readings then
    measurement_type ← random_choice ["Pre meal"; "2-hour post meal"];
    glucose ←
      (if String.eqb measurement_type "Pre meal" then
         glucose ← np_random_normal 6.0 1.5;
         mret (round1 (np_clip glucose 3.0 9.0))
       else
         glucose ← np_random_normal 7.5 2.0;
         mret (round1 (np_clip glucose 4.0 12.0)));
    mret (glucose, measurement_type, get_glucose_range glucose measurement_type)
  else mret (0%Q, "", "").

Definition generate_glucose_readings (has_diabetes : bool) : Rand glucose_readings_t :=
  if negb has_diabetes then
    mret (GlucoseReadings [0; 0; 0; 0]%Q [""; ""; ""; ""] [""; ""; ""; ""] [""; ""; ""; ""])
  else
    num_readings ← np_random_choice [1; 2; 3; 4] reading_count_probs;
    timestamps ← generate_measurement_timestamps_with_spacing num_readings 1;
    slots ← mapM (glucose_slot num_readings) (range 4);
    mret (GlucoseReadings (slots.*1.*1) (slots.*1.*2) (slots.*2) timestamps).

(** ** The daily record *)

(** One element of [data] in [generate_patient_data].  The numbered
    columns of a repeated measurement ([Systolic_1] .. [Systolic_4], ...)
    are the elements 0 .. 3 of the list kept here; the exercise columns are
    the fields of [exercise_data]. *)
Record day_data := DayData {
  Date : nat;
  Mood : string;
  Weather : string;
  Sleep_Quality : string;
  Sleep_Quality_Code : Z;
  Sleep_Hours : Q;
  Exercise : exercise_data;
  Pain_Location : string;
  Pain_Level : Z;
  Breakfast_Time : string;
  Lunch_Time : string;
  Dinner_Time : string;
  Late_Night_Snack_Time : string;
  Breakfast : list (string * Z) * string;
  Lunch : list (string * Z) * string;
  Dinner : list (string * Z) * string;
  Late_Night_Snack : list (string * Z) * string;
  Urinary_Continence : string;
  Fecal_Continence : string;
  Health_Goal_Met : string;
  Blood_Pressure : bp_readings;
  Glucose : glucose_readings_t;
  Medication_Names : string;
  Medication_Types : string;
  Medication_Categories : string;
  Medication_Dosages : string;
  Medication_Count : Z
}.

(** A meal's hour, drawn within its time range, then the minute, rendered
    as HH:MM. *)
Definition meal_time (time_range : Z * Z) : Rand string :=
  hour ← random_randint time_range.1 time_range.2;
  minute ← random_randint 0 59;
  mret (format_0d 2 hour +:+ ":" +:+ format_0d 2 minute).

(** The body of [for date in date_range]. *)
Definition generate_day (conditions : list string) (patient_pain_location : string)
    (assigned_medications : list medication) (date : nat) : Rand day_data :=
  let cond_set : gset string := list_to_set conditions in
  let has_hypertension := bool_decide ("Hypertension" ∈ cond_set) in
  let has_diabetes := bool_decide ("Diabetes" ∈ cond_set) in
  let has_heart_disease := bool_decide ("Ischemic heart disease" ∈ cond_set) in
  mood ← np_random_choice MOOD_VALUES_WITH_EMPTY MOOD_PROBABILITIES;
  weather ← random_choice WEATHER_VALUES;
  sleep_quality_code ← random_choice [0; 1; 2; 3];
  sleep_quality ← or_raise (getitem SLEEP_QUALITIES sleep_quality_code);
  sleep_hours ← random_uniform 1.0 10.0;
  let sleep_hours := round1 sleep_hours in
  breakfast_time ← meal_time BREAKFAST_TIME_RANGE;
  breakfast ← generate_meal_contents (Some "Breakfast");
  lunch_time ← meal_time LUNCH_TIME_RANGE;
  lunch ← generate_meal_contents (Some "Lunch");
  dinner_time ← meal_time DINNER_TIME_RANGE;
  dinner ← generate_meal_contents (Some "Dinner");
  late_snack_time ← meal_time LATE_NIGHT_SNACK_TIME_RANGE;
  late_snack ← generate_meal_contents (Some "Late night snack");
  exercise ← generate_exercise_data;
  pain_level ← random_randint 0 10;
  urinary_continence ← random_choice BINARY_VALUES;
  fecal_continence ← random_choice BINARY_VALUES;
  health_goal_met ← random_choice BINARY_VALUES;
  bp ← generate_blood_pressure_readings (has_hypertension || has_heart_disease);
  glucose ← generate_glucose_readings has_diabetes;
  mret {| Date := date; Mood := mood; Weather := weather;
          Sleep_Quality := sleep_quality; Sleep_Quality_Code := sleep_quality_code;
          Sleep_Hours := sleep_hours; Exercise := exercise;
          Pain_Location := patient_pain_location; Pain_Level := pain_level;
          Breakfast_Time := breakfast_time; Lunch_Time := lunch_time;
          Dinner_Time := dinner_time; Late_Night_Snack_Time := late_snack_time;
          Breakfast := breakfast; Lunch := lunch; Dinner := dinner;
          Late_Night_Snack := late_snack;
          Urinary_Continence := urinary_continence;
          Fecal_Continence := fecal_continence;
          Health_Goal_Met := health_goal_met;
          Blood_Pressure := bp; Glucose := glucose;
          Medication_Names := join "; " ((λ med, med.1.1.1) <$> assigned_medications);
          Medication_Types := join "; " ((λ med, med.1.1.2) <$> assigned_medications);
          Medication_Categories := join "; " ((λ med, med.1.2) <$> assigned_medications);
          Medication_Dosages := join "; " ((λ med, med.2) <$> assigned_medications);
          Medication_Count := len assigned_medications |}.

(** [generate_patient_data]: one row per date of the range (the rows of the
    returned data frame). *)
Definition generate_patient_data (conditions : list string)
    (patient_pain_location : string) (assigned_medications : list medication)
  : Rand (list day_data) :=
  mapM (generate_day conditions patient_pain_location assigned_medications) date_range.

(** ** The main loop *)

Definition generate_patient_age : Rand Z :=
  a ← np_random_normal 69 3.1; mret (int_of_Q (np_clip_lo a 65)).

Definition generate_patient_gender : Rand string := random_choice ["Male"; "Female"].

Definition generate_patient_name (gender : string) (male_names female_names : list string)
  : Rand string :=
  if String.eqb gender "Male" then random_choice male_names else random_choice female_names.

Record patient := Patient {
  patient_id : string;
  patient_conditions : list string;
  patient_age : Z;
  patient_gender : string;
  patient_name : string;
  patient_pain_location : string;
  assigned_medications : list medication;
  rows : list day_data
}.

(** The body of [for i in range(1, 101)], without the file output.  The
    catalog [ALL_MEDS_WITH_DOSAGES] is one list object for the whole run:
    each iteration hands the next one the catalog as its call left it. *)
Definition generate_patient (male_names female_names : list string)
    (st : list patient * list medication) (i : Z)
  : Rand (list patient * list medication) :=
  let '(patients, ALL_MEDS_WITH_DOSAGES) := st in
  conditions ← assign_conditions;
  age ← generate_patient_age;
  gender ← generate_patient_gender;
  name ← generate_patient_name gender male_names female_names;
  pain_location ← random_choice PAIN_LOCATIONS;
  '(meds, ALL_MEDS_WITH_DOSAGES) ←
     assign_medications_by_conditions conditions ALL_MEDS_WITH_DOSAGES;
  df ← generate_patient_data conditions pain_location meds;
  mret ((patients ++ [Patient (format_0d 3 i) conditions age gender name pain_location meds df])%list,
        ALL_MEDS_WITH_DOSAGES).

Definition generate_all (male_names female_names : list string)
    (ALL_MEDS_WITH_DOSAGES : list medication)
  : Rand (list patient * list medication) :=
  foldM (generate_patient male_names female_names) ([], ALL_MEDS_WITH_DOSAGES) (seqZ 1 100).

(** ** Text of the input files *)

(** Strings are sequences of code points below 256.  [str.isspace] on
    those: tab to carriage return, the four separators 28 to 31, space,
    NEL (133) and the no-break space (160). *)
Definition isspace (c : Ascii.ascii) : bool :=
  let n := Ascii.nat_of_ascii c in
  ((9 <=? n) && (n <=? 13) || (28 <=? n) && (n <=? 32) || (n =? 133) || (n =? 160))%nat.

(** [s.lstrip()], [s.rstrip()], [s.strip()]. *)
Fixpoint lstrip (s : string) : string :=
  match s with
  | EmptyString => EmptyString
  | String c s' => if isspace c then lstrip s' else s
  end.

Fixpoint rstrip (s : string) : string :=
  match s with
  | EmptyString => EmptyString
  | String c s' =>
      let r := rstrip s' in
      if isspace c && String.eqb r "" then EmptyString else String c r
  end.

Definition strip (s : string) : string := lstrip (rstrip s).

(** [s.startswith(p)] and [s.endswith(p)]. *)
Definition startswith (s p : string) : bool := String.prefix p s.

Fixpoint endswith (s p : string) : bool :=
  String.eqb s p ||
  match s with
  | EmptyString => false
  | String _ s' => endswith s' p
  end.

(** The colon, code point 58. *)
Definition COLON : Ascii.ascii := Ascii.ascii_of_nat 58.

(** [s.split(":", 1)[1]]: what follows the first colon; IndexError
    ([None]) when there is no colon. *)
Fixpoint after_colon (s : string) : option string :=
  match s with
  | EmptyString => None
  | String c s' => if Ascii.eqb c COLON then Some s' else after_colon s'
  end.

(** ** Name lists *)

(** The loop over one name file: stripped lines that are neither empty nor
    comments. *)
Definition name_lines (lines : list string) : list string :=
  filter (λ line, negb (String.eqb line "") && negb (startswith line "#") = true)
         (strip <$> lines).

Definition DEFAULT_MALE_NAMES : list string :=
  ["John"; "Michael"; "David"; "Robert"; "William"; "James"; "Richard"; "Thomas";
   "Charles"; "Joseph"].

Definition DEFAULT_FEMALE_NAMES : list string :=
  ["Mary"; "Patricia"; "Jennifer"; "Linda"; "Elizabeth"; "Barbara"; "Susan"; "Jessica";
   "Sarah"; "Karen"].

(** [load_names_by_gender()], given what opening each file yields: the
    lines of the file, or [None] when it does not exist
    (FileNotFoundError, caught: the built-in names are used). *)
Definition load_names_by_gender (male_txt female_txt : option (list string))
  : list string * list string :=
  let male_names :=
    match male_txt with
    | Some lines => name_lines lines
    | None => DEFAULT_MALE_NAMES
    end in
  let female_names :=
    match female_txt with
    | Some lines => name_lines lines
    | None => DEFAULT_FEMALE_NAMES
    end in
  (male_names, female_names).

(** ** The medication catalog file *)

(** Python truthiness of a variable that holds [None] or a string. *)
Definition truthy (o : option string) : bool :=
  match o with
  | Some s => negb (String.eqb s "")
  | None => false
  end.

(** The parser's variables: [all_medications] and the four [current_*]. *)
Definition parser_state : Type :=
  list medication * option string * option string * option string * option string.

(** [if current_medication and current_type and current_category and
    current_dose: all_medications.append(...)]. *)
Definition save_current (st : parser_state) : list medication :=
  let '(all_medications, current_medication, current_type, current_category, current_dose)
    := st in
  match current_medication, current_type, current_category, current_dose with
  | Some med, Some ty, Some cat, Some dose =>
      if truthy current_medication && truthy current_type && truthy current_category
         && truthy current_dose
      then (all_medications ++ [(med, ty, cat, dose)])%list
      else all_medications
  | _, _, _, _ => all_medications
  end.

(** One iteration of [while i < len(lines)]. *)
Definition parse_line (st : parser_state) (raw : string) : option parser_state :=
  let '(all_medications, current_medication, current_type, current_category, current_dose)
    := st in
  let line := strip raw in
  if String.eqb line "" || String.eqb line "Medications" then Some st
  else if startswith line "===" && endswith line "===" then Some st
  else if negb (str_in ":" line) && negb (String.eqb line "")
          && negb (startswith line "===") && negb (endswith line "===") then
    Some (save_current st, Some line, None, None, None)
  else if startswith line "Type:" then
    v ← after_colon line;
    Some (all_medications, current_medication, Some (strip v), current_category, current_dose)
  else if startswith line "Category:" then
    v ← after_colon line;
    Some (all_medications, current_medication, current_type, Some (strip v), current_dose)
  else if startswith line "Dose:" then
    v ← after_colon line;
    Some (all_medications, current_medication, current_type, current_category, Some (strip v))
  else Some st.

Fixpoint parse_lines (st : parser_state) (lines : list string) : option parser_state :=
  match lines with
  | [] => Some st
  | raw :: lines' => st' ← parse_line st raw; parse_lines st' lines'
  end.

(** [parse_medications_with_dosages], given the lines [f.readlines()]
    returns. *)
Definition parse_medications_with_dosages (lines : list string) : option (list medication) :=
  st ← parse_lines ([], None, None, None, None) lines;
  Some (save_current st).

(** ** Saving the combined file *)

(** What one call of [df.to_csv] does. *)
Inductive write_outcome := Written | PermissionDenied | OtherFailure.

(** What a call of [save_csv_with_retry] leaves behind: its return value
    ([None] is Python's [None]), the number of [to_csv] calls it made and
    the seconds it slept. *)
Record save_report := SaveReport {
  returned : option bool;
  writes : nat;
  slept : Z
}.

(** The body of [for attempt in range(max_retries)]; [disk k] is the
    outcome of the [k]-th write. *)
Fixpoint save_attempts (disk : nat -> write_outcome) (max_retries : Z)
    (attempts : list Z) (calls : nat) (seconds : Z) : save_report :=
  match attempts with
  | [] => SaveReport None calls seconds
  | attempt :: rest =>
      match disk calls with
      | Written => SaveReport (Some true) (S calls) seconds
      | PermissionDenied =>
          if attempt <? max_retries - 1
          then save_attempts disk max_retries rest (S calls) (seconds + 2)
          else SaveReport (Some false) (S calls) seconds
      | OtherFailure => SaveReport (Some false) (S calls) seconds
      end
  end.

Definition save_csv_with_retry (disk : nat -> write_outcome) (max_retries : Z) : save_report :=
  save_attempts disk max_retries (range max_retries) 0 0.

(** ** The combined table *)

(** [all_patients_df]: the rows of every patient's table in generation
    order, each under its [Patient_ID]. *)
Definition all_patients_df (patients : list patient) : list (string * day_data) :=
  p ← patients; (λ d, (patient_id p, d)) <$> rows p.

(** ** Reading a text file *)

(** The line feed and the carriage return. *)
Definition LF : Ascii.ascii := Ascii.ascii_of_nat 10.
Definition CR : Ascii.ascii := Ascii.ascii_of_nat 13.

(** Reading in text mode with the default [newline=None]: a carriage
    return, alone or followed by a line feed, is read as one line feed. *)
Fixpoint universal_newlines (s : string) : string :=
  match s with
  | EmptyString => EmptyString
  | String c s' =>
      if Ascii.eqb c CR then
        match s' with
        | String c' s'' =>
            if Ascii.eqb c' LF then String LF (universal_newlines s'')
            else String LF (universal_newlines s')
        | EmptyString => String LF EmptyString
        end
      else String c (universal_newlines s')
  end.

(** The text cut after every line feed; [line] is the line being read.
    A last line without a line feed is a line too. *)
Fixpoint split_lines (line : string) (s : string) : list string :=
  match s with
  | EmptyString => if String.eqb line "" then [] else [line]
  | String c s' =>
      if Ascii.eqb c LF then (line +:+ String c "") :: split_lines "" s'
      else split_lines (line +:+ String c "") s'
  end.

(** [f.readlines()] on a file opened with [open(filename, 'r')], given
    the decoded text of the file. *)
Definition readlines (text : string) : list string :=
  split_lines "" (universal_newlines text).

(** * Vocabulary of the properties *)

(** [always m P]: whatever the state of the two generators, the call [m]
    returns (it does not raise) and its result satisfies [P]. *)
Definition always {A} (m : Rand A) (P : A -> Prop) : Prop :=
  ∀ g, ∃ a g', m g = Some (a, g') ∧ P a.

(** The ten labels in the order the prevalence draws test them. *)
Definition CONDITION_LABELS : list string :=
  ["Hypertension"; "Periodontal disease"; "Osteoarthritis"; "Ischemic heart disease";
   "Diabetes"; "Osteoporosis"; "Cancer"; "COPD"; "Asthma"; "Mood and/or anxiety disorder"].

(** The number of medications of a list that have a given category. *)
Definition in_category (category : string) (meds : list medication) : nat :=
  length (filter (λ m, med_category m = category) meds).

(** What the loop over the catalog maintains: [category_counts] counts the
    assigned medications of each category, and no count exceeds 2. *)
Definition counts_agree (st : list medication * gmap string Z) : Prop :=
  ∀ category,
    count_of st.2 category = Z.of_nat (in_category category st.1) ∧
    count_of st.2 category <= 2.

(** Consecutive differences of a list. *)
Fixpoint diffs (l : list Z) : list Z :=
  match l with
  | a :: (b :: _) as tl => (b - a) :: diffs tl
  | _ => []
  end.

(** A slot of the blood-pressure loop: populated below the reading count,
    with the diastolic value at least 10 under the systolic one and the
    labels of [get_bp_type]; zero and empty from the count on. *)
Definition bp_slot_ok (num i : Z) (slot : Z * Z * string * string) : Prop :=
  let '(systolic, diastolic, systolic_type, diastolic_type) := slot in
  if i <? num then
    10 <= systolic - diastolic ∧
    (systolic_type, diastolic_type) = get_bp_type systolic diastolic
  else slot = (0, 0, "", "").

(** The four slots, read off the returned lists. *)
Definition bp_slot_at (r : bp_readings) (i : Z) : option (Z * Z * string * string) :=
  s ← getitem (systolic_readings r) i;
  d ← getitem (diastolic_readings r) i;
  st ← getitem (systolic_types r) i;
  dt ← getitem (diastolic_types r) i;
  Some (s, d, st, dt).

(** A slot of the glucose loop: populated below the reading count, typed
    pre- or post-meal and labelled by [get_glucose_range]; zero and empty
    from the count on. *)
Definition glucose_slot_ok (num i : Z) (slot : Q * string * string) : Prop :=
  let '(glucose, measurement_type, glucose_range) := slot in
  if i <? num then
    (measurement_type = "Pre meal" ∨ measurement_type = "2-hour post meal") ∧
    glucose_range = get_glucose_range glucose measurement_type
  else slot = (0%Q, "", "").

Definition glucose_slot_at (r : glucose_readings_t) (i : Z) : option (Q * string * string) :=
  v ← getitem (glucose_readings r) i;
  mt ← getitem (measurement_types r) i;
  rg ← getitem (glucose_ranges r) i;
  Some (v, mt, rg).

(** The value returned for a patient without the gating condition. *)
Definition EMPTY_BP : bp_readings :=
  BpReadings [0; 0; 0; 0] [0; 0; 0; 0] [""; ""; ""; ""] [""; ""; ""; ""] [""; ""; ""; ""].

Definition EMPTY_GLUCOSE : glucose_readings_t :=
  GlucoseReadings [0; 0; 0; 0]%Q [""; ""; ""; ""] [""; ""; ""; ""] [""; ""; ""; ""].

(** The gates [generate_day] passes to the two measurement generators. *)
Definition bp_gate (conditions : list string) : bool :=
  let cond_set : gset string := list_to_set conditions in
  bool_decide ("Hypertension" ∈ cond_set) || bool_decide ("Ischemic heart disease" ∈ cond_set).

Definition glucose_gate (conditions : list string) : bool :=
  let cond_set : gset string := list_to_set conditions in
  bool_decide ("Diabetes" ∈ cond_set).

(** The generator state after one read of the [np.random] tape. *)
Definition np_advance (g : rng) : rng :=
  Rng (py_tape g) (py_pos g) (np_tape g) (S (np_pos g)).

(** A tape that plays the given entries and then zeros, and the generator
    state at the start of two such tapes. *)
Definition tape_of (entries : list Q) : nat -> Q := λ n, nth n entries 0%Q.

Definition rng_of (py np : list Q) : rng := Rng (tape_of py) 0 (tape_of np) 0.

(** ** Vocabulary of the input files *)

(** The line feed that ends a line of [readlines()]. *)
Definition NL : string := String (Ascii.ascii_of_nat 10) "".

(** A string with no whitespace at either end, and not empty. *)
Definition trimmed (s : string) : Prop := s ≠ "" ∧ lstrip s = s ∧ rstrip s = s.

(** A stripped line the parser takes for a medication name. *)
Definition name_line (line : string) : Prop :=
  line ≠ "" ∧ line ≠ "Medications" ∧ str_in ":" line = false ∧
  startswith line "===" = false ∧ endswith line "===" = false.

(** An entry as the parser can return it. *)
Definition complete_entry (m : medication) : Prop :=
  let '(med, ty, cat, dose) := m in
  name_line med ∧ strip med = med ∧
  ty ≠ "" ∧ strip ty = ty ∧ cat ≠ "" ∧ strip cat = cat ∧ dose ≠ "" ∧ strip dose = dose.

(** The character [c] occurs in [s]. *)
Fixpoint occurs (c : Ascii.ascii) (s : string) : bool :=
  match s with
  | EmptyString => false
  | String c' s' => Ascii.eqb c' c || occurs c s'
  end.

(** A string that fits on one line of a text file: it holds no line feed
    and no carriage return. *)
Definition single_line (s : string) : Prop := occurs LF s = false ∧ occurs CR s = false.

(** An entry that can be written to the catalog file and read back: the
    name is a name line, and the four fields are trimmed and fit on one
    line each. *)
Definition writable_entry (m : medication) : Prop :=
  let '(med, ty, cat, dose) := m in
  name_line med ∧ trimmed med ∧ trimmed ty ∧ trimmed cat ∧ trimmed dose ∧
  single_line med ∧ single_line ty ∧ single_line cat ∧ single_line dose.

(** The block of an entry in the catalog file, and the file of a catalog. *)
Definition catalog_block (m : medication) : list string :=
  let '(med, ty, cat, dose) := m in
  [med +:+ NL; "Type: " +:+ ty +:+ NL; "Category: " +:+ cat +:+ NL;
   "Dose: " +:+ dose +:+ NL; NL].

Definition catalog_text (meds : list medication) : list string :=
  m ← meds; catalog_block m.

(** The text of a file: its lines one after the other. *)
Definition file_text (lines : list string) : string := foldr String.app "" lines.

(** A line as [readlines] returns it from a file that ends with a line
    feed. *)
Definition file_line (l : string) : Prop :=
  ∃ body, l = body +:+ NL ∧ single_line body.

(** A stripped line the parser passes over: blank, the title, a section
    header, or anything that is neither a name nor one of the three fields. *)
Definition passed_over (line : string) : Prop :=
  line = "" ∨ line = "Medications" ∨
  (startswith line "===" = true ∧ endswith line "===" = true) ∨
  ((str_in ":" line = true ∨ startswith line "===" = true ∨ endswith line "===" = true) ∧
   startswith line "Type:" = false ∧ startswith line "Category:" = false ∧
   startswith line "Dose:" = false).

(** What the parser's variables satisfy between two lines. *)
Definition parser_state_ok (st : parser_state) : Prop :=
  let '(all_medications, current_medication, current_type, current_category, current_dose)
    := st in
  Forall complete_entry all_medications ∧
  (∀ med, current_medication = Some med -> name_line med ∧ strip med = med) ∧
  (∀ v, current_type = Some v -> strip v = v) ∧
  (∀ v, current_category = Some v -> strip v = v) ∧
  (∀ v, current_dose = Some v -> strip v = v).

(** A stripped line that is taken for a name: not empty, not a comment. *)
Definition usable_name (line : string) : Prop := line ≠ "" ∧ startswith line "#" = false.

(** How often [n] occurs in [l]. *)
Definition occurrences (n : string) (l : list string) : nat :=
  length (filter (λ x, x = n) l).

(** What reading a name file that exists yields: stripped lines of the
    file in file order, all of them usable, and every usable one as often
    as it occurs in the file. *)
Definition kept_names (lines names : list string) : Prop :=
  names `sublist_of` (strip <$> lines) ∧
  Forall usable_name names ∧
  ∀ n, usable_name n -> occurrences n names = occurrences n (strip <$> lines).

(** ** Vocabulary of the timestamps *)

(** The distance between two times of day, in minutes, the short way
    around the clock. *)
Definition clock_distance (t u : Z) : Z :=
  Z.min (Z.abs (t - u)) (24 * 60 - Z.abs (t - u)).

(** [f"{hour:02d}:{minute:02d}"]. *)
Definition clock_text (hour minute : Z) : string :=
  format_0d 2 hour +:+ ":" +:+ format_0d 2 minute.

(** The last candidate drawn for a reading: hour, minute, and whether it
    passed the spacing test. *)
Definition candidate : Type := Z * Z * bool.

Definition candidate_text (c : candidate) : string := clock_text c.1.1 c.1.2.
Definition candidate_time (c : candidate) : Z := c.1.1 * 60 + c.1.2.
Definition candidate_valid (c : candidate) : bool := c.2.

Definition on_the_clock (c : candidate) : Prop :=
  0 <= c.1.1 <= 23 ∧ 0 <= c.1.2 <= 59.

(** Every time of the list is at least [min_hours_between] hours, around
    the clock, from the times before it. *)
Definition spaced (min_hours_between : Z) (times : list Z) : Prop :=
  ∀ i j ti tj, (i < j)%nat -> times !! i = Some ti -> times !! j = Some tj ->
    min_hours_between * 60 <= clock_distance tj ti.

(** The state of the loop over the readings, explained by the candidates
    kept so far. *)
Definition timestamps_explained (min_hours_between : Z) (draws : list candidate)
    (st : list string * list Z) : Prop :=
  st.1 = candidate_text <$> draws ∧
  st.2 = candidate_time <$> filter (λ c, candidate_valid c = true) draws ∧
  Forall on_the_clock draws ∧
  spaced min_hours_between st.2.

(** The clock text of a time given in minutes since midnight. *)
Definition time_text (t : Z) : string := clock_text (t `div` 60) (t `mod` 60).

(** The two variables of the loop over the readings, between two
    readings: the recorded times are pairwise spaced and appear, in
    order, among the timestamps; and every timestamp is a time of day
    that is recorded or lies within the spacing of a recorded one. *)
Definition readings_recorded (min_hours_between : Z) (st : list string * list Z) : Prop :=
  let '(timestamps, used_times) := st in
  spaced min_hours_between used_times ∧
  (time_text <$> used_times) `sublist_of` timestamps ∧
  Forall (λ timestamp, ∃ t,
            0 <= t < 24 * 60 ∧ timestamp = time_text t ∧
            (t ∈ used_times ∨
             ∃ u, u ∈ used_times ∧ clock_distance t u < min_hours_between * 60))
         timestamps.

(** ** Vocabulary of the reading slots *)

(** Slot [i] of the blood-pressure lists holds a reading: values, labels
    and timestamp are all there. *)
Definition bp_slot_populated (r : bp_readings) (i : nat) : Prop :=
  ∃ systolic diastolic systolic_type diastolic_type timestamp hour minute,
    systolic_readings r !! i = Some systolic ∧
    diastolic_readings r !! i = Some diastolic ∧
    systolic_types r !! i = Some systolic_type ∧
    diastolic_types r !! i = Some diastolic_type ∧
    bp_timestamps r !! i = Some timestamp ∧
    10 <= systolic - diastolic ∧
    (systolic_type, diastolic_type) = get_bp_type systolic diastolic ∧
    systolic_type ≠ "" ∧ diastolic_type ≠ "" ∧
    0 <= hour <= 23 ∧ 0 <= minute <= 59 ∧
    timestamp = clock_text hour minute ∧ timestamp ≠ "".

(** Slot [i] of the blood-pressure lists is unused: zeros and empty strings. *)
Definition bp_slot_empty (r : bp_readings) (i : nat) : Prop :=
  systolic_readings r !! i = Some 0 ∧ diastolic_readings r !! i = Some 0 ∧
  systolic_types r !! i = Some "" ∧ diastolic_types r !! i = Some "" ∧
  bp_timestamps r !! i = Some "".

(** The five lists have four slots each; the first [num] hold readings and
    the others are unused. *)
Definition bp_prefix_populated (num : Z) (r : bp_readings) : Prop :=
  length (systolic_readings r) = 4%nat ∧ length (diastolic_readings r) = 4%nat ∧
  length (systolic_types r) = 4%nat ∧ length (diastolic_types r) = 4%nat ∧
  length (bp_timestamps r) = 4%nat ∧
  ∀ i : nat, (i < 4)%nat ->
    if Z.of_nat i <? num then bp_slot_populated r i else bp_slot_empty r i.

(** Slot [i] of the glucose lists holds a reading: a value with one
    decimal inside the clipping range of its type, the type, the label of
    [get_glucose_range] and a timestamp. *)
Definition glucose_slot_populated (r : glucose_readings_t) (i : nat) : Prop :=
  ∃ glucose measurement_type glucose_range timestamp (tenths : Z) hour minute,
    glucose_readings r !! i = Some glucose ∧
    measurement_types r !! i = Some measurement_type ∧
    glucose_ranges r !! i = Some glucose_range ∧
    glucose_timestamps r !! i = Some timestamp ∧
    glucose = (inject_Z tenths / 10)%Q ∧
    (measurement_type = "Pre meal" ∧ 30 <= tenths <= 90
     ∨ measurement_type = "2-hour post meal" ∧ 40 <= tenths <= 120) ∧
    glucose_range = get_glucose_range glucose measurement_type ∧
    glucose_range ≠ "" ∧
    0 <= hour <= 23 ∧ 0 <= minute <= 59 ∧
    timestamp = clock_text hour minute ∧ timestamp ≠ "".

Definition glucose_slot_empty (r : glucose_readings_t) (i : nat) : Prop :=
  glucose_readings r !! i = Some 0%Q ∧ measurement_types r !! i = Some "" ∧
  glucose_ranges r !! i = Some "" ∧ glucose_timestamps r !! i = Some "".

Definition glucose_prefix_populated (num : Z) (r : glucose_readings_t) : Prop :=
  length (glucose_readings r) = 4%nat ∧ length (measurement_types r) = 4%nat ∧
  length (glucose_ranges r) = 4%nat ∧ length (glucose_timestamps r) = 4%nat ∧
  ∀ i : nat, (i < 4)%nat ->
    if Z.of_nat i <? num then glucose_slot_populated r i else glucose_slot_empty r i.

(** A populated slot of the glucose loop, with the range of its value. *)
Definition glucose_slot_bounded (num i : Z) (slot : Q * string * string) : Prop :=
  let '(glucose, measurement_type, glucose_range) := slot in
  if i <? num then
    ∃ tenths : Z,
      glucose = (inject_Z tenths / 10)%Q ∧
      (measurement_type = "Pre meal" ∧ 30 <= tenths <= 90
       ∨ measurement_type = "2-hour post meal" ∧ 40 <= tenths <= 120) ∧
      glucose_range = get_glucose_range glucose measurement_type
  else slot = (0%Q, "", "").

(** ** Vocabulary of the daily record *)

Definition Exercise_Category (d : exercise_data) (i : Z) : string :=
  if i =? 1 then Exercise_Category_1 d else if i =? 2 then Exercise_Category_2 d
  else if i =? 3 then Exercise_Category_3 d else if i =? 4 then Exercise_Category_4 d
  else Exercise_Category_5 d.

(** The exercise slots of a day with [num] exercises: slots 1 to [num]
    carry pairwise different exercise names and minutes between 0 and 29,
    the later slots are empty, and each category repeats its type. *)
Definition exercise_day (num : Z) (d : exercise_data) : Prop :=
  1 <= num <= 5 ∧
  (∀ i, 1 <= i <= num ->
     Exercise_Type d i ∈ EXERCISE_TYPES ∧ 0 <= Exercise_Minutes d i <= 29) ∧
  (∀ i j, 1 <= i <= num -> 1 <= j <= num -> i ≠ j -> Exercise_Type d i ≠ Exercise_Type d j) ∧
  (∀ i, num < i <= 5 -> Exercise_Type d i = "" ∧ Exercise_Minutes d i = 0) ∧
  (∀ i, 1 <= i <= 5 -> Exercise_Category d i = Exercise_Type d i).

(** A meal time HH:MM with its hour between [lo] and [hi]. *)
Definition time_within (lo hi : Z) (text : string) : Prop :=
  ∃ hour minute, lo <= hour <= hi ∧ 0 <= minute <= 59 ∧ text = clock_text hour minute.

(** The contents of a meal: the five components in order, each 0 or 1,
    and a sugar bucket of the table. *)
Definition meal_shape (meal : list (string * Z) * string) : Prop :=
  meal.1.*1 = MEAL_COMPONENTS ∧
  Forall (λ kv : string * Z, kv.2 = 0 ∨ kv.2 = 1) meal.1 ∧
  meal.2 ∈ SUGAR_CATEGORIES.

(** What every row of a patient's table satisfies. *)
Definition day_in_range (patient_pain_location : string)
    (assigned_medications : list medication) (date : nat) (d : day_data) : Prop :=
  Date d = date ∧
  Mood d ∈ MOOD_VALUES_WITH_EMPTY ∧
  Weather d ∈ WEATHER_VALUES ∧
  0 <= Sleep_Quality_Code d <= 3 ∧
  SLEEP_QUALITIES !! Z.to_nat (Sleep_Quality_Code d) = Some (Sleep_Quality d) ∧
  (∃ tenths : Z, Sleep_Hours d = (inject_Z tenths / 10)%Q ∧ 10 <= tenths <= 100) ∧
  (∃ num, exercise_day num (Exercise d)) ∧
  Pain_Location d = patient_pain_location ∧
  0 <= Pain_Level d <= 10 ∧
  time_within 6 11 (Breakfast_Time d) ∧
  time_within 11 15 (Lunch_Time d) ∧
  time_within 16 22 (Dinner_Time d) ∧
  time_within 22 24 (Late_Night_Snack_Time d) ∧
  meal_shape (Breakfast d) ∧ meal_shape (Lunch d) ∧
  meal_shape (Dinner d) ∧ meal_shape (Late_Night_Snack d) ∧
  Urinary_Continence d ∈ BINARY_VALUES ∧
  Fecal_Continence d ∈ BINARY_VALUES ∧
  Health_Goal_Met d ∈ BINARY_VALUES ∧
  Medication_Count d = len assigned_medications.

(** The measurements of a row: both reading blocks are all-or-nothing, and
    populated only for a patient with the gating condition. *)
Definition day_measurements (conditions : list string) (d : day_data) : Prop :=
  (∃ num, (if bp_gate conditions then 1 <= num <= 4 else num = 0) ∧
          bp_prefix_populated num (Blood_Pressure d)) ∧
  (∃ num, (if glucose_gate conditions then 1 <= num <= 4 else num = 0) ∧
          glucose_prefix_populated num (Glucose d)).

(** A category is _indicated_ for a patient when one of the arms of the
    eligibility chain can select it: a condition-specific category with
    its condition, "Other" for a respiratory or cancer patient, or
    "Vitamins and supplements" for anyone. *)
Definition indicated (f : cond_flags) (category : string) : bool :=
  str_in "Heart health and hypertension" category && has_hypertension f
  || str_in "Diabetes" category && has_diabetes f
  || str_in "Chronic pain and musculoskeletal" category && has_pain f
  || str_in "Mental health" category && has_mood_disorder f
  || str_in "Other" category && (has_respiratory f || has_cancer f)
  || str_in "Vitamins and supplements" category.

(** What the main loop guarantees of one patient. *)
Definition patient_ok (male_names female_names : list string) (p : patient) : Prop :=
  (2 <= length (patient_conditions p))%nat ∧
  NoDup (patient_conditions p) ∧
  Forall (λ c, c ∈ CONDITION_LABELS) (patient_conditions p) ∧
  65 <= patient_age p ∧
  patient_gender p ∈ ["Male"; "Female"] ∧
  patient_name p ∈ (if String.eqb (patient_gender p) "Male" then male_names else female_names) ∧
  patient_pain_location p ∈ PAIN_LOCATIONS ∧
  (1 <= length (assigned_medications p))%nat ∧
  (∀ category, (in_category category (assigned_medications p) <= 2)%nat) ∧
  Forall (λ m, indicated (flags_of (patient_conditions p)) (med_category m) = true)
    (assigned_medications p) ∧
  Date <$> rows p = date_range ∧
  Forall (λ d, day_in_range (patient_pain_location p) (assigned_medications p) (Date d) d ∧
               day_measurements (patient_conditions p) d) (rows p).

(** * The model on concrete draws *)

Example format_0d_examples :
  format_0d 2 7 = "07" ∧ format_0d 2 23 = "23" ∧ format_0d 3 42 = "042" ∧
  format_0d 3 (-5) = "-05".
Proof. by vm_compute. Qed.

Example str_in_examples :
  str_in "Other" "Other" = true ∧
  str_in "Diabetes" "Diabetes (oral or injectable)" = true ∧
  str_in "Mental health" "Mental health (mood and anxiety)" = true ∧
  str_in "Other" "Vitamins and supplements" = false.
Proof. by vm_compute. Qed.

Example get_bp_type_examples :
  get_bp_type 130 85 = ("Pre-high blood pressure", "Pre-high blood pressure") ∧
  get_bp_type 120 80 = ("Ideal", "Ideal") ∧
  get_bp_type 89 59 = ("Low blood pressure", "Low blood pressure") ∧
  get_bp_type 141 91 = ("High blood pressure", "High blood pressure").
Proof. by vm_compute. Qed.

(** No prevalence draw succeeds (every variate is 0.99): two of the four
    common conditions are sampled. *)
Example assign_conditions_none_drawn :
  fst <$> assign_conditions (Rng (λ _, 0.99%Q) 0 (λ _, 0%Q) 0)
  = Some ["Osteoporosis"; "Diabetes"].
Proof. by vm_compute. Qed.

(** Only the last prevalence draw succeeds: a second condition is chosen
    among those not yet present. *)
Example assign_conditions_one_drawn :
  fst <$> assign_conditions
    (rng_of [0.99; 0.99; 0.99; 0.99; 0.99; 0.99; 0.99; 0.99; 0.99; 0.05; 0.9]%Q []%Q)
  = Some ["Mood and/or anxiety disorder"; "Ischemic heart disease"].
Proof. by vm_compute. Qed.

(** Count 2 (variate 0.6), budget 5 + 12 = 17, split point 1 + 8 = 9. *)
Example generate_exercise_data_run :
  fst <$> generate_exercise_data (rng_of [0.5; 0; 0; 0.5]%Q [0.6]%Q)
  = Some (ExerciseData "walking" 9 "walking" "other" 8 "other" "" 0 "" "" 0 "" "" 0 "").
Proof. by vm_compute. Qed.

(** One reading at 12:30: systolic 130 + 15 * 1 = 145, diastolic drawn as
    85 + 10 * 6 = 145 and clamped to 135. *)
Example generate_blood_pressure_readings_run :
  fst <$> generate_blood_pressure_readings true (rng_of [0.5; 0.5; 1; 6]%Q [0.3]%Q)
  = Some (BpReadings [145; 0; 0; 0] [135; 0; 0; 0]
            ["High blood pressure"; ""; ""; ""] ["High blood pressure"; ""; ""; ""]
            ["12:30"; ""; ""; ""]).
Proof. by vm_compute. Qed.

(** [random.shuffle] on three entries: position 2 is exchanged with
    position [randbelow(3)], then position 1 with position [randbelow(2)].
    The six pairs of draws give the six orders, the original one
    included (draws 2 and 1: both exchanges are with the position itself). *)
Example random_shuffle_runs :
  let run u1 u2 := fst <$> random_shuffle [1; 2; 3] (rng_of [u1; u2]%Q []%Q) in
  run 0%Q 0%Q = Some [2; 3; 1] ∧ run 0%Q 0.9%Q = Some [3; 2; 1] ∧
  run 0.4%Q 0%Q = Some [3; 1; 2] ∧ run 0.4%Q 0.9%Q = Some [1; 3; 2] ∧
  run 0.9%Q 0%Q = Some [2; 1; 3] ∧ run 0.9%Q 0.9%Q = Some [1; 2; 3].
Proof. by vm_compute. Qed.

(** On two entries the single draw [randbelow(2)] exchanges them (0) or
    leaves them (1). *)
Example random_shuffle_two :
  fst <$> random_shuffle [1; 2] (rng_of [0]%Q []%Q) = Some [2; 1] ∧
  fst <$> random_shuffle [1; 2] (rng_of [0.9]%Q []%Q) = Some [1; 2].
Proof. by vm_compute. Qed.

(** [readlines] on a text with the three line ends and no final line
    feed, and on the empty text. *)
Example readlines_examples :
  readlines ("a" +:+ String CR (String LF ("b c" +:+ String CR ("d" +:+ String LF "e"))))
    = ["a" +:+ NL; "b c" +:+ NL; "d" +:+ NL; "e"] ∧
  readlines "" = [] ∧
  readlines NL = [NL].
Proof. by vm_compute. Qed.

(** * Reasoning about sampling code *)

Section always_rules.
Context {A B : Type}.

Lemma always_ret (a : A) (P : A -> Prop) : P a -> always (mret a) P.
Proof. intros H g. by exists a, g. Qed.

Lemma always_bind (m : Rand A) (k : A -> Rand B) (P : A -> Prop) (Q : B -> Prop) :
  always m P -> (∀ a, P a -> always (k a) Q) -> always (m ≫= k) Q.
Proof.
  intros Hm Hk g. destruct (Hm g) as (a & g1 & E & Ha).
  destruct (Hk a Ha g1) as (b & g2 & E2 & Hb).
  exists b, g2. split; [|done].
  unfold mbind, rand_bind. by rewrite E.
Qed.

Lemma always_mono (m : Rand A) (P Q : A -> Prop) :
  always m P -> (∀ a, P a -> Q a) -> always m Q.
Proof. intros Hm HPQ g. destruct (Hm g) as (a & g' & E & Ha). eauto. Qed.

Lemma always_or_raise (o : option A) (P : A -> Prop) :
  (∃ a, o = Some a ∧ P a) -> always (or_raise o) P.
Proof. intros (a & -> & Ha). by apply always_ret. Qed.

Lemma always_ret_bind (a : A) (k : A -> Rand B) (Q : B -> Prop) :
  always (k a) Q -> always (mret a ≫= k) Q.
Proof. intros H g. apply H. Qed.

(** Running the first call of a sequence at a known state. *)
Lemma bind_run (m : Rand A) (k : A -> Rand B) g a g1 :
  m g = Some (a, g1) -> (m ≫= k) g = k a g1.
Proof. intros E. unfold mbind, rand_bind. by rewrite E. Qed.
End always_rules.

(** What [always] says of one run. *)
Lemma always_run {A} (m : Rand A) (P : A -> Prop) g a g' :
  always m P -> m g = Some (a, g') -> P a.
Proof. intros H E. destruct (H g) as (a' & g'' & E' & Ha). congruence. Qed.

Lemma always_mapM {A B} (f : A -> Rand B) (P : A -> B -> Prop) (l : list A) :
  (∀ x, x ∈ l -> always (f x) (P x)) -> always (mapM f l) (Forall2 P l).
Proof.
  induction l as [|x l IH]; intros Hf.
  - by apply always_ret.
  - cbn [mapM]. eapply always_bind; [apply Hf; left|].
    intros y Hy. eapply always_bind; [apply IH; intros; apply Hf; by right|].
    intros ys Hys. apply always_ret. by constructor.
Qed.

Lemma mapM_run_length {A B} (f : A -> Rand B) (l : list A) g ys g' :
  mapM f l g = Some (ys, g') -> length ys = length l.
Proof.
  revert g ys. induction l as [|x l IH]; intros g ys E; cbn [mapM] in E.
  - unfold mret, rand_ret in E. by injection E as <- _.
  - unfold mbind at 1, rand_bind in E. destruct (f x g) as [[y g1]|]; [|done].
    unfold mbind at 1, rand_bind in E.
    destruct (mapM f l g1) as [[ys' g2]|] eqn:E'; [|done].
    unfold mret, rand_ret in E. injection E as <- <-. cbn. f_equal. by eapply IH.
Qed.

Lemma always_foldM {A S} (f : S -> A -> Rand S) (I : S -> Prop) (l : list A) s :
  I s -> (∀ s x, I s -> x ∈ l -> always (f s x) I) -> always (foldM f s l) I.
Proof.
  revert s. induction l as [|x l IH]; intros s Hs Hf.
  - by apply always_ret.
  - cbn [foldM]. eapply always_bind; [apply Hf; [done|left]|].
    intros s' Hs'. apply IH; [done|]. intros; apply Hf; [done|by right].
Qed.

(** [step with lem as a H]: run the first call of a sequence by [lem],
    naming its result and what is known of it. *)
Tactic Notation "step" "with" uconstr(lem) "as" simple_intropattern(a) simple_intropattern(H) :=
  eapply always_bind;
  [eapply lem | intros a; let T := fresh in intros T; cbn beta in T; revert T; intros H].

Ltac finish := apply always_ret; cbn beta.

(** ** The primitives return values in their support *)

Lemma unit_interval_bounds q : (0 <= unit_interval q < 1)%Q.
Proof.
  unfold unit_interval. pose proof (Qfloor_le q). pose proof (Qlt_floor q).
  rewrite inject_Z_plus in *. split.
  - by apply (Qplus_le_r _ _ (inject_Z (Qfloor q))); ring_simplify.
  - by apply (Qplus_lt_r _ _ (inject_Z (Qfloor q))); ring_simplify.
Qed.

Lemma always_py_next : always py_next (λ _, True).
Proof. intros g. by eexists _, _. Qed.

Lemma always_np_next : always np_next (λ _, True).
Proof. intros g. by eexists _, _. Qed.

Lemma always_random_random : always random_random (λ u, 0 <= u < 1)%Q.
Proof.
  eapply always_bind; [apply always_py_next|].
  intros q _. apply always_ret, unit_interval_bounds.
Qed.

Lemma scaled_floor_bounds (u : Q) (n : Z) :
  (0 <= u < 1)%Q -> 0 < n -> 0 <= Qfloor (u * inject_Z n) < n.
Proof.
  intros [H0 H1] Hn.
  assert (Hn' : (0 < inject_Z n)%Q) by (change 0%Q with (inject_Z 0); by rewrite <- Zlt_Qlt).
  split.
  - change 0 with (Qfloor 0). apply Qfloor_resp_le.
    apply Qmult_le_0_compat; [done|]. by apply Qlt_le_weak.
  - rewrite Zlt_Qlt. eapply Qle_lt_trans; [apply Qfloor_le|].
    rewrite <- (Qmult_1_l (inject_Z n)) at 2.
    by apply Qmult_lt_compat_r.
Qed.

Lemma always_randbelow n : 0 < n -> always (randbelow n) (λ k, 0 <= k < n).
Proof.
  intros Hn. eapply always_bind; [apply always_random_random|].
  intros u Hu. apply always_ret. by apply scaled_floor_bounds.
Qed.

Lemma always_random_randint a b :
  a <= b -> always (random_randint a b) (λ k, a <= k <= b).
Proof.
  intros Hab. unfold random_randint.
  destruct (Z.ltb_spec b a); [lia|].
  eapply always_bind; [apply (always_randbelow (b - a + 1)); lia|].
  intros k Hk. apply always_ret. cbn beta in *. lia.
Qed.

Lemma always_random_choice {A} (l : list A) :
  l ≠ [] -> always (random_choice l) (λ x, x ∈ l).
Proof.
  intros Hl. unfold random_choice. destruct l as [|x0 l0] eqn:El; [done|].
  rewrite <- El. assert (0 < Z.of_nat (length l)) by (rewrite El, length_cons; lia).
  eapply always_bind; [by apply always_randbelow|].
  intros k Hk. cbn beta in Hk. apply always_or_raise.
  destruct (lookup_lt_is_Some_2 l (Z.to_nat k)) as [x Hx]; [lia|].
  exists x. split; [done|]. by eapply list_elem_of_lookup_2.
Qed.

Lemma always_random_uniform a b : always (random_uniform a b) (λ _, True).
Proof.
  eapply always_bind; [apply always_random_random|]. intros; by apply always_ret.
Qed.

Lemma always_random_normalvariate mu sigma :
  always (random_normalvariate mu sigma) (λ _, True).
Proof. eapply always_bind; [apply always_py_next|]. intros; by apply always_ret. Qed.

Lemma always_np_random_normal loc scale :
  always (np_random_normal loc scale) (λ _, True).
Proof. eapply always_bind; [apply always_np_next|]. intros; by apply always_ret. Qed.

Lemma searchsorted_right_lt (p : list Q) (acc u : Q) :
  (acc <= u)%Q -> (u < acc + Qsum p)%Q ->
  (searchsorted_right (cumsum acc p) u < length p)%nat.
Proof.
  revert acc. induction p as [|x p IH]; intros acc Hlo Hhi; cbn in *.
  - exfalso. apply (Qlt_irrefl u). eapply Qlt_le_trans; [apply Hhi|].
    by ring_simplify.
  - destruct (Qle_bool (acc + x) u) eqn:E; [|lia].
    apply Qle_bool_iff in E. apply -> Nat.succ_lt_mono. apply IH; [done|].
    eapply Qlt_le_trans; [apply Hhi|]. ring_simplify. apply Qle_refl.
Qed.

Lemma always_np_random_choice {A} (a : list A) (p : list Q) :
  length a = length p ->
  forallb (Qle_bool 0) p = true ->
  Qeq_bool (Qsum p) 1 = true ->
  always (np_random_choice a p) (λ x, x ∈ a).
Proof.
  intros Hlen Hpos Hsum. unfold np_random_choice.
  rewrite Hlen, Nat.eqb_refl, Hpos, Hsum. cbn [negb orb].
  step with always_np_next as q _.
  apply always_or_raise.
  destruct (lookup_lt_is_Some_2 a (searchsorted_right (cumsum 0 p) (unit_interval q)))
    as [x Hx].
  - rewrite Hlen. destruct (unit_interval_bounds q) as [H0 H1].
    apply searchsorted_right_lt; [done|].
    apply Qeq_bool_iff in Hsum. rewrite Hsum. by ring_simplify.
  - exists x. split; [done|]. by eapply list_elem_of_lookup_2.
Qed.

(** ** Sampling without replacement and shuffling *)

Lemma insert_perm {A} (l : list A) (j : nat) (x y : A) :
  l !! j = Some x -> x :: <[j := y]> l ≡ₚ y :: l.
Proof.
  revert j. induction l as [|a l IH]; intros [|j] Hj; try done.
  - cbn in Hj. injection Hj as ->. cbn. apply perm_swap.
  - cbn in *. rewrite perm_swap, (IH j Hj). apply perm_swap.
Qed.

Lemma pool_take_perm {A} (pool : list A) (j : nat) :
  (j < length pool)%nat ->
  ∃ x pool', pool_take pool j = Some (x, pool') ∧ x :: pool' ≡ₚ pool.
Proof.
  intros Hj. destruct pool as [|a0 pool0] using rev_ind; [cbn in Hj; lia|].
  clear IHpool0. rename pool0 into init, a0 into lst.
  unfold pool_take. rewrite last_snoc, length_app. cbn [length mbind option_bind].
  replace (length init + 1 - 1)%nat with (length init) by lia.
  rewrite length_app in Hj. cbn in Hj.
  destruct (decide (j < length init)%nat) as [Hlt|Hge].
  - destruct (lookup_lt_is_Some_2 init j Hlt) as [x Hx].
    rewrite lookup_app_l, Hx by done. cbn.
    exists x, (<[j := lst]> init). split.
    + f_equal. f_equal. rewrite insert_app_l by done.
      rewrite take_app_length'; [done|]. by rewrite length_insert.
    + rewrite (insert_perm _ _ _ _ Hx). by rewrite Permutation_cons_append.
  - assert (j = length init) as -> by lia.
    rewrite list_lookup_middle by done. cbn.
    exists lst, init. split.
    + f_equal. f_equal.
      rewrite insert_app_r_alt, Nat.sub_diag by done. cbn.
      by rewrite take_app_length.
    + by rewrite Permutation_cons_append.
Qed.

Lemma always_sample_loop {A} (k : nat) (pool : list A) :
  (k <= length pool)%nat ->
  always (sample_loop k pool) (λ s, length s = k ∧ ∃ rest, (s ++ rest)%list ≡ₚ pool).
Proof.
  revert pool. induction k as [|k IH]; intros pool Hk; cbn [sample_loop].
  - finish. split; [done|]. by exists pool.
  - step with (always_randbelow (Z.of_nat (length pool))) as j Hj; [lia|].
    destruct (pool_take_perm pool (Z.to_nat j)) as (x & pool' & E & Hperm); [lia|].
    rewrite E. cbn [or_raise].
    apply always_ret_bind.
    assert (length pool = S (length pool')) as Hlen by (by rewrite <- Hperm).
    step with (IH pool') as rest [Hl (r & Hr)]; [lia|].
    finish. split; [cbn; lia|].
    exists r. cbn. by rewrite Hr.
Qed.

Lemma always_random_sample {A} (population : list A) (k : Z) :
  0 <= k <= len population ->
  always (random_sample population k)
    (λ s, len s = k ∧ ∃ rest, (s ++ rest)%list ≡ₚ population).
Proof.
  intros Hk. unfold random_sample, len in *.
  destruct (Z.ltb_spec k 0); [lia|]. destruct (Z.ltb_spec (Z.of_nat (length population)) k); [lia|].
  cbn [orb]. eapply always_mono; [apply always_sample_loop; lia|].
  intros s [Hl Hr]. split; [lia|done].
Qed.

Lemma swap_perm {A} (l : list A) (i j : nat) : swap l i j ≡ₚ l.
Proof.
  unfold swap. destruct (l !! i) as [a|] eqn:Ei; [|done].
  destruct (l !! j) as [b|] eqn:Ej; [|done].
  destruct (decide (i = j)) as [->|Hne].
  - assert (a = b) as -> by congruence.
    by rewrite (list_insert_id l j b Ej), (list_insert_id l j b Ej).
  - apply (Permutation_cons_inv (a := b)).
    rewrite (insert_perm (<[i := b]> l) j b a).
    + by apply insert_perm.
    + by rewrite list_lookup_insert_ne.
Qed.

Lemma always_shuffle_loop {A} (i : nat) (x : list A) :
  always (shuffle_loop i x) (λ x', x' ≡ₚ x).
Proof.
  revert x. induction i as [|i IH]; intros x; cbn [shuffle_loop].
  - by finish.
  - step with (always_randbelow (Z.of_nat (S i) + 1)) as j Hj; [lia|].
    eapply always_mono; [apply IH|]. intros x' Hx'. cbn beta in Hx'.
    by rewrite Hx', swap_perm.
Qed.

Lemma always_random_shuffle {A} (x : list A) :
  always (random_shuffle x) (λ x', x' ≡ₚ x).
Proof. apply always_shuffle_loop. Qed.

(** * Chronic conditions: the floor of two *)

Lemma always_prevalence_draw p c conditions seen :
  (conditions `sublist_of` seen) ->
  always (prevalence_draw p c conditions) (λ r, r `sublist_of` (seen ++ [c])%list).
Proof.
  intros Hsub. unfold prevalence_draw.
  step with always_random_random as r _. finish.
  destruct (Qltb r p).
  - by apply sublist_app.
  - by apply sublist_inserts_r.
Qed.

Lemma force_common_id common conditions :
  (len conditions <? 2) = false ->
  (if len conditions <? 2 then force_common common conditions else conditions) = conditions.
Proof. by intros ->. Qed.

Lemma sample_NoDup {A} (s rest pool : list A) :
  NoDup pool -> (s ++ rest)%list ≡ₚ pool -> NoDup s.
Proof. intros Hnd Hp. rewrite <- Hp in Hnd. by apply NoDup_app in Hnd as [? _]. Qed.

Lemma assign_conditions_floor :
  always assign_conditions (λ conditions, (2 <= length conditions)%nat ∧ NoDup conditions).
Proof.
  unfold assign_conditions.
  step with (always_prevalence_draw _ _ [] []) as c1 H1; [done|].
  step with (always_prevalence_draw _ _ c1) as c2 H2; [done|].
  step with (always_prevalence_draw _ _ c2) as c3 H3; [done|].
  step with (always_prevalence_draw _ _ c3) as c4 H4; [done|].
  step with (always_prevalence_draw _ _ c4) as c5 H5; [done|].
  step with (always_prevalence_draw _ _ c5) as c6 H6; [done|].
  step with (always_prevalence_draw _ _ c6) as c7 H7; [done|].
  step with (always_prevalence_draw _ _ c7) as c8 H8; [done|].
  step with (always_prevalence_draw _ _ c8) as c9 H9; [done|].
  step with (always_prevalence_draw _ _ c9) as conditions Hsub; [done|].
  clear - Hsub. change (conditions `sublist_of` CONDITION_LABELS) in Hsub.
  assert (NoDup conditions) as Hnd
    by (eapply sublist_NoDup; [|done]; apply (bool_decide_unpack _); by vm_compute).
  eapply (always_bind _ _ (λ c, (2 <= length c)%nat ∧ NoDup c)).
  2:{ intros c [Hlen Hc]. finish. rewrite force_common_id; [done|].
      unfold len. apply Z.ltb_ge. lia. }
  unfold len. destruct conditions as [|c0 [|c1 rest]]; cbn [length].
  - (* no condition drawn: two of the four common ones *)
    change (Z.of_nat 0 =? 0) with true. cbn match.
    step with (always_random_sample
      ["Hypertension"; "Osteoarthritis"; "Diabetes"; "Osteoporosis"] 2) as s [Hl (r & Hr)];
      [by cbn|].
    finish. unfold len in Hl. split; [cbn; lia|].
    cbn. eapply sample_NoDup; [|done]. apply (bool_decide_unpack _). by vm_compute.
  - (* one condition drawn: a second one from those not yet present *)
    change (Z.of_nat 1 =? 0) with false. change (Z.of_nat 1 =? 1) with true. cbn match. cbn zeta.
    set (available := filter _ _).
    assert (∃ x, x ∈ available) as [x0 Hx0].
    { destruct (decide (c0 = "Hypertension")) as [->|Hne].
      - exists "Diabetes". apply list_elem_of_filter. split; [|set_solver].
        by rewrite list_elem_of_singleton.
      - exists "Hypertension". apply list_elem_of_filter. split; [|set_solver].
        rewrite list_elem_of_singleton. congruence. }
    assert (available ≠ []) as Hne by (intros E; rewrite E in Hx0; by apply elem_of_nil in Hx0).
    destruct available as [|a av] eqn:Eav; [done|]. rewrite <- Eav in *.
    step with (always_random_choice available) as c Hc; [done|].
    finish. split; [cbn; lia|]. cbn.
    subst available. apply list_elem_of_filter in Hc as [Hc _].
    apply NoDup_cons. split; [|apply NoDup_singleton].
    rewrite list_elem_of_singleton in *. congruence.
  - (* two or more: unchanged *)
    destruct (Z.eqb_spec (Z.of_nat (S (S (length rest)))) 0); [lia|].
    destruct (Z.eqb_spec (Z.of_nat (S (S (length rest)))) 1); [lia|].
    finish. split; [cbn; lia|done].
Qed.

(** * Medication assignment: the category cap and the floor of one *)

Lemma in_category_snoc category meds m :
  in_category category (meds ++ [m]) =
  (in_category category meds + if decide (med_category m = category) then 1 else 0)%nat.
Proof.
  unfold in_category. rewrite filter_app, length_app. f_equal.
  rewrite filter_cons, filter_nil. by destruct (decide _).
Qed.

Lemma always_apply_rule r : always (apply_rule r) (λ _, True).
Proof.
  destruct r; cbn [apply_rule]; try by finish.
  all: step with always_random_random as u _; by finish.
Qed.

Lemma always_should_assign f category : always (should_assign f category) (λ _, True).
Proof. apply always_apply_rule. Qed.

Lemma always_assign_step f st m :
  counts_agree st -> always (assign_step f st m) counts_agree.
Proof.
  intros Hst. destruct st as [assigned counts]. unfold assign_step.
  destruct (Z.leb_spec 2 (count_of counts (med_category m))) as [|Hlt]; [by finish|].
  step with always_should_assign as eligible _.
  eapply (always_bind _ _ (λ _, True)).
  { destruct eligible; [|by finish].
    step with always_random_random as u _. by finish. }
  intros [] _; [|by finish]. finish.
  intros category. destruct (Hst category) as [Hc Hle]. cbn [fst snd] in *.
  rewrite in_category_snoc. unfold count_of in *.
  destruct (decide (med_category m = category)) as [<-|Hne].
  - rewrite lookup_insert_eq. cbn. lia.
  - rewrite lookup_insert_ne by done. cbn. lia.
Qed.

Lemma assign_medications_bounds conditions all_medications :
  always (assign_medications_by_conditions conditions all_medications)
    (λ r, (1 <= length r.1)%nat ∧
          (∀ category, (in_category category r.1 <= 2)%nat) ∧
          r.2 ≡ₚ all_medications).
Proof.
  unfold assign_medications_by_conditions. cbn zeta.
  step with always_random_shuffle as shuffled Hperm.
  step with (always_foldM (assign_step (flags_of conditions)) counts_agree) as st Hst.
  { intros category. cbn. unfold count_of. by rewrite lookup_empty. }
  { intros s x Hs _. by apply always_assign_step. }
  destruct st as [assigned counts]. finish. cbn [fst snd].
  split_and!; [| |done].
  - destruct assigned; cbn; lia.
  - intros category. destruct assigned as [|m0 rest].
    + unfold in_category. rewrite filter_cons, filter_nil.
      destruct (decide _); cbn; lia.
    + destruct (Hst category) as [Hc Hle]. cbn [fst snd] in *. lia.
Qed.

(** * Exercise: the minutes budget *)

Lemma diffs_length l : length (diffs l) = (length l - 1)%nat.
Proof.
  induction l as [|a [|b l] IH]; [done..|].
  cbn [diffs length] in *. lia.
Qed.

Lemma diffs_lookup l i y :
  diffs l !! i = Some y ->
  ∃ a b, l !! i = Some b ∧ l !! S i = Some a ∧ y = a - b.
Proof.
  revert i. induction l as [|a [|b l] IH]; intros i Hi; [done..|].
  cbn [diffs] in Hi. destruct i as [|i].
  - cbn in Hi. injection Hi as <-. by exists b, a.
  - cbn in Hi. destruct (IH i Hi) as (a' & b' & ? & ? & ?). by exists a', b'.
Qed.

(** The differences telescope: they sum to last minus first. *)
Lemma Zsum_diffs a l : Zsum (diffs (a :: l)) = default a (last (a :: l)) - a.
Proof.
  revert a. induction l as [|b l IH]; intros a; [cbn; lia|].
  change (diffs (a :: b :: l)) with ((b - a) :: diffs (b :: l)).
  change (Zsum ((b - a) :: diffs (b :: l))) with (b - a + Zsum (diffs (b :: l))).
  rewrite IH, last_cons_cons.
  destruct (last (b :: l)) eqn:E; cbn; [lia|].
  by apply last_None in E.
Qed.

Lemma getitem_nat {A} (l : list A) (i : nat) : getitem l (Z.of_nat i) = l !! i.
Proof.
  unfold getitem. destruct (Z.ltb_spec (Z.of_nat i) 0); [lia|]. by rewrite Nat2Z.id.
Qed.

Lemma insert_sorted_length x l : length (insert_sorted x l) = S (length l).
Proof.
  induction l as [|y l IH]; [done|]. cbn. destruct (x <=? y); cbn; lia.
Qed.

Lemma sorted_length l : length (sorted l) = length l.
Proof.
  induction l as [|x l IH]; [done|]. cbn. by rewrite insert_sorted_length, <- IH.
Qed.

(** The list comprehension over [range(num_exercises)] computes the
    consecutive differences of [splits]. *)
Lemma split_differences (splits : list Z) (n : Z) :
  Z.of_nat (length splits) = n + 1 ->
  mapM (λ i, a ← getitem splits (i + 1); b ← getitem splits i; Some (a - b)) (range n)
  = Some (diffs splits).
Proof.
  intros Hlen. apply mapM_Some, Forall2_same_length_lookup_2.
  - unfold range. rewrite length_seqZ, diffs_length. lia.
  - intros i x y Hx Hy. apply lookup_seqZ in Hx as [-> _].
    apply diffs_lookup in Hy as (a & b & Hb & Ha & ->).
    rewrite Z.add_0_l. replace (Z.of_nat i + 1) with (Z.of_nat (S i)) by lia.
    rewrite !getitem_nat, Ha. cbn. by rewrite Hb.
Qed.

Lemma always_split_minutes num total :
  1 <= num -> 2 <= total ->
  always (split_minutes num total) (λ mins, len mins = num ∧ Zsum mins = total).
Proof.
  intros Hnum Htotal. unfold split_minutes.
  destruct (Z.eqb_spec num 1) as [->|Hne].
  - finish. split; [done|]. cbn. lia.
  - step with (always_mapM _ (λ _ p, 1 <= p <= total - 1)) as points Hpts.
    { intros x _. apply always_random_randint. lia. }
    apply Forall2_length in Hpts. unfold range in Hpts. rewrite length_seqZ in Hpts.
    cbn zeta. rewrite split_differences.
    2:{ cbn. rewrite length_app, sorted_length. cbn. lia. }
    finish. unfold len. split.
    + rewrite diffs_length. cbn. rewrite length_app, sorted_length. cbn. lia.
    + cbn [app]. rewrite Zsum_diffs, app_comm_cons, last_snoc. cbn. lia.
Qed.

(** The slots of the dictionary literal, by number. *)
Lemma exercise_slots_spec (selected : list string) (mins : list Z) (num : Z) :
  1 <= num <= 5 -> len selected = num -> len mins = num ->
  ∃ d, exercise_slots selected mins = Some d ∧
       Zsum (Exercise_Minutes d <$> seqZ 1 num) = Zsum mins ∧
       (∀ i, 1 <= i <= num -> Some (Exercise_Type d i) = selected !! Z.to_nat (i - 1)) ∧
       (∀ i, 1 <= i <= num -> Some (Exercise_Minutes d i) = mins !! Z.to_nat (i - 1)) ∧
       (∀ i, num < i <= 5 -> Exercise_Minutes d i = 0 ∧ Exercise_Type d i = "").
Proof.
  intros Hnum Hs Hm. unfold len in *.
  assert (num = 1 ∨ num = 2 ∨ num = 3 ∨ num = 4 ∨ num = 5) as Hcases by lia.
  destruct selected as [|s1 [|s2 [|s3 [|s4 [|s5 [|s6 ?]]]]]]; cbn [length] in Hs;
    try lia;
  destruct mins as [|m1 [|m2 [|m3 [|m4 [|m5 [|m6 ?]]]]]]; cbn [length] in Hm;
    try lia.
  all: eexists; split; [reflexivity|].
  all: assert (num = Z.of_nat (Z.to_nat num)) as Hn by lia;
       destruct (Z.to_nat num) as [|[|[|[|[|[|?]]]]]]; try lia; subst num.
  all: split; [vm_compute; lia|].
  all: split_and!; intros i Hi.
  all: try (assert (i = 1 ∨ i = 2 ∨ i = 3 ∨ i = 4 ∨ i = 5) as Hi' by lia;
            destruct Hi' as [->|[->|[->|[->| ->]]]]; try lia; done).
Qed.

Lemma always_exercise_count :
  always (np_random_choice [1; 2; 3; 4; 5] exercise_probs) (λ num, 1 <= num <= 5).
Proof.
  eapply always_mono; [by apply always_np_random_choice|].
  intros num Hnum. cbn beta in Hnum. set_unfold in Hnum. lia.
Qed.

(** What follows the draws of the count and of the budget in
    [generate_exercise_data]. *)
Lemma always_exercise_tail num total :
  1 <= num <= 5 -> 5 <= total <= 29 ->
  always
    (selected_exercises ← random_sample EXERCISE_TYPES num;
     exercise_minutes ← split_minutes num total;
     or_raise (exercise_slots selected_exercises exercise_minutes))
    (λ d, Zsum (Exercise_Minutes d <$> seqZ 1 num) = total ∧
          (∀ i, 1 <= i <= num -> Exercise_Type d i ∈ EXERCISE_TYPES) ∧
          (∀ i, num < i <= 5 -> Exercise_Minutes d i = 0 ∧ Exercise_Type d i = "")).
Proof.
  intros Hnum Htotal.
  step with (always_random_sample EXERCISE_TYPES num) as selected [Hlen (rest & Hrest)];
    [change (len EXERCISE_TYPES) with 7; lia|].
  step with (always_split_minutes num total) as mins [Hmlen Hsum]; [lia..|].
  apply always_or_raise.
  destruct (exercise_slots_spec selected mins num) as (d & E & Hs & Ht & _ & Hu); [done..|].
  exists d. split; [done|]. split_and!; [lia| |done].
  intros i Hi. pose proof (Ht i Hi) as Hti. symmetry in Hti.
  apply list_elem_of_lookup_2 in Hti.
  rewrite <- Hrest. apply elem_of_app. by left.
Qed.

Lemma always_generate_exercise_data : always generate_exercise_data (λ _, True).
Proof.
  unfold generate_exercise_data.
  step with always_exercise_count as num Hnum.
  step with (always_random_randint 5 29) as total Htotal; [lia|].
  eapply always_mono; [by apply always_exercise_tail|]. done.
Qed.

(** * Timestamps and meals always come out *)

Lemma always_draw_spaced_time more mh used :
  always (draw_spaced_time more mh used) (λ _, True).
Proof.
  induction more as [|more IH]; cbn [draw_spaced_time].
  all: step with (always_random_randint 0 23) as hour _; [lia|].
  all: step with (always_random_randint 0 59) as minute _; [lia|].
  all: destruct (forallb _ _); by try finish.
Qed.

Lemma always_timestamps num mh :
  always (generate_measurement_timestamps_with_spacing num mh) (λ _, True).
Proof.
  unfold generate_measurement_timestamps_with_spacing.
  destruct (num =? 0); [by finish|].
  step with (always_foldM (timestamp_step mh) (λ _, True)) as st _; [done| |].
  - intros [ts used] i _ _. unfold timestamp_step.
    step with always_draw_spaced_time as [[hour minute] valid] _. by finish.
  - destruct st. by finish.
Qed.

Lemma always_generate_meal_contents meal_type :
  always (generate_meal_contents meal_type) (λ _, True).
Proof.
  unfold generate_meal_contents.
  eapply (always_bind _ _ (λ _, True)).
  { destruct meal_type as [mt|]; [|by finish].
    destruct (negb _); [|by finish].
    destruct (MEAL_FOOD_PROBABILITIES !! mt); [|by finish].
    step with always_random_random as r _. by finish. }
  intros [] _; [by finish|].
  step with (always_mapM _ (λ _ _, True)) as components _.
  { intros comp _. step with (always_random_choice [1; 0]) as v _; [done|]. by finish. }
  step with (always_np_random_choice SUGAR_CATEGORIES SUGAR_WEIGHTS) as sugar _; [done..|].
  by finish.
Qed.

Lemma always_meal_time time_range :
  time_range.1 <= time_range.2 -> always (meal_time time_range) (λ _, True).
Proof.
  intros H. unfold meal_time.
  step with (always_random_randint) as hour _; [done|].
  step with (always_random_randint 0 59) as minute _; [lia|]. by finish.
Qed.

(** * Blood pressure and glucose slots *)

Lemma always_reading_count :
  always (np_random_choice [1; 2; 3; 4] reading_count_probs) (λ num, 1 <= num <= 4).
Proof.
  eapply always_mono; [by apply always_np_random_choice|].
  intros num Hnum. cbn beta in Hnum. set_unfold in Hnum. lia.
Qed.

Lemma always_bp_slot num i : always (bp_slot num i) (bp_slot_ok num i).
Proof.
  unfold bp_slot, bp_slot_ok. destruct (i <? num); [|by finish].
  step with always_random_normalvariate as s _.
  step with always_random_normalvariate as d _.
  cbn zeta.
  set (systolic := int_of_Q s). set (d0 := int_of_Q d).
  destruct (Z.leb_spec systolic (Z.min d0 (systolic - 10))) as [Hle|Hgt]; [lia|].
  destruct (get_bp_type systolic (Z.min d0 (systolic - 10))) as [st dt] eqn:E.
  finish. rewrite E. split; [lia|done].
Qed.

Lemma Forall2_range4 {B} (P : Z -> B -> Prop) (l : list B) :
  Forall2 P (range 4) l ->
  ∃ b0 b1 b2 b3, l = [b0; b1; b2; b3] ∧ P 0 b0 ∧ P 1 b1 ∧ P 2 b2 ∧ P 3 b3.
Proof.
  change (range 4) with [0; 1; 2; 3]. intros H.
  repeat match goal with
         | H : Forall2 _ (_ :: _) _ |- _ => apply Forall2_cons_inv_l in H as (? & ? & ? & H & ->)
         | H : Forall2 _ [] _ |- _ => apply Forall2_nil_inv_l in H as ->
         end.
  by eexists _, _, _, _.
Qed.

Lemma always_bp_tail num :
  always
    (timestamps ← generate_measurement_timestamps_with_spacing num 1;
     slots ← mapM (bp_slot num) (range 4);
     mret (BpReadings (slots.*1.*1.*1) (slots.*1.*1.*2) (slots.*1.*2) (slots.*2) timestamps))
    (λ r, ∀ i, 0 <= i < 4 -> ∃ slot, bp_slot_at r i = Some slot ∧ bp_slot_ok num i slot).
Proof.
  step with always_timestamps as timestamps _.
  step with (always_mapM (bp_slot num) (bp_slot_ok num)) as slots Hslots.
  { intros i _. apply always_bp_slot. }
  apply Forall2_range4 in Hslots
    as ([[[s0 d0] st0] dt0] & [[[s1 d1] st1] dt1] & [[[s2 d2] st2] dt2]
        & [[[s3 d3] st3] dt3] & -> & H0 & H1 & H2 & H3).
  finish. intros i Hi.
  assert (i = 0 ∨ i = 1 ∨ i = 2 ∨ i = 3) as [->|[->|[->| ->]]] by lia;
    eexists; (split; [reflexivity|done]).
Qed.

Lemma always_glucose_slot num i : always (glucose_slot num i) (glucose_slot_ok num i).
Proof.
  unfold glucose_slot, glucose_slot_ok. destruct (i <? num); [|by finish].
  step with (always_random_choice ["Pre meal"; "2-hour post meal"]) as mt Hmt; [done|].
  assert (mt = "Pre meal" ∨ mt = "2-hour post meal") as Hmt' by (set_unfold in Hmt; tauto).
  eapply (always_bind _ _ (λ _, True)).
  { destruct (String.eqb mt "Pre meal");
      (step with always_np_random_normal as x _; by finish). }
  intros glucose _. by finish.
Qed.

Lemma always_glucose_tail num :
  always
    (timestamps ← generate_measurement_timestamps_with_spacing num 1;
     slots ← mapM (glucose_slot num) (range 4);
     mret (GlucoseReadings (slots.*1.*1) (slots.*1.*2) (slots.*2) timestamps))
    (λ r, ∀ i, 0 <= i < 4 -> ∃ slot, glucose_slot_at r i = Some slot ∧ glucose_slot_ok num i slot).
Proof.
  step with always_timestamps as timestamps _.
  step with (always_mapM (glucose_slot num) (glucose_slot_ok num)) as slots Hslots.
  { intros i _. apply always_glucose_slot. }
  apply Forall2_range4 in Hslots
    as ([[v0 t0] r0] & [[v1 t1] r1] & [[v2 t2] r2] & [[v3 t3] r3] & -> & H0 & H1 & H2 & H3).
  finish. intros i Hi.
  assert (i = 0 ∨ i = 1 ∨ i = 2 ∨ i = 3) as [->|[->|[->| ->]]] by lia;
    eexists; (split; [reflexivity|done]).
Qed.

Lemma always_generate_blood_pressure_readings has_condition :
  always (generate_blood_pressure_readings has_condition)
    (λ r, has_condition = false -> r = EMPTY_BP).
Proof.
  unfold generate_blood_pressure_readings. destruct has_condition; cbn [negb].
  - step with always_reading_count as num _.
    eapply always_mono; [apply always_bp_tail|]. done.
  - by finish.
Qed.

Lemma always_generate_glucose_readings has_diabetes :
  always (generate_glucose_readings has_diabetes)
    (λ r, has_diabetes = false -> r = EMPTY_GLUCOSE).
Proof.
  unfold generate_glucose_readings. destruct has_diabetes; cbn [negb].
  - step with always_reading_count as num _.
    eapply always_mono; [apply always_glucose_tail|]. done.
  - by finish.
Qed.

(** * The daily record and the gating of measurements *)

Lemma always_generate_day conditions loc meds date :
  always (generate_day conditions loc meds date)
    (λ d, (bp_gate conditions = false -> Blood_Pressure d = EMPTY_BP) ∧
          (glucose_gate conditions = false -> Glucose d = EMPTY_GLUCOSE)).
Proof.
  unfold generate_day. cbn zeta.
  step with (always_np_random_choice MOOD_VALUES_WITH_EMPTY MOOD_PROBABILITIES) as mood _;
    [done..|].
  step with (always_random_choice WEATHER_VALUES) as weather _; [done|].
  step with (always_random_choice [0; 1; 2; 3]) as code Hcode; [done|].
  step with always_or_raise as sleep_quality _.
  { instantiate (1 := λ _, True). set_unfold in Hcode.
    destruct Hcode as [->|[->|[->|[->|[]]]]]; by eexists. }
  step with always_random_uniform as sleep_hours _.
  step with always_meal_time as breakfast_time _; [done|].
  step with always_generate_meal_contents as breakfast _.
  step with always_meal_time as lunch_time _; [done|].
  step with always_generate_meal_contents as lunch _.
  step with always_meal_time as dinner_time _; [done|].
  step with always_generate_meal_contents as dinner _.
  step with always_meal_time as late_snack_time _; [done|].
  step with always_generate_meal_contents as late_snack _.
  step with always_generate_exercise_data as exercise _.
  step with (always_random_randint 0 10) as pain_level _; [lia|].
  step with (always_random_choice BINARY_VALUES) as urinary _; [done|].
  step with (always_random_choice BINARY_VALUES) as fecal _; [done|].
  step with (always_random_choice BINARY_VALUES) as goal _; [done|].
  step with always_generate_blood_pressure_readings as bp Hbp.
  step with always_generate_glucose_readings as glucose Hglucose.
  finish. cbn [Blood_Pressure Glucose]. by split.
Qed.

Lemma always_generate_patient_data conditions loc meds :
  always (generate_patient_data conditions loc meds)
    (λ days, length days = 396%nat ∧
       (bp_gate conditions = false -> Forall (λ d, Blood_Pressure d = EMPTY_BP) days) ∧
       (glucose_gate conditions = false -> Forall (λ d, Glucose d = EMPTY_GLUCOSE) days)).
Proof.
  unfold generate_patient_data.
  eapply always_mono.
  { apply (always_mapM _ (λ _ d,
      (bp_gate conditions = false -> Blood_Pressure d = EMPTY_BP) ∧
      (glucose_gate conditions = false -> Glucose d = EMPTY_GLUCOSE))).
    intros date _. apply always_generate_day. }
  intros days Hdays. cbn beta in Hdays. split_and!.
  - apply Forall2_length in Hdays. by rewrite <- Hdays.
  - intros Hgate. apply Forall2_Forall_r with (P := (λ _ d, Blood_Pressure d = EMPTY_BP)) (l := date_range).
    + eapply Forall2_impl; [done|]. intros ?? [H _]. by apply H.
    + apply Forall_true. done.
  - intros Hgate. apply Forall2_Forall_r with (P := (λ _ d, Glucose d = EMPTY_GLUCOSE)) (l := date_range).
    + eapply Forall2_impl; [done|]. intros ?? [_ H]. by apply H.
    + apply Forall_true. done.
Qed.

(** ** The readings of a day, next to the count that was drawn for them *)

Lemma bp_readings_at g :
  ∃ num g1 r g',
    np_random_choice [1; 2; 3; 4] reading_count_probs g = Some (num, g1) ∧
    generate_blood_pressure_readings true g = Some (r, g') ∧
    1 <= num <= 4 ∧
    ∀ i, 0 <= i < 4 -> ∃ slot, bp_slot_at r i = Some slot ∧ bp_slot_ok num i slot.
Proof.
  destruct (always_reading_count g) as (num & g1 & E & Hnum).
  destruct (always_bp_tail num g1) as (r & g' & E' & Hr).
  exists num, g1, r, g'. split; [done|]. split; [|done].
  unfold generate_blood_pressure_readings. cbn [negb].
  by rewrite (bind_run _ _ _ _ _ E).
Qed.

Lemma glucose_readings_at g :
  ∃ num g1 r g',
    np_random_choice [1; 2; 3; 4] reading_count_probs g = Some (num, g1) ∧
    generate_glucose_readings true g = Some (r, g') ∧
    1 <= num <= 4 ∧
    ∀ i, 0 <= i < 4 -> ∃ slot, glucose_slot_at r i = Some slot ∧ glucose_slot_ok num i slot.
Proof.
  destruct (always_reading_count g) as (num & g1 & E & Hnum).
  destruct (always_glucose_tail num g1) as (r & g' & E' & Hr).
  exists num, g1, r, g'. split; [done|]. split; [|done].
  unfold generate_glucose_readings. cbn [negb].
  by rewrite (bind_run _ _ _ _ _ E).
Qed.

(** * Properties of the generated dataset *)

(** C1 (BP ordering).  Whatever the draws, [generate_blood_pressure_readings]
    returns for a patient with the gating condition, and in every
    populated slot (index below the reading count that was drawn) the
    stored systolic value exceeds the stored diastolic value by at least 10. *)
Theorem bp_ordering g :
  ∃ num g1 r g',
    np_random_choice [1; 2; 3; 4] reading_count_probs g = Some (num, g1) ∧
    generate_blood_pressure_readings true g = Some (r, g') ∧
    ∀ i, 0 <= i < num ->
      ∃ systolic diastolic,
        getitem (systolic_readings r) i = Some systolic ∧
        getitem (diastolic_readings r) i = Some diastolic ∧
        10 <= systolic - diastolic.
Proof.
  destruct (bp_readings_at g) as (num & g1 & r & g' & E & E' & Hnum & Hslots).
  exists num, g1, r, g'. split_and!; [done..|].
  intros i Hi. destruct (Hslots i) as ([[[s d] st] dt] & Hat & Hok); [lia|].
  unfold bp_slot_ok in Hok. destruct (Z.ltb_spec i num); [|lia].
  destruct Hok as [Hgap _]. unfold bp_slot_at in Hat.
  destruct (getitem (systolic_readings r) i) as [s'|]; [|done].
  destruct (getitem (diastolic_readings r) i) as [d'|]; [|done].
  destruct (getitem (systolic_types r) i) as [st'|]; [|done].
  destruct (getitem (diastolic_types r) i) as [dt'|]; [|done].
  cbn in Hat. injection Hat as -> -> -> ->. by exists s, d.
Qed.

Lemma not_in_set (c : string) (conditions : list string) :
  (c ∉ conditions) -> bool_decide (c ∈ (list_to_set conditions : gset string)) = false.
Proof. intros H. apply bool_decide_eq_false. by rewrite elem_of_list_to_set. Qed.

(** C2 (gating).  For every patient, [generate_patient_data] returns one
    row per date; if the conditions contain neither Hypertension nor
    Ischemic heart disease, every row has the four blood-pressure slots
    zero with empty types and timestamps; if they do not contain Diabetes,
    every row has the four glucose slots zero with empty measurement type,
    range and timestamp. *)
Theorem measurement_gating conditions pain_location meds :
  always (generate_patient_data conditions pain_location meds)
    (λ days,
       length days = length date_range ∧
       (("Hypertension" ∉ conditions) ∧ ("Ischemic heart disease" ∉ conditions) ->
        Forall (λ d, Blood_Pressure d =
          BpReadings [0; 0; 0; 0] [0; 0; 0; 0] [""; ""; ""; ""] [""; ""; ""; ""]
                     [""; ""; ""; ""]) days) ∧
       (("Diabetes" ∉ conditions) ->
        Forall (λ d, Glucose d =
          GlucoseReadings [0; 0; 0; 0]%Q [""; ""; ""; ""] [""; ""; ""; ""] [""; ""; ""; ""])
          days)).
Proof.
  eapply always_mono; [apply always_generate_patient_data|].
  intros days (Hlen & Hbp & Hgl). split_and!; [done| |].
  - intros [H1 H2]. apply Hbp. unfold bp_gate. cbn zeta.
    by rewrite !not_in_set.
  - intros H. apply Hgl. unfold glucose_gate. cbn zeta. by rewrite not_in_set.
Qed.

(** C3 (condition floor).  Whatever the draws, [assign_conditions] returns,
    and the list it returns has at least 2 elements and no duplicates. *)
Theorem condition_floor :
  always assign_conditions (λ conditions, (2 <= length conditions)%nat ∧ NoDup conditions).
Proof. exact assign_conditions_floor. Qed.

(** C4 (medication cap and floor).  For every condition list and every
    catalog, whatever the draws, the assigned list has at least one
    medication and at most 2 of any one category. *)
Theorem medication_cap_and_floor conditions all_medications :
  always (assign_medications_by_conditions conditions all_medications)
    (λ r, let assigned_meds := r.1 in
          (1 <= length assigned_meds)%nat ∧
          ∀ category,
            (length (filter (λ m, med_category m = category) assigned_meds) <= 2)%nat).
Proof.
  eapply always_mono; [apply assign_medications_bounds|].
  intros r (H1 & H2 & _). cbn zeta. split; [done|]. apply H2.
Qed.

(** C5 (exercise budget).  Whatever the draws, [generate_exercise_data]
    returns; the budget drawn is between 5 and 29, the minutes of slots 1 to
    the count drawn sum to the budget, and every later slot has 0 minutes and
    an empty type. *)
Theorem exercise_budget g :
  ∃ num g1 total g2 d g',
    np_random_choice [1; 2; 3; 4; 5] exercise_probs g = Some (num, g1) ∧
    random_randint 5 29 g1 = Some (total, g2) ∧
    generate_exercise_data g = Some (d, g') ∧
    5 <= total <= 29 ∧
    Zsum (Exercise_Minutes d <$> seqZ 1 num) = total ∧
    ∀ i, num < i <= 5 -> Exercise_Minutes d i = 0 ∧ Exercise_Type d i = "".
Proof.
  destruct (always_exercise_count g) as (num & g1 & E1 & Hnum).
  destruct (always_random_randint 5 29 ltac:(lia) g1) as (total & g2 & E2 & Htotal).
  destruct (always_exercise_tail num total Hnum Htotal g2) as (d & g' & E3 & Hsum & _ & Hrest).
  exists num, g1, total, g2, d, g'.
  split; [done|]. split; [done|]. split; [|done].
  unfold generate_exercise_data.
  by rewrite (bind_run _ _ _ _ _ E1), (bind_run _ _ _ _ _ E2).
Qed.

(** ** Range labels *)

Lemma Qle_bool_false x y : Qle_bool x y = false -> (y < x)%Q.
Proof.
  intros E. apply Qnot_le_lt. intros H. apply Qle_bool_iff in H. congruence.
Qed.

Ltac q_cases :=
  repeat match goal with
         | |- context [Qle_bool ?x ?y] =>
             let E := fresh "E" in
             destruct (Qle_bool x y) eqn:E;
             [apply Qle_bool_iff in E | apply Qle_bool_false in E]
         end.

Lemma glucose_table_pre_meal glucose :
  ((glucose < 4)%Q -> get_glucose_range glucose "Pre meal" = "below range") ∧
  ((4 <= glucose <= 7)%Q -> get_glucose_range glucose "Pre meal" = "in range") ∧
  ((7 < glucose)%Q -> get_glucose_range glucose "Pre meal" = "above range").
Proof.
  unfold get_glucose_range. change (String.eqb "Pre meal" "Pre meal") with true.
  cbn match. unfold Qltb. split_and!; intros H; q_cases; cbn; try done; lra.
Qed.

Lemma glucose_table_post_meal glucose :
  ((glucose < 5)%Q -> get_glucose_range glucose "2-hour post meal" = "below range") ∧
  ((5 <= glucose <= 10)%Q -> get_glucose_range glucose "2-hour post meal" = "in range") ∧
  ((10 < glucose)%Q -> get_glucose_range glucose "2-hour post meal" = "above range").
Proof.
  unfold get_glucose_range. change (String.eqb "2-hour post meal" "Pre meal") with false.
  cbn match. unfold Qltb. split_and!; intros H; q_cases; cbn; try done; lra.
Qed.

Lemma bp_table systolic diastolic :
  let '(systolic_type, diastolic_type) := get_bp_type systolic diastolic in
  (systolic < 90 -> systolic_type = "Low blood pressure") ∧
  (90 <= systolic <= 120 -> systolic_type = "Ideal") ∧
  (120 < systolic <= 140 -> systolic_type = "Pre-high blood pressure") ∧
  (140 < systolic -> systolic_type = "High blood pressure") ∧
  (diastolic < 60 -> diastolic_type = "Low blood pressure") ∧
  (60 <= diastolic <= 80 -> diastolic_type = "Ideal") ∧
  (80 < diastolic <= 90 -> diastolic_type = "Pre-high blood pressure") ∧
  (90 < diastolic -> diastolic_type = "High blood pressure").
Proof.
  unfold get_bp_type. cbn zeta.
  split_and!; intros H;
    repeat match goal with
           | |- context [?x <? ?y] => destruct (Z.ltb_spec x y)
           | |- context [?x <=? ?y] => destruct (Z.leb_spec x y)
           end; cbn; try done; lia.
Qed.

Lemma always_glucose_labels :
  always (generate_glucose_readings true)
    (λ r, ∀ i, 0 <= i < 4 ->
       ∃ glucose measurement_type glucose_range,
         glucose_slot_at r i = Some (glucose, measurement_type, glucose_range) ∧
         ((measurement_type = "Pre meal" ∨ measurement_type = "2-hour post meal") ∧
          glucose_range = get_glucose_range glucose measurement_type
          ∨ (glucose, measurement_type, glucose_range) = (0%Q, "", ""))).
Proof.
  unfold generate_glucose_readings. cbn [negb].
  step with always_reading_count as num _.
  eapply always_mono; [apply always_glucose_tail|].
  intros r Hr i Hi. destruct (Hr i Hi) as ([[v mt] rg] & Hat & Hok).
  exists v, mt, rg. split; [done|]. unfold glucose_slot_ok in Hok.
  destruct (i <? num); [by left|by right].
Qed.

Lemma always_bp_labels :
  always (generate_blood_pressure_readings true)
    (λ r, ∀ i, 0 <= i < 4 ->
       ∃ systolic diastolic systolic_type diastolic_type,
         bp_slot_at r i = Some (systolic, diastolic, systolic_type, diastolic_type) ∧
         ((systolic_type, diastolic_type) = get_bp_type systolic diastolic
          ∨ (systolic, diastolic, systolic_type, diastolic_type) = (0, 0, "", ""))).
Proof.
  unfold generate_blood_pressure_readings. cbn [negb].
  step with always_reading_count as num _.
  eapply always_mono; [apply always_bp_tail|].
  intros r Hr i Hi. destruct (Hr i Hi) as ([[[s d] st] dt] & Hat & Hok).
  exists s, d, st, dt. split; [done|]. unfold bp_slot_ok in Hok.
  destruct (i <? num); [left; tauto|by right].
Qed.

(** C6 (range classification).  [get_glucose_range] follows the threshold
    table: pre-meal below 4.0 / 4.0 to 7.0 inclusive / above 7.0, post-meal
    below 5.0 / 5.0 to 10.0 inclusive / above 10.0, so 6.5 pre-meal is in
    range and 7.5 pre-meal is above range; [get_bp_type] follows the
    systolic thresholds 90/120/140 and the diastolic thresholds 60/80/90;
    and in every slot the generators return, the stored labels are those
    functions applied to the stored values (or the slot is the empty one). *)
Theorem range_classification :
  (∀ glucose : Q,
     ((glucose < 4)%Q -> get_glucose_range glucose "Pre meal" = "below range") ∧
     ((4 <= glucose <= 7)%Q -> get_glucose_range glucose "Pre meal" = "in range") ∧
     ((7 < glucose)%Q -> get_glucose_range glucose "Pre meal" = "above range") ∧
     ((glucose < 5)%Q -> get_glucose_range glucose "2-hour post meal" = "below range") ∧
     ((5 <= glucose <= 10)%Q -> get_glucose_range glucose "2-hour post meal" = "in range") ∧
     ((10 < glucose)%Q -> get_glucose_range glucose "2-hour post meal" = "above range")) ∧
  get_glucose_range 6.5 "Pre meal" = "in range" ∧
  get_glucose_range 7.5 "Pre meal" = "above range" ∧
  (∀ systolic diastolic : Z,
     (systolic < 90 -> (get_bp_type systolic diastolic).1 = "Low blood pressure") ∧
     (90 <= systolic <= 120 -> (get_bp_type systolic diastolic).1 = "Ideal") ∧
     (120 < systolic <= 140 ->
        (get_bp_type systolic diastolic).1 = "Pre-high blood pressure") ∧
     (140 < systolic -> (get_bp_type systolic diastolic).1 = "High blood pressure") ∧
     (diastolic < 60 -> (get_bp_type systolic diastolic).2 = "Low blood pressure") ∧
     (60 <= diastolic <= 80 -> (get_bp_type systolic diastolic).2 = "Ideal") ∧
     (80 < diastolic <= 90 ->
        (get_bp_type systolic diastolic).2 = "Pre-high blood pressure") ∧
     (90 < diastolic -> (get_bp_type systolic diastolic).2 = "High blood pressure")) ∧
  always (generate_glucose_readings true)
    (λ r, ∀ i, 0 <= i < 4 ->
       ∃ glucose measurement_type glucose_range,
         glucose_slot_at r i = Some (glucose, measurement_type, glucose_range) ∧
         ((measurement_type = "Pre meal" ∨ measurement_type = "2-hour post meal") ∧
          glucose_range = get_glucose_range glucose measurement_type
          ∨ (glucose, measurement_type, glucose_range) = (0%Q, "", ""))) ∧
  always (generate_blood_pressure_readings true)
    (λ r, ∀ i, 0 <= i < 4 ->
       ∃ systolic diastolic systolic_type diastolic_type,
         bp_slot_at r i = Some (systolic, diastolic, systolic_type, diastolic_type) ∧
         ((systolic_type, diastolic_type) = get_bp_type systolic diastolic
          ∨ (systolic, diastolic, systolic_type, diastolic_type) = (0, 0, "", ""))).
Proof.
  split_and!.
  - intros glucose.
    destruct (glucose_table_pre_meal glucose) as (? & ? & ?).
    destruct (glucose_table_post_meal glucose) as (? & ? & ?). done.
  - by vm_compute.
  - by vm_compute.
  - intros systolic diastolic. pose proof (bp_table systolic diastolic) as H.
    by destruct (get_bp_type systolic diastolic).
  - apply always_glucose_labels.
  - apply always_bp_labels.
Qed.

(** ** The reading count *)

Lemma np_random_choice_run {A} (a : list A) (p : list Q) g :
  length a = length p ->
  forallb (Qle_bool 0) p = true ->
  Qeq_bool (Qsum p) 1 = true ->
  np_random_choice a p g =
  (x ← a !! searchsorted_right (cumsum 0 p) (unit_interval (np_tape g (np_pos g)));
   Some (x, np_advance g)).
Proof.
  intros Hlen Hpos Hsum. unfold np_random_choice.
  rewrite Hlen, Nat.eqb_refl, Hpos, Hsum. cbn [negb orb].
  unfold mbind at 1, rand_bind, np_next.
  by destruct (a !! _).
Qed.

(** The reading count as a function of the uniform variate it is decoded from. *)
Lemma reading_count_intervals g :
  let u := unit_interval (np_tape g (np_pos g)) in
  ∃ num g1,
    np_random_choice [1; 2; 3; 4] reading_count_probs g = Some (num, g1) ∧
    (num = 1 ↔ (u < 0.516)%Q) ∧
    (num = 2 ↔ (0.516 <= u < 0.774)%Q) ∧
    (num = 3 ↔ (0.774 <= u < 0.903)%Q) ∧
    (num = 4 ↔ (0.903 <= u)%Q).
Proof.
  intros u. pose proof (unit_interval_bounds (np_tape g (np_pos g))) as Hu.
  fold u in Hu. rewrite np_random_choice_run by done. fold u.
  unfold reading_count_probs. cbn [cumsum searchsorted_right].
  q_cases; cbn [lookup list_lookup mbind option_bind];
    try (eexists _, _; split; [reflexivity|];
         split_and!; split; intros; try lia; try lra).
  exfalso. lra.
Qed.

Lemma get_bp_type_nonempty systolic diastolic :
  (get_bp_type systolic diastolic).1 ≠ "" ∧ (get_bp_type systolic diastolic).2 ≠ "".
Proof.
  unfold get_bp_type. cbn zeta. cbn [fst snd].
  split;
    repeat match goal with
           | |- context [if ?b then _ else _] => destruct b
           end; done.
Qed.

Lemma bp_populated r num i slot :
  bp_slot_at r i = Some slot -> bp_slot_ok num i slot ->
  (i < num ↔ getitem (systolic_types r) i ≠ Some "").
Proof.
  destruct slot as [[[s d] st] dt]. unfold bp_slot_at, bp_slot_ok. intros Hat Hok.
  destruct (getitem (systolic_readings r) i); [|done].
  destruct (getitem (diastolic_readings r) i); [|done].
  destruct (getitem (systolic_types r) i) as [st'|]; [|done].
  destruct (getitem (diastolic_types r) i); [|done].
  cbn in Hat. injection Hat as -> -> -> ->.
  destruct (Z.ltb_spec i num).
  - destruct Hok as [_ Hty]. pose proof (get_bp_type_nonempty s d) as [Hne _].
    rewrite <- Hty in Hne. cbn in Hne. split; [congruence|done].
  - injection Hok as -> -> -> ->. split; [lia|done].
Qed.

Lemma glucose_populated r num i slot :
  glucose_slot_at r i = Some slot -> glucose_slot_ok num i slot ->
  (i < num ↔ getitem (measurement_types r) i ≠ Some "").
Proof.
  destruct slot as [[v mt] rg]. unfold glucose_slot_at, glucose_slot_ok. intros Hat Hok.
  destruct (getitem (glucose_readings r) i); [|done].
  destruct (getitem (measurement_types r) i) as [mt'|]; [|done].
  destruct (getitem (glucose_ranges r) i); [|done].
  cbn in Hat. injection Hat as -> -> ->.
  destruct (Z.ltb_spec i num).
  - destruct Hok as [[-> | ->] _]; (split; [congruence|done]).
  - injection Hok as -> -> ->. split; [lia|done].
Qed.

(** C7, as the code has it.  For both blood-pressure and glucose
    generation the number of readings of a day (the number of populated
    slots) is drawn from 1..4 with the weights 0.516/0.258/0.129/0.097: the
    first three are the exponential-decay weights used for exercise counts
    and sugar buckets, the fourth is 0.097 = 0.065 + 0.032, so a 4-reading
    day is drawn on the variates from 0.903 up, a set of measure 0.097. *)
Theorem reading_count_weights :
  reading_count_probs = (take 3 exercise_probs ++ [0.097%Q])%list ∧
  SUGAR_WEIGHTS = exercise_probs ∧
  (0.097 == 0.065 + 0.032)%Q ∧
  ∀ g, let u := unit_interval (np_tape g (np_pos g)) in
    ∃ num g1 bp g2 gl g3,
      np_random_choice [1; 2; 3; 4] reading_count_probs g = Some (num, g1) ∧
      generate_blood_pressure_readings true g = Some (bp, g2) ∧
      generate_glucose_readings true g = Some (gl, g3) ∧
      (∀ i, 0 <= i < 4 -> (i < num ↔ getitem (systolic_types bp) i ≠ Some "")) ∧
      (∀ i, 0 <= i < 4 -> (i < num ↔ getitem (measurement_types gl) i ≠ Some "")) ∧
      (num = 1 ↔ (u < 0.516)%Q) ∧
      (num = 2 ↔ (0.516 <= u < 0.774)%Q) ∧
      (num = 3 ↔ (0.774 <= u < 0.903)%Q) ∧
      (num = 4 ↔ (0.903 <= u)%Q).
Proof.
  split_and!; [done..|]. intros g u.
  destruct (reading_count_intervals g) as (num & g1 & E & H1 & H2 & H3 & H4).
  destruct (bp_readings_at g) as (num' & g1' & bp & g2 & E' & Ebp & _ & Hbp).
  destruct (glucose_readings_at g) as (num'' & g1'' & gl & g3 & E'' & Egl & _ & Hgl).
  assert (num' = num) as -> by congruence. assert (num'' = num) as -> by congruence.
  exists num, g1, bp, g2, gl, g3. split_and!; try done.
  - intros i Hi. destruct (Hbp i Hi) as (slot & Hat & Hok). by eapply bp_populated.
  - intros i Hi. destruct (Hgl i Hi) as (slot & Hat & Hok). by eapply glucose_populated.
Qed.

(** C7, as stated, fails: the weight of a 4-reading day is 0.097, not
    close to 0.065; on the variate 0.98 the reading count is 4 although the
    five-weight table of the exercise count has already passed to its last
    entry there. *)
Lemma reading_count_not_glossary :
  (∃ w, reading_count_probs !! 3%nat = Some w ∧ ¬ (Qabs (w - 0.065) <= 0.001)%Q) ∧
  let g := rng_of []%Q [0.98]%Q in
  fst <$> np_random_choice [1; 2; 3; 4] reading_count_probs g = Some 4 ∧
  fst <$> np_random_choice [1; 2; 3; 4; 5] exercise_probs g = Some 5.
Proof.
  split.
  - exists 0.097%Q. split; [done|]. by vm_compute.
  - by vm_compute.
Qed.

(** * The shared catalog *)

Lemma always_generate_patient_age : always generate_patient_age (λ _, True).
Proof.
  unfold generate_patient_age. step with always_np_random_normal as a _. by finish.
Qed.

Lemma always_generate_patient male_names female_names catalog st i :
  male_names ≠ [] -> female_names ≠ [] ->
  st.2 ≡ₚ catalog ->
  always (generate_patient male_names female_names st i) (λ st', st'.2 ≡ₚ catalog).
Proof.
  intros Hm Hf Hst. destruct st as [patients meds]. unfold generate_patient.
  step with assign_conditions_floor as conditions _.
  step with always_generate_patient_age as age _.
  step with (always_random_choice ["Male"; "Female"]) as gender _; [done|].
  eapply (always_bind _ _ (λ _, True)).
  { unfold generate_patient_name. destruct (String.eqb gender "Male").
    - eapply always_mono; [by apply always_random_choice|done].
    - eapply always_mono; [by apply always_random_choice|done]. }
  intros name _.
  step with (always_random_choice PAIN_LOCATIONS) as pain_location _; [done|].
  step with assign_medications_bounds as [assigned meds'] (_ & _ & Hperm).
  step with always_generate_patient_data as df _.
  finish. cbn [snd] in *. by rewrite Hperm.
Qed.

(** C8, as the code has it.  [assign_medications_by_conditions] shuffles
    the caller's catalog in place: after the call the catalog holds the
    same entries, each as often as before, in an order that may differ; so
    in the main loop, after any number of patients, the catalog the next
    call receives is a permutation of the parsed catalog, in the order the
    previous call left. *)
Theorem catalog_permuted :
  (∀ conditions all_medications,
     always (assign_medications_by_conditions conditions all_medications)
       (λ r, r.2 ≡ₚ all_medications)) ∧
  (∀ male_names female_names ALL_MEDS_WITH_DOSAGES n,
     male_names ≠ [] -> female_names ≠ [] ->
     always (foldM (generate_patient male_names female_names)
                   ([], ALL_MEDS_WITH_DOSAGES) (seqZ 1 n))
       (λ r, r.2 ≡ₚ ALL_MEDS_WITH_DOSAGES)) ∧
  (∀ male_names female_names ALL_MEDS_WITH_DOSAGES,
     male_names ≠ [] -> female_names ≠ [] ->
     always (generate_all male_names female_names ALL_MEDS_WITH_DOSAGES)
       (λ r, r.2 ≡ₚ ALL_MEDS_WITH_DOSAGES)).
Proof.
  assert (∀ male_names female_names catalog n,
    male_names ≠ [] -> female_names ≠ [] ->
    always (foldM (generate_patient male_names female_names) ([], catalog) (seqZ 1 n))
      (λ r, r.2 ≡ₚ catalog)) as Hloop.
  { intros male_names female_names catalog n Hm Hf.
    apply always_foldM; [done|].
    intros st i Hst _. by apply always_generate_patient. }
  split_and!.
  - intros conditions all_medications.
    eapply always_mono; [apply assign_medications_bounds|]. by intros r (_ & _ & H).
  - exact Hloop.
  - intros male_names female_names catalog Hm Hf. by apply Hloop.
Qed.

(** C8, as stated, fails: with a catalog of two entries and the first
    variate 0, the call returns with the two entries exchanged in the
    caller's list; and in the main loop the second patient's call receives
    the catalog in the order the first patient's call left. *)
Lemma catalog_reordered :
  let A := ("Acetaminophen", "As-needed", "Other", "500 mg") in
  let B := ("Loratadine", "Scheduled", "Other", "10 mg") in
  let g := rng_of []%Q []%Q in
  (snd ∘ fst) <$> assign_medications_by_conditions ["Hypertension"; "Diabetes"] [A; B] g
    = Some [B; A] ∧
  (snd ∘ fst) <$> foldM (generate_patient ["John"] ["Mary"]) ([], [A; B]) (seqZ 1 1) g
    = Some [B; A] ∧
  [B; A] ≠ [A; B].
Proof. split_and!; [by vm_compute..|done]. Qed.

(** * The order of the eligibility rules *)

(** C9 (respiratory before cancer).  For a patient with COPD or Asthma and
    with Cancer, a candidate of category "Other" is decided by the
    respiratory arm, a draw against 0.6; and for such a patient the cancer
    arm decides a candidate only when "Other" does not occur in its
    category, that is, when the respiratory arm does not apply. *)
Theorem respiratory_before_cancer (conditions : list string) :
  "COPD" ∈ conditions ∨ "Asthma" ∈ conditions ->
  "Cancer" ∈ conditions ->
  let f := flags_of conditions in
  matching_rule f "Other" = ByRespiratory ∧
  (∀ g, should_assign f "Other" g = (r ← random_random; mret (Qltb r 0.6)) g) ∧
  (∀ category, matching_rule f category = ByCancer -> str_in "Other" category = false).
Proof.
  intros Hresp Hcancer f.
  assert (has_respiratory f = true) as Hr.
  { unfold f, flags_of. cbn [has_respiratory]. apply orb_true_iff.
    destruct Hresp; [left|right]; by apply bool_decide_eq_true, elem_of_list_to_set. }
  assert (matching_rule f "Other" = ByRespiratory) as Hrule.
  { unfold matching_rule. rewrite Hr.
    change (str_in "Heart health and hypertension" "Other") with false.
    change (str_in "Diabetes" "Other") with false.
    change (str_in "Chronic pain and musculoskeletal" "Other") with false.
    change (str_in "Mental health" "Other") with false.
    by change (str_in "Other" "Other") with true. }
  split_and!; [done| |].
  - intros g. unfold should_assign. by rewrite Hrule.
  - intros category. unfold matching_rule. rewrite Hr. cbn [andb].
    destruct (str_in "Other" category); [|done].
    repeat match goal with
           | |- context [if ?a && ?b then _ else _] => destruct (a && b)
           end; done.
Qed.

(** The precedence at a patient with COPD and Cancer. *)
Lemma respiratory_before_cancer_witness :
  let f := flags_of ["COPD"; "Cancer"] in
  matching_rule f "Other" = ByRespiratory ∧
  (∀ g, should_assign f "Other" g = (r ← random_random; mret (Qltb r 0.6)) g) ∧
  (∀ category, matching_rule f category = ByCancer -> str_in "Other" category = false).
Proof.
  apply (respiratory_before_cancer ["COPD"; "Cancer"]).
  - left. apply list_elem_of_here.
  - apply list_elem_of_further, list_elem_of_here.
Defined.

(** * Zero minutes in a populated exercise slot *)

Lemma insert_sorted_perm x l : insert_sorted x l ≡ₚ x :: l.
Proof.
  induction l as [|y l IH]; [done|]. cbn. destruct (x <=? y); [done|].
  by rewrite IH, perm_swap.
Qed.

Lemma sorted_perm l : sorted l ≡ₚ l.
Proof.
  induction l as [|x l IH]; [done|]. cbn.
  by rewrite insert_sorted_perm, IH.
Qed.

Lemma insert_sorted_sorted x l :
  StronglySorted Z.le l -> StronglySorted Z.le (insert_sorted x l).
Proof.
  induction l as [|y l IH]; intros Hl; cbn.
  - by repeat constructor.
  - apply StronglySorted_cons in Hl as [Hy Hl].
    destruct (Z.leb_spec x y).
    + apply StronglySorted_cons. split.
      * constructor; [done|]. eapply Forall_impl; [done|]. intros; cbn in *; lia.
      * by apply StronglySorted_cons.
    + apply StronglySorted_cons. split; [|by apply IH].
      rewrite insert_sorted_perm. constructor; [lia|done].
Qed.

Lemma sorted_sorted l : StronglySorted Z.le (sorted l).
Proof.
  induction l as [|x l IH]; cbn; [constructor|]. by apply insert_sorted_sorted.
Qed.

(** In an ascending list a repeated value sits at two adjacent positions. *)
Lemma sorted_repeat l :
  StronglySorted Z.le l -> ¬ NoDup l ->
  ∃ i x, l !! i = Some x ∧ l !! S i = Some x.
Proof.
  induction l as [|a l IH]; intros Hs Hnd.
  - destruct Hnd. constructor.
  - apply StronglySorted_cons in Hs as [Ha Hs].
    destruct (decide (a ∈ l)) as [Hin|Hnin].
    + destruct l as [|b l]; [by apply elem_of_nil in Hin|].
      exists 0%nat, a. split; [done|]. cbn. f_equal.
      apply Forall_cons in Ha as [Hab _].
      apply StronglySorted_cons in Hs as [Hb _].
      apply elem_of_cons in Hin as [->|Hin]; [done|].
      rewrite Forall_forall in Hb. specialize (Hb a Hin). lia.
    + destruct IH as (i & x & H1 & H2); [done| |by exists (S i), x].
      intros Hl. apply Hnd. by constructor.
Qed.

Lemma diffs_lookup_2 l i a b :
  l !! i = Some b -> l !! S i = Some a -> diffs l !! i = Some (a - b).
Proof.
  revert i. induction l as [|x [|y l] IH]; intros i Hb Ha; [done| |].
  - by destruct i.
  - change (diffs (x :: y :: l)) with ((y - x) :: diffs (y :: l)).
    destruct i as [|i].
    + cbn in *. congruence.
    + cbn [lookup list_lookup] in Hb, Ha |- *. by apply IH.
Qed.

(** [split_minutes] past the single-exercise case, at a state where the
    split points drawn are known. *)
Lemma split_minutes_run num total g points g' :
  num ≠ 1 ->
  mapM (λ _, random_randint 1 (total - 1)) (range (num - 1)) g = Some (points, g') ->
  len points = num - 1 ->
  split_minutes num total g = Some (diffs (0 :: sorted points ++ [total]), g').
Proof.
  intros Hne Hpts Hlen. unfold split_minutes.
  destruct (Z.eqb_spec num 1); [done|].
  rewrite (bind_run _ _ _ _ _ Hpts). cbn zeta.
  rewrite split_differences; [done|].
  unfold len in Hlen. cbn. rewrite length_app, sorted_length. cbn. lia.
Qed.

(** Repeated split points leave a zero among the minutes. *)
Lemma repeated_points_zero_minutes points total :
  ¬ NoDup points ->
  ∃ i, (i < length points)%nat ∧
       diffs (0 :: sorted points ++ [total]) !! S i = Some 0.
Proof.
  intros Hnd.
  destruct (sorted_repeat (sorted points)) as (i & x & H1 & H2).
  - apply sorted_sorted.
  - by rewrite sorted_perm.
  - exists i. split.
    + apply lookup_lt_Some in H1. by rewrite sorted_length in H1.
    + replace 0 with (x - x) at 2 by lia. apply diffs_lookup_2; cbn.
      * by apply lookup_app_l_Some.
      * by apply lookup_app_l_Some.
Qed.

(** Whenever two of the split points drawn coincide, some slot within the
    exercise count has an exercise name and 0 minutes. *)
Lemma coincident_points_zero_slot g num g1 total g2 selected g3 points g4 :
  np_random_choice [1; 2; 3; 4; 5] exercise_probs g = Some (num, g1) ->
  random_randint 5 29 g1 = Some (total, g2) ->
  random_sample EXERCISE_TYPES num g2 = Some (selected, g3) ->
  num ≠ 1 ->
  mapM (λ _, random_randint 1 (total - 1)) (range (num - 1)) g3 = Some (points, g4) ->
  ¬ NoDup points ->
  ∃ d, generate_exercise_data g = Some (d, g4) ∧
       ∃ i, 1 <= i <= num ∧ Exercise_Type d i ≠ "" ∧ Exercise_Minutes d i = 0.
Proof.
  intros E1 E2 E3 Hne E4 Hdup.
  pose proof (always_run _ _ _ _ _ always_exercise_count E1) as Hnum. cbn beta in Hnum.
  assert (0 <= num <= len EXERCISE_TYPES) as Hk by (change (len EXERCISE_TYPES) with 7; lia).
  pose proof (always_run _ _ _ _ _ (always_random_sample EXERCISE_TYPES num Hk) E3)
    as [Hlen (rest & Hrest)].
  pose proof (always_run _ _ _ _ _ (always_random_randint 5 29 ltac:(lia)) E2) as Htotal.
  cbn beta in Htotal.
  assert (len points = num - 1) as Hplen.
  { unfold len. rewrite (mapM_run_length _ _ _ _ _ E4). unfold range.
    rewrite length_seqZ. lia. }
  pose proof (split_minutes_run num total g3 points g4 Hne E4 Hplen) as E5.
  set (mins := diffs (0 :: sorted points ++ [total])) in *.
  assert (len mins = num) as Hmlen.
  { unfold len, mins in *. rewrite diffs_length. cbn.
    rewrite length_app, sorted_length. cbn. lia. }
  destruct (exercise_slots_spec selected mins num) as (d & E6 & _ & Hty & Hmin & _);
    [done..|].
  exists d. split.
  { unfold generate_exercise_data.
    rewrite (bind_run _ _ _ _ _ E1), (bind_run _ _ _ _ _ E2), (bind_run _ _ _ _ _ E3),
      (bind_run _ _ _ _ _ E5).
    by rewrite E6. }
  destruct (repeated_points_zero_minutes points total Hdup) as (j & Hj & Hzero).
  fold mins in Hzero. unfold len in Hplen.
  exists (Z.of_nat j + 2).
  assert (1 <= Z.of_nat j + 2 <= num) as Hi by lia.
  assert (Z.to_nat (Z.of_nat j + 2 - 1) = S j) as Hidx by lia.
  split_and!; [lia..| |].
  - pose proof (Hty _ Hi) as Ht. rewrite Hidx in Ht. symmetry in Ht.
    apply list_elem_of_lookup_2 in Ht.
    assert (Exercise_Type d (Z.of_nat j + 2) ∈ EXERCISE_TYPES) as Hin.
    { rewrite <- Hrest. apply elem_of_app. by left. }
    assert ("" ∉ EXERCISE_TYPES) as Hnone by (apply (bool_decide_unpack _); by vm_compute).
    intros Hempty. by rewrite Hempty in Hin.
  - pose proof (Hmin _ Hi) as Hm. rewrite Hidx, Hzero in Hm. congruence.
Qed.

(** C10.  There are draws on which [generate_exercise_data] returns a slot
    within the exercise count with an exercise name and 0 minutes: count 3,
    budget 10, and both split points at 5 give the minutes 5, 0, 5.  It
    happens on every run in which two of the split points drawn coincide. *)
Theorem zero_minutes_in_populated_slot :
  (∃ g num g1 d g',
     np_random_choice [1; 2; 3; 4; 5] exercise_probs g = Some (num, g1) ∧
     generate_exercise_data g = Some (d, g') ∧
     ∃ i, 1 <= i <= num ∧ Exercise_Type d i ≠ "" ∧ Exercise_Minutes d i = 0) ∧
  (∀ g num g1 total g2 selected g3 points g4,
     np_random_choice [1; 2; 3; 4; 5] exercise_probs g = Some (num, g1) ->
     random_randint 5 29 g1 = Some (total, g2) ->
     random_sample EXERCISE_TYPES num g2 = Some (selected, g3) ->
     num ≠ 1 ->
     mapM (λ _, random_randint 1 (total - 1)) (range (num - 1)) g3 = Some (points, g4) ->
     ¬ NoDup points ->
     ∃ d, generate_exercise_data g = Some (d, g4) ∧
          ∃ i, 1 <= i <= num ∧ Exercise_Type d i ≠ "" ∧ Exercise_Minutes d i = 0).
Proof.
  split; [|exact coincident_points_zero_slot].
  exists (rng_of [0.2; 0; 0; 0; 0.5; 0.5]%Q [0.8]%Q).
  eexists 3, _, _, _. split_and!.
  - by vm_compute.
  - by vm_compute.
  - exists 2. by vm_compute.
Qed.

(** * The input files *)

(** ** Stripping *)

Lemma lstrip_idemp s : lstrip (lstrip s) = lstrip s.
Proof.
  induction s as [|c s IH]; [done|]. cbn. destruct (isspace c) eqn:E; [done|].
  cbn. by rewrite E.
Qed.

Lemma rstrip_idemp s : rstrip (rstrip s) = rstrip s.
Proof.
  induction s as [|c s IH]; [done|]. cbn.
  destruct (isspace c && String.eqb (rstrip s) "") eqn:E; [done|].
  cbn. by rewrite IH, E.
Qed.

Lemma lstrip_rstrip s : rstrip (lstrip s) = lstrip (rstrip s).
Proof.
  induction s as [|c s IH]; [done|]. cbn. destruct (isspace c) eqn:E; cbn.
  - destruct (String.eqb_spec (rstrip s) "") as [Hr|Hr]; cbn.
    + by rewrite IH, Hr.
    + by rewrite E.
  - by rewrite E.
Qed.

Lemma strip_idemp s : strip (strip s) = strip s.
Proof.
  unfold strip. by rewrite (lstrip_rstrip (rstrip s)), rstrip_idemp, lstrip_idemp.
Qed.

Lemma trimmed_strip s : trimmed s -> strip s = s.
Proof. intros (_ & Hl & Hr). unfold strip. by rewrite Hr. Qed.

(** Whitespace appended after a trimmed string is stripped again. *)
Lemma rstrip_app_NL s : rstrip (s +:+ NL) = rstrip s.
Proof.
  induction s as [|c s IH]; [done|].
  change (String c s +:+ NL) with (String c (s +:+ NL)). cbn [rstrip]. by rewrite IH.
Qed.

Lemma rstrip_app_keep p s : rstrip s ≠ "" -> rstrip (p +:+ s) = p +:+ rstrip s.
Proof.
  intros Hs. induction p as [|c p IH]; [done|].
  change (String c p +:+ s) with (String c (p +:+ s)).
  change (String c p +:+ rstrip s) with (String c (p +:+ rstrip s)).
  cbn [rstrip]. rewrite IH.
  destruct (p +:+ rstrip s) eqn:E.
  - destruct p; cbn in E; [done|discriminate].
  - by rewrite andb_false_r.
Qed.

Lemma strip_line s : trimmed s -> strip (s +:+ NL) = s.
Proof.
  intros (_ & Hl & Hr). unfold strip. by rewrite rstrip_app_NL, Hr.
Qed.

(** ** The kinds of line of the catalog file *)

Lemma prefix_app_inv p s : String.prefix p s = true -> ∃ r, s = p +:+ r.
Proof.
  revert s. induction p as [|a p IH]; intros s H.
  - by exists s.
  - destruct s as [|b s]; [done|]. cbn in H.
    destruct (Ascii.ascii_dec a b) as [->|]; [|done].
    destruct (IH s H) as [r ->]. by exists r.
Qed.

Lemma parse_line_passed_over st raw :
  passed_over (strip raw) -> parse_line st raw = Some st.
Proof.
  destruct st as [[[[all med] ty] cat] dose]. unfold parse_line, passed_over.
  set (line := strip raw). clearbody line.
  intros [->|[->|[[H1 H2]|[H1 (H2 & H3 & H4)]]]]; [done..| |].
  - rewrite H1, H2. cbn [andb]. by destruct (_ || _).
  - rewrite H2, H3, H4.
    destruct (_ || _); [done|]. destruct (_ && _); [done|].
    replace (negb (str_in ":" line) && negb (line =? "")%string
             && negb (startswith line "===") && negb (endswith line "===")) with false;
      [done|].
    destruct H1 as [->|[->| ->]]; cbn; by rewrite ?andb_false_r.
Qed.

Lemma parse_line_name st raw :
  name_line (strip raw) ->
  parse_line st raw = Some (save_current st, Some (strip raw), None, None, None).
Proof.
  destruct st as [[[[all med] ty] cat] dose]. unfold parse_line, name_line.
  set (line := strip raw). clearbody line.
  intros (H1 & H2 & H3 & H4 & H5).
  apply String.eqb_neq in H1, H2. by rewrite H1, H2, H3, H4, H5.
Qed.

Lemma parse_line_type all med ty cat dose raw v :
  strip raw = "Type:" +:+ v ->
  parse_line (all, med, ty, cat, dose) raw = Some (all, med, Some (strip v), cat, dose).
Proof. unfold parse_line. intros ->. by destruct v. Qed.

Lemma parse_line_category all med ty cat dose raw v :
  strip raw = "Category:" +:+ v ->
  parse_line (all, med, ty, cat, dose) raw = Some (all, med, ty, Some (strip v), dose).
Proof. unfold parse_line. intros ->. by destruct v. Qed.

Lemma parse_line_dose all med ty cat dose raw v :
  strip raw = "Dose:" +:+ v ->
  parse_line (all, med, ty, cat, dose) raw = Some (all, med, ty, cat, Some (strip v)).
Proof. unfold parse_line. intros ->. by destruct v. Qed.

(** Every stripped line is of exactly one of the five kinds the loop
    distinguishes. *)
Lemma line_kinds line :
  passed_over line ∨ name_line line ∨
  (∃ v, line = "Type:" +:+ v) ∨ (∃ v, line = "Category:" +:+ v) ∨ (∃ v, line = "Dose:" +:+ v).
Proof.
  destruct (String.eqb_spec line "") as [->|Hne]; [left; by left|].
  destruct (String.eqb_spec line "Medications") as [->|Hnm]; [left; right; by left|].
  destruct (startswith line "Type:") eqn:Ht;
    [right; right; left; by apply prefix_app_inv|].
  destruct (startswith line "Category:") eqn:Hc;
    [right; right; right; left; by apply prefix_app_inv|].
  destruct (startswith line "Dose:") eqn:Hd;
    [do 4 right; by apply prefix_app_inv|].
  destruct (str_in ":" line) eqn:H1; [left; do 3 right; split; [by left|done]|].
  destruct (startswith line "===") eqn:H2; [left; do 3 right; split; [right; by left|done]|].
  destruct (endswith line "===") eqn:H3; [left; do 3 right; split; [by do 2 right|done]|].
  right; left. by repeat split.
Qed.

(** ** The parser *)

Lemma truthy_Some s : truthy (Some s) = true -> s ≠ "".
Proof. cbn. intros H ->. done. Qed.

Lemma save_current_ok st : parser_state_ok st -> Forall complete_entry (save_current st).
Proof.
  destruct st as [[[[all med] ty] cat] dose]. intros (Hall & Hm & Ht & Hc & Hd).
  unfold save_current.
  destruct med as [m|], ty as [t|], cat as [c|], dose as [d|]; try done.
  destruct (truthy (Some m) && truthy (Some t) && truthy (Some c) && truthy (Some d)) eqn:E;
    [|done].
  apply andb_prop in E as [E E4]. apply andb_prop in E as [E E3].
  apply andb_prop in E as [E1 E2].
  apply Forall_app. split; [done|]. apply Forall_singleton.
  destruct (Hm m eq_refl) as [Hn Hs].
  split; [done|]. split; [done|]. repeat split; auto using truthy_Some.
Qed.

Lemma parse_line_ok st raw :
  parser_state_ok st -> ∃ st', parse_line st raw = Some st' ∧ parser_state_ok st'.
Proof.
  intros Hst.
  destruct (line_kinds (strip raw)) as [H|[H|[[v H]|[[v H]|[v H]]]]].
  - exists st. by rewrite parse_line_passed_over.
  - eexists. rewrite parse_line_name by done. split; [done|].
    split_and!; try done.
    + by apply save_current_ok.
    + intros med [= <-]. split; [done|apply strip_idemp].
  - destruct st as [[[[all med] ty] cat] dose]. destruct Hst as (? & ? & ? & ? & ?).
    eexists. rewrite (parse_line_type _ _ _ _ _ _ _ H). split; [done|].
    split_and!; try done. intros ? [= <-]. apply strip_idemp.
  - destruct st as [[[[all med] ty] cat] dose]. destruct Hst as (? & ? & ? & ? & ?).
    eexists. rewrite (parse_line_category _ _ _ _ _ _ _ H). split; [done|].
    split_and!; try done. intros ? [= <-]. apply strip_idemp.
  - destruct st as [[[[all med] ty] cat] dose]. destruct Hst as (? & ? & ? & ? & ?).
    eexists. rewrite (parse_line_dose _ _ _ _ _ _ _ H). split; [done|].
    split_and!; try done. intros ? [= <-]. apply strip_idemp.
Qed.

Lemma parse_lines_ok lines st :
  parser_state_ok st -> ∃ st', parse_lines st lines = Some st' ∧ parser_state_ok st'.
Proof.
  revert st. induction lines as [|raw lines IH]; intros st Hst; [by exists st|].
  destruct (parse_line_ok st raw Hst) as (st1 & E & H1).
  destruct (IH st1 H1) as (st' & E' & H'). exists st'. split; [|done].
  cbn [parse_lines]. by rewrite E.
Qed.

Lemma parse_lines_app l1 l2 st :
  parse_lines st (l1 ++ l2) = parse_lines st l1 ≫= λ st', parse_lines st' l2.
Proof.
  revert st. induction l1 as [|raw l1 IH]; intros st; [done|].
  cbn [app parse_lines]. destruct (parse_line st raw) as [st1|]; [|done]. apply IH.
Qed.

(** The parser returns on every file, and each entry it returns has a
    name that is a name line and four non-empty fields without
    surrounding whitespace. *)
Theorem parse_returns_complete_entries lines :
  ∃ meds, parse_medications_with_dosages lines = Some meds ∧ Forall complete_entry meds.
Proof.
  destruct (parse_lines_ok lines ([], None, None, None, None)) as (st & E & Hst).
  { by split_and!. }
  exists (save_current st). unfold parse_medications_with_dosages. rewrite E.
  split; [done|]. by apply save_current_ok.
Qed.

(** A line that is blank, the title, a section header, or neither a name
    nor a field can be put in or taken out anywhere without changing what
    is parsed. *)
Theorem parse_ignores_passed_over_lines l1 raw l2 :
  passed_over (strip raw) ->
  parse_medications_with_dosages (l1 ++ raw :: l2) = parse_medications_with_dosages (l1 ++ l2).
Proof.
  intros H. unfold parse_medications_with_dosages. rewrite !parse_lines_app.
  destruct (parse_lines _ l1) as [st|]; [|done]. cbn [mbind option_bind parse_lines].
  by rewrite parse_line_passed_over.
Qed.

Lemma parse_ignores_passed_over_lines_witness :
  parse_medications_with_dosages
    (["Aspirin"; "Type: Prescribed"] ++ "=== Pain ===" :: ["Category: Other"; "Dose: 1"])
  = parse_medications_with_dosages
      (["Aspirin"; "Type: Prescribed"] ++ ["Category: Other"; "Dose: 1"]).
Proof.
  apply (parse_ignores_passed_over_lines ["Aspirin"; "Type: Prescribed"] "=== Pain ==="
           ["Category: Other"; "Dose: 1"]).
  right; right; left. by vm_compute.
Defined.

(** Reading one block of the catalog file leaves the entry of the block
    pending, after saving what was pending before. *)
Lemma parse_block st m :
  writable_entry m ->
  ∃ st', parse_lines st (catalog_block m) = Some st' ∧
         save_current st' = (save_current st ++ [m])%list.
Proof.
  destruct m as [[[med ty] cat] dose]. intros (Hn & Hm & Ht & Hc & Hd & _).
  assert (∀ v, trimmed v -> strip (" " +:+ v) = v) as Hval.
  { intros v (Hne & Hl & Hr). unfold strip.
    rewrite (rstrip_app_keep " " v) by (by rewrite Hr). by rewrite Hr. }
  assert (∀ v, trimmed v -> rstrip (" " +:+ v +:+ NL) = " " +:+ v) as Hrs.
  { intros v (Hne & Hl & Hr).
    rewrite (rstrip_app_keep " " (v +:+ NL)) by (by rewrite rstrip_app_NL, Hr).
    by rewrite rstrip_app_NL, Hr. }
  unfold catalog_block. cbn [parse_lines].
  rewrite parse_line_name by (by rewrite strip_line).
  rewrite strip_line by done. cbn [mbind option_bind].
  rewrite (parse_line_type _ _ _ _ _ _ (" " +:+ ty)).
  2:{ unfold strip. change ("Type: " +:+ ty +:+ NL) with ("Type:" +:+ " " +:+ ty +:+ NL).
      rewrite (rstrip_app_keep "Type:") by (by rewrite Hrs). by rewrite Hrs. }
  cbn [mbind option_bind].
  rewrite (parse_line_category _ _ _ _ _ _ (" " +:+ cat)).
  2:{ unfold strip.
      change ("Category: " +:+ cat +:+ NL) with ("Category:" +:+ " " +:+ cat +:+ NL).
      rewrite (rstrip_app_keep "Category:") by (by rewrite Hrs). by rewrite Hrs. }
  cbn [mbind option_bind].
  rewrite (parse_line_dose _ _ _ _ _ _ (" " +:+ dose)).
  2:{ unfold strip. change ("Dose: " +:+ dose +:+ NL) with ("Dose:" +:+ " " +:+ dose +:+ NL).
      rewrite (rstrip_app_keep "Dose:") by (by rewrite Hrs). by rewrite Hrs. }
  cbn [mbind option_bind].
  rewrite parse_line_passed_over by (by left).
  eexists. split; [done|].
  rewrite !Hval by done. unfold save_current at 1.
  destruct Hm as (Hm & _), Ht as (Ht & _), Hc as (Hc & _), Hd as (Hd & _).
  apply String.eqb_neq in Hm, Ht, Hc, Hd. cbn [truthy]. by rewrite Hm, Ht, Hc, Hd.
Qed.

Lemma parse_catalog_text meds st :
  Forall writable_entry meds ->
  ∃ st', parse_lines st (catalog_text meds) = Some st' ∧
         save_current st' = (save_current st ++ meds)%list.
Proof.
  revert st. induction meds as [|m meds IH]; intros st Hall.
  - exists st. by rewrite app_nil_r.
  - apply Forall_cons in Hall as [Hm Hall].
    destruct (parse_block st m Hm) as (st1 & E1 & H1).
    destruct (IH st1 Hall) as (st' & E' & H').
    exists st'. split.
    + unfold catalog_text in *. by rewrite bind_cons, parse_lines_app, E1.
    + by rewrite H', H1, <- app_assoc.
Qed.

(** ** Reading the catalog file back *)

Lemma occurs_app c a b : occurs c (a +:+ b) = occurs c a || occurs c b.
Proof.
  induction a as [|x a IH]; [done|].
  change (String x a +:+ b) with (String x (a +:+ b)). cbn [occurs].
  by rewrite IH, orb_assoc.
Qed.

Lemma app_String a c b : (a +:+ String c "") +:+ b = a +:+ String c b.
Proof.
  induction a as [|x a IH]; [done|].
  change ((String x a +:+ String c "") +:+ b) with (String x ((a +:+ String c "") +:+ b)).
  by rewrite IH.
Qed.

Lemma str_app_assoc a b c : (a +:+ b) +:+ c = a +:+ b +:+ c.
Proof.
  induction a as [|x a IH]; [done|].
  change ((String x a +:+ b) +:+ c) with (String x ((a +:+ b) +:+ c)). by rewrite IH.
Qed.

Lemma universal_newlines_id s : occurs CR s = false -> universal_newlines s = s.
Proof.
  induction s as [|c s IH]; [done|]. cbn [occurs universal_newlines].
  intros H. apply orb_false_iff in H as [Hc Hs]. rewrite Hc. by rewrite IH.
Qed.

Lemma split_lines_line line body rest :
  occurs LF body = false ->
  split_lines line (body +:+ NL +:+ rest) = (line +:+ body +:+ NL) :: split_lines "" rest.
Proof.
  revert line. induction body as [|c body IH]; intros line H.
  - cbn. done.
  - cbn [occurs] in H. apply orb_false_iff in H as [Hc Hb].
    change (String c body +:+ NL +:+ rest) with (String c (body +:+ NL +:+ rest)).
    cbn [split_lines]. rewrite Hc, IH by done. by rewrite app_String.
Qed.

Lemma readlines_file_text lines :
  Forall file_line lines -> readlines (file_text lines) = lines.
Proof.
  intros Hall. unfold readlines.
  rewrite universal_newlines_id.
  - induction Hall as [|l lines (body & -> & Hlf & _) _ IH]; [done|].
    cbn [file_text foldr]. fold (file_text lines).
    rewrite str_app_assoc. by rewrite split_lines_line, IH.
  - induction Hall as [|l lines (body & -> & _ & Hcr) _ IH]; [done|].
    cbn [file_text foldr]. fold (file_text lines).
    by rewrite !occurs_app, Hcr, IH.
Qed.

Lemma catalog_block_file_lines m : writable_entry m -> Forall file_line (catalog_block m).
Proof.
  destruct m as [[[med ty] cat] dose].
  intros (_ & _ & _ & _ & _ & Hm & Ht & Hc & Hd). unfold catalog_block.
  assert (∀ p v, single_line p -> single_line v -> file_line (p +:+ v +:+ NL)) as Hfield.
  { intros p v [Hp1 Hp2] [Hv1 Hv2]. exists (p +:+ v). split.
    - by rewrite str_app_assoc.
    - split; by rewrite occurs_app, ?Hp1, ?Hp2, ?Hv1, ?Hv2. }
  repeat apply Forall_cons_2; [| | | | |apply Forall_nil_2].
  - by exists med.
  - by apply Hfield.
  - by apply Hfield.
  - by apply Hfield.
  - by exists "".
Qed.

Lemma catalog_text_file_lines meds :
  Forall writable_entry meds -> Forall file_line (catalog_text meds).
Proof.
  unfold catalog_text. induction 1 as [|m meds Hm _ IH]; [done|].
  rewrite bind_cons. apply Forall_app. split; [by apply catalog_block_file_lines|done].
Qed.

(** Round trip through the file: for a catalog of writable entries, the
    text made of the blocks one after the other is read back by
    [readlines] as the lines of the blocks, and these are parsed to the
    catalog as it was. *)
Theorem parse_catalog_round_trip meds :
  Forall writable_entry meds ->
  readlines (file_text (catalog_text meds)) = catalog_text meds ∧
  parse_medications_with_dosages (readlines (file_text (catalog_text meds))) = Some meds.
Proof.
  intros Hall.
  assert (readlines (file_text (catalog_text meds)) = catalog_text meds) as Hread
    by (by apply readlines_file_text, catalog_text_file_lines).
  split; [done|]. rewrite Hread.
  destruct (parse_catalog_text meds ([], None, None, None, None) Hall) as (st & E & H).
  unfold parse_medications_with_dosages. rewrite E. cbn. by rewrite H.
Qed.

Lemma parse_catalog_round_trip_witness :
  let meds :=
    [("Lisinopril", "Prescribed", "Heart health and hypertension", "10 mg once daily");
     ("Vitamin D", "Supplement", "Vitamins and supplements", "1000 IU once daily")] in
  readlines (file_text (catalog_text meds)) = catalog_text meds ∧
  parse_medications_with_dosages (readlines (file_text (catalog_text meds))) = Some meds.
Proof.
  apply (parse_catalog_round_trip
    [("Lisinopril", "Prescribed", "Heart health and hypertension", "10 mg once daily");
     ("Vitamin D", "Supplement", "Vitamins and supplements", "1000 IU once daily")]).
  repeat apply Forall_cons_2; [| |apply Forall_nil_2];
    unfold writable_entry, name_line, trimmed, single_line; by split_and!.
Defined.

Lemma usable_name_test line :
  negb (String.eqb line "") && negb (startswith line "#") = true ↔ usable_name line.
Proof.
  unfold usable_name. rewrite andb_true_iff, !negb_true_iff.
  destruct (String.eqb_spec line "") as [->|Hne].
  - split; [by intros [? _]|by intros [? _]].
  - split; [by intros [_ ?]|by intros [_ ?]].
Qed.

Lemma occurrences_cons n x l :
  occurrences n (x :: l) = ((if decide (x = n) then 1 else 0) + occurrences n l)%nat.
Proof. unfold occurrences. rewrite filter_cons. by destruct (decide (x = n)). Qed.

Lemma occurrences_sublist n l k : l `sublist_of` k -> (occurrences n l <= occurrences n k)%nat.
Proof.
  induction 1 as [|x l k _ IH|x l k _ IH]; [done|..]; rewrite ?occurrences_cons; lia.
Qed.

Lemma kept_filter (P : string -> Prop) `{∀ x, Decision (P x)} (l names : list string) :
  names `sublist_of` l -> Forall P names ->
  (∀ n, P n -> occurrences n names = occurrences n l) ->
  names = filter P l.
Proof.
  induction 1 as [|x names l Hsub IH|x names l Hsub IH]; intros Hall Hocc; [done|..].
  - apply Forall_cons in Hall as [Hx Hall]. rewrite filter_cons, decide_True by done.
    f_equal. apply IH; [done|]. intros n Hn. specialize (Hocc n Hn).
    rewrite !occurrences_cons in Hocc. lia.
  - destruct (decide (P x)) as [Hx|Hx].
    + specialize (Hocc x Hx). rewrite occurrences_cons, decide_True in Hocc by done.
      pose proof (occurrences_sublist x names l Hsub). lia.
    + rewrite filter_cons, decide_False by done. apply IH; [done|].
      intros n Hn. specialize (Hocc n Hn). rewrite occurrences_cons in Hocc.
      rewrite decide_False in Hocc by (intros ->; done). done.
Qed.

Lemma name_lines_filter lines : name_lines lines = filter usable_name (strip <$> lines).
Proof.
  unfold name_lines. apply list_filter_iff. intros x. apply usable_name_test.
Qed.

Lemma kept_names_iff lines names : kept_names lines names ↔ names = name_lines lines.
Proof.
  rewrite name_lines_filter. split.
  - intros (Hsub & Hall & Hocc). by apply kept_filter.
  - intros ->. split_and!.
    + apply sublist_filter.
    + apply Forall_forall. intros n Hn. by apply list_elem_of_filter in Hn as [? _].
    + intros n Hn. unfold occurrences. rewrite list_filter_filter.
      f_equal. apply list_filter_iff. intros x. split; [by intros [? _]|].
      intros ->. done.
Qed.

(** A missing name file is replaced by the ten built-in names of its
    gender.  A file that exists is never replaced, not even when it
    yields no name: it yields its stripped lines that are not empty and
    do not start with '#', in file order, each as often as it occurs,
    and nothing else; no other list has these properties. *)
Theorem load_names_by_gender_spec male_txt female_txt :
  (male_txt = None ->
     (load_names_by_gender male_txt female_txt).1 = DEFAULT_MALE_NAMES) ∧
  (female_txt = None ->
     (load_names_by_gender male_txt female_txt).2 = DEFAULT_FEMALE_NAMES) ∧
  (∀ lines names, male_txt = Some lines ->
     kept_names lines names ↔ names = (load_names_by_gender male_txt female_txt).1) ∧
  (∀ lines names, female_txt = Some lines ->
     kept_names lines names ↔ names = (load_names_by_gender male_txt female_txt).2) ∧
  length DEFAULT_MALE_NAMES = 10%nat ∧ length DEFAULT_FEMALE_NAMES = 10%nat.
Proof.
  unfold load_names_by_gender. cbn [fst snd]. split_and!; try done.
  - by intros ->.
  - by intros ->.
  - intros lines names ->. apply kept_names_iff.
  - intros lines names ->. apply kept_names_iff.
Qed.

(** * Saving with retries *)

Lemma save_attempts_spec disk max_retries (n : nat) (calls : nat) seconds :
  Z.of_nat calls + Z.of_nat (S n) = max_retries ->
  (∀ j, (j < calls)%nat -> disk j = PermissionDenied) ->
  let r := save_attempts disk max_retries (seqZ (Z.of_nat calls) (Z.of_nat (S n))) calls seconds in
  ∃ k : nat,
    (calls <= k)%nat ∧ Z.of_nat k < max_retries ∧
    writes r = S k ∧ slept r = seconds + 2 * (Z.of_nat k - Z.of_nat calls) ∧
    (∀ j, (j < k)%nat -> disk j = PermissionDenied) ∧
    returned r = Some (match disk k with Written => true | _ => false end) ∧
    (disk k = PermissionDenied -> Z.of_nat k = max_retries - 1).
Proof.
  revert calls seconds. induction n as [|n IH]; intros calls seconds Hmax Hprev.
  - cbn zeta. rewrite seqZ_cons by lia. cbn [save_attempts].
    destruct (Z.ltb_spec (Z.of_nat calls) (max_retries - 1)); [lia|].
    exists calls. destruct (disk calls) eqn:E; cbn; split_and!; try done; try lia.
  - cbn zeta. rewrite seqZ_cons by lia. cbn [save_attempts].
    destruct (disk calls) eqn:E.
    + exists calls. rewrite E. cbn. split_and!; try done; lia.
    + destruct (Z.ltb_spec (Z.of_nat calls) (max_retries - 1)); [|lia].
      replace (Z.succ (Z.of_nat calls)) with (Z.of_nat (S calls)) by lia.
      replace (Z.pred (Z.of_nat (S (S n)))) with (Z.of_nat (S n)) by lia.
      destruct (IH (S calls) (seconds + 2)) as (k & Hk1 & Hk2 & Hw & Hs & Hd & Hr & Hl);
        [lia| |].
      { intros j Hj. destruct (decide (j = calls)) as [->|]; [done|]. apply Hprev. lia. }
      exists k. split_and!; try done; lia.
    + exists calls. rewrite E. cbn. split_and!; try done; lia.
Qed.

(** [save_csv_with_retry] with a positive [max_retries] stops at the first
    write that is not refused for permission, or at the last allowed one:
    it makes k + 1 writes for some k below [max_retries], sleeps 2 seconds
    after each of the k refused ones, and returns [True] exactly when write
    k succeeded, [False] otherwise.  With [max_retries] at most 0 it
    writes nothing and returns [None]. *)
Theorem save_csv_with_retry_spec disk max_retries :
  let r := save_csv_with_retry disk max_retries in
  (max_retries <= 0 -> r = SaveReport None 0 0) ∧
  (0 < max_retries ->
   ∃ k : nat,
     Z.of_nat k < max_retries ∧ writes r = S k ∧ slept r = 2 * Z.of_nat k ∧
     (∀ j, (j < k)%nat -> disk j = PermissionDenied) ∧
     (returned r = Some true ↔ disk k = Written) ∧
     (returned r = Some false ↔ disk k ≠ Written) ∧
     (disk k = PermissionDenied -> Z.of_nat k = max_retries - 1)).
Proof.
  cbn zeta. unfold save_csv_with_retry, range. split.
  - intros H. destruct max_retries; try lia; done.
  - intros H.
    destruct (save_attempts_spec disk max_retries (Z.to_nat max_retries - 1) 0 0)
      as (k & _ & Hk & Hw & Hs & Hd & Hr & Hl); [lia|intros; lia|].
    replace (Z.of_nat (S (Z.to_nat max_retries - 1))) with max_retries in * by lia.
    change (Z.of_nat 0) with 0 in *.
    exists k. split_and!; try done; try lia.
    + rewrite Hr. destruct (disk k); by split.
    + rewrite Hr. destruct (disk k); by split.
Qed.

(** * Patient attributes *)

Lemma int_of_Q_lower (a : Z) (q : Q) : (inject_Z a <= q)%Q -> a <= int_of_Q q.
Proof.
  unfold int_of_Q, Qle. destruct q as [n d]. cbn. intros H.
  apply Z.quot_le_lower_bound; lia.
Qed.

Lemma always_age_floor : always generate_patient_age (λ age, 65 <= age).
Proof.
  unfold generate_patient_age. step with always_np_random_normal as a _. finish.
  apply int_of_Q_lower. unfold np_clip_lo. apply Q.le_max_r.
Qed.

Lemma always_name_from_list gender male_names female_names :
  (if String.eqb gender "Male" then male_names else female_names) ≠ [] ->
  always (generate_patient_name gender male_names female_names)
    (λ name, name ∈ if String.eqb gender "Male" then male_names else female_names).
Proof.
  unfold generate_patient_name. destruct (String.eqb gender "Male"); intros H;
    by apply always_random_choice.
Qed.

(** The name is drawn from the male list for the gender "Male" and from
    the female list for any other gender; the call raises exactly when
    that list is empty. *)
Theorem patient_name_from_matching_list gender male_names female_names :
  let names := if String.eqb gender "Male" then male_names else female_names in
  (names ≠ [] ->
   always (generate_patient_name gender male_names female_names) (λ name, name ∈ names)) ∧
  (names = [] -> ∀ g, generate_patient_name gender male_names female_names g = None).
Proof.
  cbn zeta. split; [apply always_name_from_list|].
  unfold generate_patient_name. destruct (String.eqb gender "Male"); by intros ->.
Qed.

(** * Timestamps *)

Lemma too_close_clock mh t u :
  too_close mh t u = true ↔ clock_distance t u < mh * 60.
Proof.
  unfold too_close, clock_distance. cbn zeta.
  destruct (Z.ltb_spec (12 * 60) (Z.abs (t - u))); rewrite Z.ltb_lt; lia.
Qed.

Lemma too_close_false mh t u :
  too_close mh t u = false -> mh * 60 <= clock_distance t u.
Proof.
  intros H. destruct (Z.le_gt_cases (mh * 60) (clock_distance t u)) as [|Hlt]; [done|].
  apply too_close_clock in Hlt. congruence.
Qed.

(** The spacing test compares the distance around the clock with the
    minimum spacing, and does not depend on the order of the two times. *)
Theorem too_close_is_clock_distance min_hours_between t u :
  (too_close min_hours_between t u = true ↔ clock_distance t u < min_hours_between * 60) ∧
  too_close min_hours_between t u = too_close min_hours_between u t.
Proof.
  split; [apply too_close_clock|].
  unfold too_close. replace (Z.abs (u - t)) with (Z.abs (t - u)) by lia. done.
Qed.

Lemma always_foldM_prefix {A S} (f : S -> A -> Rand S) (I : list A -> S -> Prop)
    (l : list A) s :
  I [] s ->
  (∀ seen x s, I seen s -> always (f s x) (I (seen ++ [x])%list)) ->
  always (foldM f s l) (I l).
Proof.
  intros H0 Hstep.
  assert (∀ seen s, I seen s -> always (foldM f s l) (I (seen ++ l)%list)) as Hgen.
  { clear H0 s. induction l as [|x l IH]; intros seen s Hs.
    - rewrite app_nil_r. by apply always_ret.
    - cbn [foldM]. eapply always_bind; [by apply Hstep|].
      intros s' Hs'. cbn beta in Hs'. rewrite (cons_middle x seen l), app_assoc.
      by apply IH. }
  by apply (Hgen []).
Qed.

Lemma always_candidate more mh used :
  always (draw_spaced_time more mh used)
    (λ c : candidate,
       on_the_clock c ∧
       (candidate_valid c = true ->
        Forall (λ u, mh * 60 <= clock_distance (candidate_time c) u) used)).
Proof.
  assert (∀ t, forallb (λ used_time, negb (too_close mh t used_time)) used = true ->
               Forall (λ u, mh * 60 <= clock_distance t u) used) as Hpass.
  { intros t E. apply Forall_forall. intros u Hu. apply too_close_false.
    rewrite forallb_forall in E. apply negb_true_iff, E. by apply list_elem_of_In. }
  induction more as [|more IH]; cbn [draw_spaced_time].
  all: step with (always_random_randint 0 23) as hour Hh; [lia|].
  all: step with (always_random_randint 0 59) as minute Hm; [lia|].
  all: destruct (forallb _ used) eqn:E.
  - finish. split; [done|]. intros _. by apply Hpass.
  - finish. by split.
  - finish. split; [done|]. intros _. by apply Hpass.
  - apply IH.
Qed.

Lemma spaced_snoc mh times t :
  spaced mh times -> Forall (λ u, mh * 60 <= clock_distance t u) times ->
  spaced mh (times ++ [t]).
Proof.
  intros Hs Ht i j ti tj Hij Hi Hj.
  destruct (decide (j < length times)%nat) as [Hlt|Hge].
  - rewrite lookup_app_l in Hi, Hj by lia. exact (Hs i j ti tj Hij Hi Hj).
  - assert (j = length times) as ->.
    { apply lookup_lt_Some in Hj. rewrite length_app in Hj. cbn in Hj. lia. }
    rewrite lookup_app_l in Hi by lia. rewrite list_lookup_middle in Hj by done.
    injection Hj as <-. rewrite Forall_forall in Ht. apply Ht.
    by eapply list_elem_of_lookup_2.
Qed.

Lemma always_timestamp_step mh draws st i :
  timestamps_explained mh draws st ->
  always (timestamp_step mh st i)
    (λ st', ∃ c, timestamps_explained mh (draws ++ [c]) st').
Proof.
  destruct st as [ts used]. intros (Hts & Hused & Hclock & Hsp). cbn [fst snd] in *.
  unfold timestamp_step.
  step with (always_candidate 49 mh used) as [[hour minute] valid] [Hc Hv].
  finish. exists (hour, minute, valid). unfold timestamps_explained. cbn [fst snd].
  rewrite fmap_app, filter_app, fmap_app, <- Hts, <- Hused.
  split_and!; [done| |by apply Forall_app; split; [|apply Forall_singleton]|].
  - destruct valid; rewrite filter_cons, filter_nil.
    + rewrite decide_True by done. done.
    + rewrite decide_False by done. by rewrite app_nil_r.
  - destruct valid; [|done]. apply spaced_snoc; [done|]. by apply Hv.
Qed.

Lemma always_timestamps_explained num mh :
  always (generate_measurement_timestamps_with_spacing num mh)
    (λ ts, ∃ draws : list candidate,
       length draws = Z.to_nat num ∧
       ts = ((candidate_text <$> draws) ++ replicate (4 - length draws) "")%list ∧
       Forall on_the_clock draws ∧
       spaced mh (candidate_time <$> filter (λ c, candidate_valid c = true) draws)).
Proof.
  unfold generate_measurement_timestamps_with_spacing.
  destruct (Z.eqb_spec num 0) as [->|Hne].
  { finish. exists []. split_and!; try done; by intros i j ti tj _ Hi. }
  step with (always_foldM_prefix (timestamp_step mh)
    (λ seen st, ∃ draws, length draws = length seen ∧ timestamps_explained mh draws st))
    as [ts used] (draws & Hlen & Hts & Hused & Hclock & Hsp).
  { exists []. split_and!; try done; by intros i j ti tj _ Hi. }
  { intros seen x st (draws & Hlen & Hst).
    eapply always_mono; [by apply always_timestamp_step|].
    intros st' [c Hc]. exists (draws ++ [c])%list. split; [|done].
    rewrite !length_app. cbn. lia. }
  cbn [fst snd] in *. finish. exists draws. unfold range in Hlen.
  rewrite length_seqZ in Hlen. rewrite Hts, length_fmap. split_and!; try done.
  by rewrite <- Hused.
Qed.

Lemma always_timestamps_width num_readings min_hours_between :
  always (generate_measurement_timestamps_with_spacing num_readings min_hours_between)
    (λ timestamps,
       length timestamps = Z.to_nat (Z.max 4 num_readings) ∧
       ∀ i : nat,
         (Z.of_nat i < num_readings ->
          ∃ hour minute, 0 <= hour <= 23 ∧ 0 <= minute <= 59 ∧
                         timestamps !! i = Some (clock_text hour minute)) ∧
         (num_readings <= Z.of_nat i -> (i < 4)%nat -> timestamps !! i = Some "")).
Proof.
  eapply always_mono; [apply always_timestamps_explained|].
  intros ts (draws & Hlen & -> & Hclock & _). split.
  - rewrite length_app, length_fmap, length_replicate. lia.
  - intros i. split.
    + intros Hi. destruct (lookup_lt_is_Some_2 draws i) as [[[h m] v] Hd]; [lia|].
      exists h, m. rewrite Forall_forall in Hclock.
      destruct (Hclock (h, m, v)) as [Hh Hm]; [by eapply list_elem_of_lookup_2|].
      cbn [fst snd] in Hh, Hm. split; [done|]. split; [done|].
      rewrite lookup_app_l by (rewrite length_fmap; lia).
      by rewrite list_lookup_fmap, Hd.
    + intros Hi Hi4. rewrite lookup_app_r by (rewrite length_fmap; lia).
      rewrite length_fmap. apply lookup_replicate_2. lia.
Qed.

(** The list of timestamps has a fixed width: for a reading count of at
    most 4 it has exactly 4 entries, the first [num_readings] of them
    clock times HH:MM and the others empty; a count of 0 or less gives
    four empty entries, a count above 4 gives that many clock times. *)
Theorem timestamps_fixed_width num_readings min_hours_between :
  always (generate_measurement_timestamps_with_spacing num_readings min_hours_between)
    (λ timestamps,
       length timestamps = Z.to_nat (Z.max 4 num_readings) ∧
       ∀ i : nat,
         (Z.of_nat i < num_readings ->
          ∃ hour minute, 0 <= hour <= 23 ∧ 0 <= minute <= 59 ∧
                         timestamps !! i = Some (clock_text hour minute)) ∧
         (num_readings <= Z.of_nat i -> (i < 4)%nat -> timestamps !! i = Some "")).
Proof.
  apply always_timestamps_width.
Qed.

Lemma time_text_clock hour minute :
  0 <= minute <= 59 -> time_text (hour * 60 + minute) = clock_text hour minute.
Proof.
  intros Hm. unfold time_text.
  replace ((hour * 60 + minute) `div` 60) with hour by (apply Z.div_unique with minute; lia).
  replace ((hour * 60 + minute) `mod` 60) with minute by (apply Z.mod_unique with hour; lia).
  done.
Qed.

Lemma always_candidate_tested more mh used :
  always (draw_spaced_time more mh used)
    (λ c : candidate,
       on_the_clock c ∧
       (candidate_valid c = true ->
        Forall (λ u, mh * 60 <= clock_distance (candidate_time c) u) used) ∧
       (candidate_valid c = false ->
        ∃ u, u ∈ used ∧ clock_distance (candidate_time c) u < mh * 60)).
Proof.
  assert (∀ t, forallb (λ used_time, negb (too_close mh t used_time)) used = true ->
               Forall (λ u, mh * 60 <= clock_distance t u) used) as Hpass.
  { intros t E. apply Forall_forall. intros u Hu. apply too_close_false.
    rewrite forallb_forall in E. apply negb_true_iff, E. by apply list_elem_of_In. }
  assert (∀ t, forallb (λ used_time, negb (too_close mh t used_time)) used = false ->
               ∃ u, u ∈ used ∧ clock_distance t u < mh * 60) as Hfail.
  { intros t. clear Hpass. induction used as [|u used IH]; [done|]. cbn [forallb].
    destruct (too_close mh t u) eqn:E; cbn [negb andb].
    - intros _. exists u. split; [by left|]. by apply too_close_clock.
    - intros H. destruct (IH H) as (u' & Hu' & Hd). exists u'. split; [by right|done]. }
  induction more as [|more IH]; cbn [draw_spaced_time].
  all: step with (always_random_randint 0 23) as hour Hh; [lia|].
  all: step with (always_random_randint 0 59) as minute Hm; [lia|].
  all: destruct (forallb _ used) eqn:E.
  - finish. split_and!; [done| |done]. intros _. by apply Hpass.
  - finish. split_and!; [done|done|]. intros _. by apply Hfail.
  - finish. split_and!; [done| |done]. intros _. by apply Hpass.
  - apply IH.
Qed.

Lemma always_timestamp_step_recorded mh st i :
  readings_recorded mh st ->
  always (timestamp_step mh st i)
    (λ st', length st'.1 = S (length st.1) ∧ readings_recorded mh st').
Proof.
  destruct st as [ts used]. intros (Hsp & Hsub & Hall). cbn [fst snd].
  unfold timestamp_step.
  step with (always_candidate_tested 49 mh used) as [[hour minute] valid] ([Hh Hm] & Hv & Hnv).
  cbn [fst snd] in Hh, Hm. unfold candidate_valid, candidate_time in Hv, Hnv. cbn [fst snd] in Hv, Hnv.
  finish. cbn [fst snd]. split; [rewrite length_app; cbn; lia|].
  fold (clock_text hour minute). rewrite <- (time_text_clock hour minute) by done.
  unfold readings_recorded. destruct valid.
  - split_and!.
    + apply spaced_snoc; [done|]. by apply Hv.
    + rewrite fmap_app. by apply sublist_app.
    + apply Forall_app. split.
      * eapply Forall_impl; [exact Hall|]. intros timestamp (t & Ht & E & [Hin|(u & Hu & Hd)]).
        -- exists t. split; [done|]. split; [done|]. left. apply elem_of_app. by left.
        -- exists t. split; [done|]. split; [done|]. right. exists u. split; [|done].
           apply elem_of_app. by left.
      * apply Forall_singleton. exists (hour * 60 + minute).
        split; [lia|]. split; [done|].
        left. apply elem_of_app. right. by apply list_elem_of_singleton.
  - split_and!; [done|by apply sublist_inserts_r|].
    apply Forall_app. split; [done|].
    apply Forall_singleton. exists (hour * 60 + minute).
    split; [lia|]. split; [done|]. right. by apply Hnv.
Qed.

Lemma always_readings_recorded num mh :
  always (foldM (timestamp_step mh) ([], []) (range num))
    (λ st, length st.1 = Z.to_nat num ∧ readings_recorded mh st).
Proof.
  eapply always_mono.
  { apply (always_foldM_prefix (timestamp_step mh)
      (λ seen st, length st.1 = length seen ∧ readings_recorded mh st)).
    - split; [done|]. split_and!; [by intros i j ti tj _ Hi|done|done].
    - intros seen x st [Hlen Hst].
      eapply always_mono; [by apply always_timestamp_step_recorded|].
      intros st' [Hl Hr]. split; [|done]. rewrite Hl, Hlen, length_app. cbn. lia. }
  intros st [Hlen Hst]. split; [|done]. unfold range in Hlen.
  by rewrite length_seqZ in Hlen.
Qed.

(** The loop over the readings in
    [generate_measurement_timestamps_with_spacing] keeps its two variables
    in step: when it ends there is one timestamp per reading, the times
    in [used_times] are pairwise at least [min_hours_between] hours apart
    around the clock and appear in order among the timestamps, and a
    reading whose time was not recorded lies within the spacing of a
    recorded one (it is the fallback after 50 failed candidates).  The
    function returns the timestamps of the loop, padded to four. *)
Theorem accepted_timestamps_spaced num_readings min_hours_between :
  always (foldM (timestamp_step min_hours_between) ([], []) (range num_readings))
    (λ st, length st.1 = Z.to_nat num_readings ∧ readings_recorded min_hours_between st) ∧
  (num_readings ≠ 0 ->
   ∀ g, generate_measurement_timestamps_with_spacing num_readings min_hours_between g =
        '(st, g') ← foldM (timestamp_step min_hours_between) ([], []) (range num_readings) g;
        Some ((st.1 ++ replicate (4 - length st.1) "")%list, g')).
Proof.
  split; [apply always_readings_recorded|].
  intros Hne g. unfold generate_measurement_timestamps_with_spacing.
  destruct (Z.eqb_spec num_readings 0); [done|].
  unfold mbind at 1, rand_bind.
  destruct (foldM _ _ _ g) as [[[ts used] g']|]; done.
Qed.

(** The spacing is best effort: when 50 candidates in a row fail the
    test, the last one is kept; so two readings can carry the same
    timestamp. *)
Theorem timestamps_can_coincide :
  ∃ g, fst <$> generate_measurement_timestamps_with_spacing 2 1 g
       = Some ["12:30"; "12:30"; ""; ""].
Proof. exists (Rng (λ _, 0.5%Q) 0 (λ _, 0%Q) 0). by vm_compute. Qed.

(** * Reading slots: all or nothing *)

Lemma clock_text_nonempty hour minute : clock_text hour minute ≠ "".
Proof. unfold clock_text. by destruct (format_0d 2 hour). Qed.

Lemma get_glucose_range_nonempty glucose measurement_type :
  get_glucose_range glucose measurement_type ≠ "".
Proof.
  unfold get_glucose_range.
  repeat match goal with
         | |- context [if ?b then _ else _] => destruct b
         end; done.
Qed.

Lemma bp_record_slots num timestamps slots :
  length timestamps = 4%nat ->
  (∀ i : nat,
     (Z.of_nat i < num ->
      ∃ hour minute, 0 <= hour <= 23 ∧ 0 <= minute <= 59 ∧
                     timestamps !! i = Some (clock_text hour minute)) ∧
     (num <= Z.of_nat i -> (i < 4)%nat -> timestamps !! i = Some "")) ->
  Forall2 (bp_slot_ok num) (range 4) slots ->
  bp_prefix_populated num
    (BpReadings (slots.*1.*1.*1) (slots.*1.*1.*2) (slots.*1.*2) (slots.*2) timestamps).
Proof.
  intros Hlen Hts Hslots.
  apply Forall2_range4 in Hslots
    as ([[[s0 d0] st0] dt0] & [[[s1 d1] st1] dt1] & [[[s2 d2] st2] dt2]
        & [[[s3 d3] st3] dt3] & -> & H0 & H1 & H2 & H3).
  unfold bp_prefix_populated.
  cbn [systolic_readings diastolic_readings systolic_types diastolic_types bp_timestamps].
  split_and!; try done.
  assert (∀ (i : nat) s d st dt,
    (i < 4)%nat -> bp_slot_ok num (Z.of_nat i) (s, d, st, dt) ->
    ∀ r, systolic_readings r !! i = Some s -> diastolic_readings r !! i = Some d ->
         systolic_types r !! i = Some st -> diastolic_types r !! i = Some dt ->
         bp_timestamps r = timestamps ->
         if Z.of_nat i <? num then bp_slot_populated r i else bp_slot_empty r i) as Hone.
  { intros i s d st dt Hi Hok r Es Ed Est Edt Ets. unfold bp_slot_ok in Hok.
    destruct (Hts i) as [Hp He].
    destruct (Z.ltb_spec (Z.of_nat i) num) as [Hlt|Hge].
    - destruct Hok as [Hgap Hty]. destruct (Hp Hlt) as (h & m & Hh & Hm & Hl).
      pose proof (get_bp_type_nonempty s d) as [Hn1 Hn2]. rewrite <- Hty in Hn1, Hn2.
      exists s, d, st, dt, (clock_text h m), h, m. rewrite Ets.
      split_and!; first [done | lia | apply clock_text_nonempty].
    - injection Hok as -> -> -> ->. unfold bp_slot_empty. rewrite Ets.
      split_and!; try done. by apply He. }
  intros i Hi. destruct i as [|[|[|[|i]]]]; [..|lia].
  - by apply (Hone 0%nat s0 d0 st0 dt0).
  - by apply (Hone 1%nat s1 d1 st1 dt1).
  - by apply (Hone 2%nat s2 d2 st2 dt2).
  - by apply (Hone 3%nat s3 d3 st3 dt3).
Qed.

Lemma always_bp_prefix has_condition :
  always (generate_blood_pressure_readings has_condition)
    (λ r, ∃ num, (if has_condition then 1 <= num <= 4 else num = 0) ∧
                 bp_prefix_populated num r).
Proof.
  unfold generate_blood_pressure_readings. destruct has_condition; cbn [negb].
  - step with always_reading_count as num Hnum.
    step with (always_timestamps_width num 1) as timestamps [Hlen Hts].
    step with (always_mapM (bp_slot num) (bp_slot_ok num)) as slots Hslots.
    { intros i _. apply always_bp_slot. }
    finish. exists num. split; [done|]. apply bp_record_slots; [lia|done..].
  - finish. exists 0. split; [done|]. unfold bp_prefix_populated.
    split_and!; try done. intros i Hi. by destruct i as [|[|[|[|i]]]]; [..|lia].
Qed.

(** In what [generate_blood_pressure_readings] returns, the five lists
    have four slots each; a first run of slots (1 to 4 of them with the
    gating condition, none without) holds complete readings: values 10
    apart, both labels and a clock time, none empty; every other slot
    holds zeros and empty strings in all five lists. *)
Theorem bp_slots_all_or_nothing has_condition :
  always (generate_blood_pressure_readings has_condition)
    (λ r, ∃ num, (if has_condition then 1 <= num <= 4 else num = 0) ∧
                 bp_prefix_populated num r).
Proof. apply always_bp_prefix. Qed.

Lemma rint_bounds (a b : Z) (q : Q) :
  (inject_Z a <= q <= inject_Z b)%Q -> a <= rint q <= b.
Proof.
  intros [Ha Hb].
  assert (a <= Qfloor q <= b) as Hf.
  { split.
    - rewrite <- (Qfloor_Z a). by apply Qfloor_resp_le.
    - rewrite <- (Qfloor_Z b). by apply Qfloor_resp_le. }
  assert (Qle_bool (1 # 2) (q - inject_Z (Qfloor q)) = true -> Qfloor q + 1 <= b) as Hup.
  { intros E. apply Qle_bool_iff in E.
    destruct (Z.eq_dec (Qfloor q) b) as [Heq|]; [|lia].
    rewrite Heq in E. lra. }
  unfold rint, Qltb. cbn zeta.
  destruct (Qle_bool (1 # 2) (q - inject_Z (Qfloor q))) eqn:E; cbn [negb].
  - specialize (Hup eq_refl).
    destruct (negb (Qle_bool _ _)); [lia|]. destruct (Z.even _); lia.
  - lia.
Qed.

Lemma round1_clip (x : Q) (lo hi : Z) :
  lo <= hi ->
  ∃ tenths : Z,
    round1 (np_clip x (lo # 10) (hi # 10)) = (inject_Z tenths / 10)%Q ∧
    lo <= tenths <= hi.
Proof.
  intros Hlohi. eexists. split; [reflexivity|]. apply rint_bounds.
  set (c := np_clip x (lo # 10) (hi # 10)).
  assert ((lo # 10) <= c <= (hi # 10))%Q as [H1 H2].
  { unfold c, np_clip. split; [|apply Q.le_min_r].
    apply Q.min_glb; [apply Q.le_max_r|]. unfold Qle. cbn. lia. }
  clearbody c. destruct c as [n d]. unfold Qle in *. cbn in *. lia.
Qed.

Lemma always_glucose_slot_bounded num i :
  always (glucose_slot num i) (glucose_slot_bounded num i).
Proof.
  unfold glucose_slot, glucose_slot_bounded. destruct (i <? num); [|by finish].
  step with (always_random_choice ["Pre meal"; "2-hour post meal"]) as mt Hmt; [done|].
  assert (mt = "Pre meal" ∨ mt = "2-hour post meal") as [-> | ->]
    by (set_unfold in Hmt; tauto).
  - change (String.eqb "Pre meal" "Pre meal") with true. cbn match.
    eapply (always_bind _ _ (λ glucose, ∃ tenths : Z,
              glucose = (inject_Z tenths / 10)%Q ∧ 30 <= tenths <= 90)).
    { step with always_np_random_normal as x _. finish.
      destruct (round1_clip x 30 90) as (k & Hk & Hb); [lia|]. exists k.
      split; [|done]. rewrite <- Hk. done. }
    intros glucose (k & -> & Hk). finish. exists k. split_and!; try done. by left.
  - change (String.eqb "2-hour post meal" "Pre meal") with false. cbn match.
    eapply (always_bind _ _ (λ glucose, ∃ tenths : Z,
              glucose = (inject_Z tenths / 10)%Q ∧ 40 <= tenths <= 120)).
    { step with always_np_random_normal as x _. finish.
      destruct (round1_clip x 40 120) as (k & Hk & Hb); [lia|]. exists k.
      split; [|done]. rewrite <- Hk. done. }
    intros glucose (k & -> & Hk). finish. exists k. split_and!; try done. by right.
Qed.

Lemma glucose_record_slots num timestamps slots :
  length timestamps = 4%nat ->
  (∀ i : nat,
     (Z.of_nat i < num ->
      ∃ hour minute, 0 <= hour <= 23 ∧ 0 <= minute <= 59 ∧
                     timestamps !! i = Some (clock_text hour minute)) ∧
     (num <= Z.of_nat i -> (i < 4)%nat -> timestamps !! i = Some "")) ->
  Forall2 (glucose_slot_bounded num) (range 4) slots ->
  glucose_prefix_populated num
    (GlucoseReadings (slots.*1.*1) (slots.*1.*2) (slots.*2) timestamps).
Proof.
  intros Hlen Hts Hslots.
  apply Forall2_range4 in Hslots
    as ([[v0 t0] r0] & [[v1 t1] r1] & [[v2 t2] r2] & [[v3 t3] r3] & -> & H0 & H1 & H2 & H3).
  unfold glucose_prefix_populated.
  cbn [glucose_readings measurement_types glucose_ranges glucose_timestamps].
  split_and!; try done.
  assert (∀ (i : nat) v mt rg,
    (i < 4)%nat -> glucose_slot_bounded num (Z.of_nat i) (v, mt, rg) ->
    ∀ r, glucose_readings r !! i = Some v -> measurement_types r !! i = Some mt ->
         glucose_ranges r !! i = Some rg -> glucose_timestamps r = timestamps ->
         if Z.of_nat i <? num then glucose_slot_populated r i else glucose_slot_empty r i)
    as Hone.
  { intros i v mt rg Hi Hok r Ev Emt Erg Ets. unfold glucose_slot_bounded in Hok.
    destruct (Hts i) as [Hp He].
    destruct (Z.ltb_spec (Z.of_nat i) num) as [Hlt|Hge].
    - destruct Hok as (k & Hv & Hk & Hrg). destruct (Hp Hlt) as (h & m & Hh & Hm & Hl).
      exists v, mt, rg, (clock_text h m), k, h, m. rewrite Ets.
      split_and!;
        first [done | lia | apply clock_text_nonempty
               | rewrite Hrg; apply get_glucose_range_nonempty].
    - injection Hok as -> -> ->. unfold glucose_slot_empty. rewrite Ets.
      split_and!; try done. by apply He. }
  intros i Hi. destruct i as [|[|[|[|i]]]]; [..|lia].
  - by apply (Hone 0%nat v0 t0 r0).
  - by apply (Hone 1%nat v1 t1 r1).
  - by apply (Hone 2%nat v2 t2 r2).
  - by apply (Hone 3%nat v3 t3 r3).
Qed.

Lemma always_glucose_prefix has_diabetes :
  always (generate_glucose_readings has_diabetes)
    (λ r, ∃ num, (if has_diabetes then 1 <= num <= 4 else num = 0) ∧
                 glucose_prefix_populated num r).
Proof.
  unfold generate_glucose_readings. destruct has_diabetes; cbn [negb].
  - step with always_reading_count as num Hnum.
    step with (always_timestamps_width num 1) as timestamps [Hlen Hts].
    step with (always_mapM (glucose_slot num) (glucose_slot_bounded num)) as slots Hslots.
    { intros i _. apply always_glucose_slot_bounded. }
    finish. exists num. split; [done|]. apply glucose_record_slots; [lia|done..].
  - finish. exists 0. split; [done|]. unfold glucose_prefix_populated.
    split_and!; try done. intros i Hi. by destruct i as [|[|[|[|i]]]]; [..|lia].
Qed.

(** In what [generate_glucose_readings] returns, the four lists have four
    slots each; a first run of slots (1 to 4 of them for a diabetic
    patient, none otherwise) holds complete readings: a value with one
    decimal, within 3.0 to 9.0 before a meal and 4.0 to 12.0 after, its
    type, its range label and a clock time; every other slot holds a zero
    and empty strings in all four lists. *)
Theorem glucose_slots_all_or_nothing has_diabetes :
  always (generate_glucose_readings has_diabetes)
    (λ r, ∃ num, (if has_diabetes then 1 <= num <= 4 else num = 0) ∧
                 glucose_prefix_populated num r).
Proof. apply always_glucose_prefix. Qed.

(** * The exercise slots *)

Lemma diffs_nonneg l : StronglySorted Z.le l -> Forall (λ m, 0 <= m) (diffs l).
Proof.
  induction l as [|a [|b l] IH]; intros Hs; [constructor..|].
  change (diffs (a :: b :: l)) with ((b - a) :: diffs (b :: l)).
  apply StronglySorted_cons in Hs as [Ha Hs]. apply Forall_cons in Ha as [Hab _].
  constructor; [lia|]. by apply IH.
Qed.

Lemma Zsum_upper l x : Forall (λ m, 0 <= m) l -> x ∈ l -> x <= Zsum l.
Proof.
  induction 1 as [|y l Hy Hl IH]; intros Hx; [by apply elem_of_nil in Hx|].
  assert (0 <= Zsum l) as Hsum.
  { clear -Hl. induction Hl; cbn; [done|]. unfold Zsum in *. lia. }
  change (Zsum (y :: l)) with (y + Zsum l).
  apply elem_of_cons in Hx as [->|Hx]; [lia|]. specialize (IH Hx). lia.
Qed.

Lemma splits_sorted points total :
  0 <= total ->
  Forall (λ p, 1 <= p <= total - 1) points ->
  StronglySorted Z.le (0 :: sorted points ++ [total]).
Proof.
  intros Htotal Hpts.
  assert (Forall (λ p, 1 <= p <= total - 1) (sorted points)) as Hs
    by (by rewrite sorted_perm).
  apply StronglySorted_cons. split.
  - apply Forall_app. split.
    + eapply Forall_impl; [done|]. intros; cbn in *; lia.
    + by apply Forall_singleton.
  - apply StronglySorted_app. split_and!.
    + intros x1 x2 H1 H2. apply list_elem_of_singleton in H2 as ->.
      rewrite Forall_forall in Hs. specialize (Hs x1 H1). cbn in Hs. lia.
    + apply sorted_sorted.
    + repeat constructor.
Qed.

Lemma always_split_minutes_bounded num total :
  1 <= num -> 2 <= total ->
  always (split_minutes num total)
    (λ mins, len mins = num ∧ Zsum mins = total ∧ Forall (λ m, 0 <= m <= total) mins).
Proof.
  intros Hnum Htotal. unfold split_minutes.
  destruct (Z.eqb_spec num 1) as [->|Hne].
  - finish. split_and!; [done|cbn; lia|]. apply Forall_singleton. lia.
  - step with (always_mapM _ (λ _ p, 1 <= p <= total - 1)) as points Hpts.
    { intros x _. apply always_random_randint. lia. }
    assert (Forall (λ p, 1 <= p <= total - 1) points) as Hall.
    { eapply Forall2_Forall_r; [exact Hpts|]. by apply Forall_true. }
    apply Forall2_length in Hpts. unfold range in Hpts. rewrite length_seqZ in Hpts.
    cbn zeta. rewrite split_differences.
    2:{ cbn. rewrite length_app, sorted_length. cbn. lia. }
    assert (Zsum (diffs (0 :: sorted points ++ [total])) = total) as Hsum.
    { rewrite Zsum_diffs, app_comm_cons, last_snoc. cbn. lia. }
    assert (Forall (λ m, 0 <= m) (diffs (0 :: sorted points ++ [total]))) as Hnn
      by (apply diffs_nonneg, splits_sorted; [lia|done]).
    finish. unfold len. split_and!; [|done|].
    + rewrite diffs_length. cbn. rewrite length_app, sorted_length. cbn. lia.
    + apply Forall_forall. intros m Hm. split.
      * rewrite Forall_forall in Hnn. by apply Hnn.
      * pose proof (Zsum_upper _ _ Hnn Hm). lia.
Qed.

Lemma exercise_slots_category selected mins d :
  exercise_slots selected mins = Some d ->
  ∀ i, 1 <= i <= 5 -> Exercise_Category d i = Exercise_Type d i.
Proof.
  unfold exercise_slots. intros H i Hi. simplify_option_eq.
  assert (i = 1 ∨ i = 2 ∨ i = 3 ∨ i = 4 ∨ i = 5) as [->|[->|[->|[->| ->]]]] by lia; done.
Qed.

Lemma always_exercise_day :
  always generate_exercise_data (λ d, ∃ num, exercise_day num d).
Proof.
  unfold generate_exercise_data.
  step with always_exercise_count as num Hnum.
  step with (always_random_randint 5 29) as total Htotal; [lia|].
  step with (always_random_sample EXERCISE_TYPES num) as selected [Hlen (rest & Hrest)];
    [change (len EXERCISE_TYPES) with 7; lia|].
  step with (always_split_minutes_bounded num total) as mins (Hmlen & Hsum & Hb); [lia..|].
  apply always_or_raise.
  destruct (exercise_slots_spec selected mins num) as (d & E & _ & Hty & Hmin & Hrest');
    [done..|].
  exists d. split; [done|]. exists num.
  assert (NoDup selected) as Hnd.
  { eapply sample_NoDup; [|done]. apply (bool_decide_unpack _). by vm_compute. }
  unfold exercise_day. split; [done|]. split_and!.
  - intros i Hi. split.
    + pose proof (Hty i Hi) as Ht. symmetry in Ht. apply list_elem_of_lookup_2 in Ht.
      rewrite <- Hrest. apply elem_of_app. by left.
    + pose proof (Hmin i Hi) as Hm. symmetry in Hm. apply list_elem_of_lookup_2 in Hm.
      rewrite Forall_forall in Hb. specialize (Hb _ Hm). cbn in Hb. lia.
  - intros i j Hi Hj Hij Heq.
    pose proof (Hty i Hi) as Hti. pose proof (Hty j Hj) as Htj. rewrite Heq in Hti.
    symmetry in Hti, Htj.
    pose proof (NoDup_lookup _ _ _ _ Hnd Hti Htj). lia.
  - intros i Hi. destruct (Hrest' i Hi). done.
  - by eapply exercise_slots_category.
Qed.

(** Whatever the draws, the exercise slots of a day are: 1 to 5 populated
    slots with pairwise different exercise names of the vocabulary and
    minutes between 0 and 29, then empty slots; every category column
    repeats its type column. *)
Theorem exercise_slots_shape :
  always generate_exercise_data (λ d, ∃ num, exercise_day num d).
Proof. apply always_exercise_day. Qed.

(** * The daily record *)

Lemma always_meal_shape meal_type :
  always (generate_meal_contents meal_type) meal_shape.
Proof.
  unfold generate_meal_contents.
  eapply (always_bind _ _ (λ _, True)).
  { destruct meal_type as [mt|]; [|by finish].
    destruct (negb _); [|by finish].
    destruct (MEAL_FOOD_PROBABILITIES !! mt); [|by finish].
    step with always_random_random as r _. by finish. }
  intros [] _.
  - finish. unfold meal_shape. cbn [fst snd]. split_and!; [done| |set_solver].
    unfold MEAL_COMPONENTS. rewrite !fmap_cons, fmap_nil.
    repeat (apply Forall_cons; split; [by left|]). apply Forall_nil_2.
  - step with (always_mapM _ (λ comp (kv : string * Z), kv.1 = comp ∧ (kv.2 = 0 ∨ kv.2 = 1)))
      as components Hc.
    { intros comp _. step with (always_random_choice [1; 0]) as v Hv; [done|]. finish.
      split; [done|]. cbn. set_unfold in Hv. tauto. }
    step with (always_np_random_choice SUGAR_CATEGORIES SUGAR_WEIGHTS) as sugar Hs; [done..|].
    finish. unfold meal_shape. cbn [fst snd]. split_and!; [| |done].
    + induction Hc as [|c kv l k [H1 _] _ IH]; [done|]. cbn. by rewrite H1, IH.
    + eapply Forall2_Forall_r; [exact Hc|].
      apply Forall_true. by intros ?? [_ ?].
Qed.

Lemma always_meal_time_within lo hi :
  lo <= hi -> always (meal_time (lo, hi)) (time_within lo hi).
Proof.
  intros H. unfold meal_time. cbn [fst snd].
  step with (always_random_randint lo hi) as hour Hh; [done|].
  step with (always_random_randint 0 59) as minute Hm; [lia|].
  finish. by exists hour, minute.
Qed.

Lemma always_sleep_hours :
  always (random_uniform 1.0 10.0)
    (λ h, ∃ tenths : Z, round1 h = (inject_Z tenths / 10)%Q ∧ 10 <= tenths <= 100).
Proof.
  unfold random_uniform. step with always_random_random as u Hu. finish.
  eexists. split; [reflexivity|]. apply rint_bounds.
  change (inject_Z 10) with 10%Q. change (inject_Z 100) with 100%Q. lra.
Qed.

Lemma always_generate_day_in_range conditions loc meds date :
  always (generate_day conditions loc meds date)
    (λ d, day_in_range loc meds date d ∧ day_measurements conditions d).
Proof.
  unfold generate_day. cbn zeta.
  step with (always_np_random_choice MOOD_VALUES_WITH_EMPTY MOOD_PROBABILITIES) as mood Hmood;
    [done..|].
  step with (always_random_choice WEATHER_VALUES) as weather Hweather; [done|].
  step with (always_random_choice [0; 1; 2; 3]) as code Hcode; [done|].
  assert (0 <= code <= 3) as Hcode' by (set_unfold in Hcode; lia).
  step with (always_or_raise _ (λ q, SLEEP_QUALITIES !! Z.to_nat code = Some q))
    as sleep_quality Hq.
  { destruct (lookup_lt_is_Some_2 SLEEP_QUALITIES (Z.to_nat code)) as [q Hq]; [cbn; lia|].
    exists q. split; [|done]. unfold getitem. destruct (Z.ltb_spec code 0); [lia|done]. }
  step with always_sleep_hours as sleep_hours Hsleep.
  step with (always_meal_time_within 6 11) as breakfast_time Hbt; [done|].
  step with always_meal_shape as breakfast Hb.
  step with (always_meal_time_within 11 15) as lunch_time Hlt; [done|].
  step with always_meal_shape as lunch Hl.
  step with (always_meal_time_within 16 22) as dinner_time Hdt; [done|].
  step with always_meal_shape as dinner Hd.
  step with (always_meal_time_within 22 24) as late_snack_time Hst; [done|].
  step with always_meal_shape as late_snack Hs.
  step with always_exercise_day as exercise Hex.
  step with (always_random_randint 0 10) as pain_level Hpain; [lia|].
  step with (always_random_choice BINARY_VALUES) as urinary Hu; [done|].
  step with (always_random_choice BINARY_VALUES) as fecal Hf; [done|].
  step with (always_random_choice BINARY_VALUES) as goal Hg; [done|].
  step with always_bp_prefix as bp Hbp.
  step with always_glucose_prefix as glucose Hglucose.
  finish. split.
  - unfold day_in_range. cbn. split_and!; first [done | lia].
  - split; cbn [Blood_Pressure Glucose]; [exact Hbp|exact Hglucose].
Qed.

(** Whatever the draws, a meal has the five components in order, each 0
    or 1, and a sugar bucket of the table (the empty bucket included). *)
Theorem meal_contents_shape meal_type :
  always (generate_meal_contents meal_type) meal_shape.
Proof. apply always_meal_shape. Qed.

Lemma always_patient_rows conditions loc meds :
  always (generate_patient_data conditions loc meds)
    (λ days,
       Date <$> days = date_range ∧
       Forall (λ d, day_in_range loc meds (Date d) d ∧ day_measurements conditions d) days).
Proof.
  unfold generate_patient_data.
  eapply always_mono.
  { apply (always_mapM _ (λ date d,
      day_in_range loc meds date d ∧ day_measurements conditions d)).
    intros date _. apply always_generate_day_in_range. }
  intros days Hdays. cbn beta in Hdays.
  induction Hdays as [|date d dates days [Hd Hm] _ [IH1 IH2]]; [done|].
  assert (Date d = date) as Hdate by apply Hd.
  split.
  - cbn. by rewrite Hdate, IH1.
  - constructor; [|done]. by rewrite Hdate.
Qed.

(** A patient's table has one row per date of the range, in date order;
    every row keeps the value ranges of the sub-generators (sleep, pain,
    meal times, meals, exercise, flags), carries the patient's pain
    location and medication count, and has both reading blocks
    all-or-nothing, populated only under the gating condition. *)
Theorem patient_table_rows conditions pain_location meds :
  always (generate_patient_data conditions pain_location meds)
    (λ days,
       Date <$> days = date_range ∧
       Forall (λ d, day_in_range pain_location meds (Date d) d ∧
                    day_measurements conditions d) days).
Proof. apply always_patient_rows. Qed.

(** The late-night snack hour is drawn from 22 to 24 inclusive, so the
    stored time can read 24:59. *)
Theorem late_snack_time_can_be_24 :
  ∃ g, Late_Night_Snack_Time <$> (fst <$> generate_day ["Cancer"; "COPD"] "back" [] 0%nat g)
       = Some "24:59".
Proof. exists (Rng (λ _, 0.99%Q) 0 (λ _, 0.99%Q) 0). by vm_compute. Qed.

(** * Conditions and medications, further *)

Lemma always_conditions_labelled :
  always assign_conditions
    (λ conditions,
       Forall (λ c, c ∈ CONDITION_LABELS) conditions ∧
       (conditions `sublist_of` CONDITION_LABELS ∨ length conditions = 2%nat)).
Proof.
  unfold assign_conditions.
  step with (always_prevalence_draw _ _ [] []) as c1 H1; [done|].
  step with (always_prevalence_draw _ _ c1) as c2 H2; [done|].
  step with (always_prevalence_draw _ _ c2) as c3 H3; [done|].
  step with (always_prevalence_draw _ _ c3) as c4 H4; [done|].
  step with (always_prevalence_draw _ _ c4) as c5 H5; [done|].
  step with (always_prevalence_draw _ _ c5) as c6 H6; [done|].
  step with (always_prevalence_draw _ _ c6) as c7 H7; [done|].
  step with (always_prevalence_draw _ _ c7) as c8 H8; [done|].
  step with (always_prevalence_draw _ _ c8) as c9 H9; [done|].
  step with (always_prevalence_draw _ _ c9) as conditions Hsub; [done|].
  clear - Hsub. change (conditions `sublist_of` CONDITION_LABELS) in Hsub.
  assert (∀ c, c ∈ conditions -> c ∈ CONDITION_LABELS) as Hin.
  { intros c Hc. eapply sublist_submseteq, submseteq_Permutation in Hsub as [k Hk].
    rewrite Hk. apply elem_of_app. by left. }
  eapply (always_bind _ _ (λ c, (2 <= length c)%nat ∧
            Forall (λ c, c ∈ CONDITION_LABELS) c ∧
            (c `sublist_of` CONDITION_LABELS ∨ length c = 2%nat))).
  2:{ intros c (Hlen & Hall & Hc). finish. rewrite force_common_id; [done|].
      unfold len. apply Z.ltb_ge. lia. }
  unfold len. destruct conditions as [|c0 [|c1 rest]]; cbn [length].
  - change (Z.of_nat 0 =? 0) with true. cbn match.
    step with (always_random_sample
      ["Hypertension"; "Osteoarthritis"; "Diabetes"; "Osteoporosis"] 2) as s [Hl (r & Hr)];
      [by cbn|].
    finish. unfold len in Hl. cbn [app]. split_and!; [lia| |right; lia].
    apply Forall_forall. intros c Hc.
    assert (c ∈ ["Hypertension"; "Osteoarthritis"; "Diabetes"; "Osteoporosis"]) as Hc'
      by (rewrite <- Hr; apply elem_of_app; by left).
    unfold CONDITION_LABELS. set_unfold in Hc'. set_unfold. tauto.
  - change (Z.of_nat 1 =? 0) with false. change (Z.of_nat 1 =? 1) with true. cbn match. cbn zeta.
    set (available := filter _ _).
    assert (∃ x, x ∈ available) as [x0 Hx0].
    { destruct (decide (c0 = "Hypertension")) as [->|Hne].
      - exists "Diabetes". apply list_elem_of_filter. split; [|set_solver].
        by rewrite list_elem_of_singleton.
      - exists "Hypertension". apply list_elem_of_filter. split; [|set_solver].
        rewrite list_elem_of_singleton. congruence. }
    assert (available ≠ []) as Hne by (intros E; rewrite E in Hx0; by apply elem_of_nil in Hx0).
    destruct available as [|a av] eqn:Eav; [done|]. rewrite <- Eav in *.
    step with (always_random_choice available) as c Hc; [done|].
    finish. cbn [app length]. split_and!; [lia| |by right].
    apply Forall_cons. split; [apply Hin; by left|]. apply Forall_singleton.
    subst available. apply list_elem_of_filter in Hc as [_ Hc].
    unfold CONDITION_LABELS. set_unfold in Hc. set_unfold. tauto.
  - destruct (Z.eqb_spec (Z.of_nat (S (S (length rest)))) 0); [lia|].
    destruct (Z.eqb_spec (Z.of_nat (S (S (length rest)))) 1); [lia|].
    finish. split_and!; [cbn; lia| |by left]. by apply Forall_forall.
Qed.

(** The conditions of a patient are labels of the vocabulary of ten; they
    come in the order of the prevalence table, unless there are exactly two
    of them (the fallbacks never add beyond two). *)
Theorem conditions_from_vocabulary :
  always assign_conditions
    (λ conditions,
       Forall (λ c, c ∈ CONDITION_LABELS) conditions ∧
       (conditions `sublist_of` CONDITION_LABELS ∨ length conditions = 2%nat)).
Proof. apply always_conditions_labelled. Qed.

Lemma always_and {A} (m : Rand A) (P Q : A -> Prop) :
  always m P -> always m Q -> always m (λ a, P a ∧ Q a).
Proof.
  intros HP HQ g. destruct (HP g) as (a & g' & E & Ha).
  destruct (HQ g) as (a' & g'' & E' & Ha'). rewrite E in E'. injection E' as <- <-.
  by exists a, g'.
Qed.

Lemma matching_rule_indicated f category :
  matching_rule f category ≠ NoMatch ↔ indicated f category = true.
Proof.
  unfold matching_rule, indicated.
  destruct (str_in "Heart health and hypertension" category && has_hypertension f);
  destruct (str_in "Diabetes" category && has_diabetes f);
  destruct (str_in "Chronic pain and musculoskeletal" category && has_pain f);
  destruct (str_in "Mental health" category && has_mood_disorder f);
  destruct (str_in "Other" category), (has_respiratory f), (has_cancer f),
    (str_in "Vitamins and supplements" category); cbn; split; congruence.
Qed.

Lemma always_should_assign_indicated f category :
  always (should_assign f category) (λ eligible, eligible = true -> indicated f category = true).
Proof.
  unfold should_assign.
  destruct (matching_rule f category) eqn:E.
  8: by finish.
  all: eapply always_mono; [apply always_apply_rule|].
  all: intros _ _ _; apply matching_rule_indicated; congruence.
Qed.

Lemma default_medication_indicated f :
  indicated f (med_category (default_medication f)) = true.
Proof.
  unfold default_medication.
  destruct (has_hypertension f) eqn:E1; [unfold indicated; rewrite E1; by vm_compute|].
  destruct (has_diabetes f) eqn:E2; [unfold indicated; rewrite E2; by vm_compute|].
  destruct (has_pain f) eqn:E3; [unfold indicated; rewrite E3; by vm_compute|].
  destruct (has_mood_disorder f) eqn:E4; [unfold indicated; rewrite E4; by vm_compute|].
  unfold indicated. cbn [med_category fst snd].
  change (str_in "Vitamins and supplements" "Vitamins and supplements") with true.
  by rewrite orb_true_r.
Qed.

Lemma always_assign_step_indicated f seen st m :
  st.1 `sublist_of` seen ∧ Forall (λ m, indicated f (med_category m) = true) st.1 ->
  always (assign_step f st m)
    (λ st', st'.1 `sublist_of` (seen ++ [m])%list ∧
            Forall (λ m, indicated f (med_category m) = true) st'.1).
Proof.
  intros [Hsub Hall]. destruct st as [assigned counts]. cbn [fst] in *.
  assert (assigned `sublist_of` (seen ++ [m])%list) as Hkeep
    by (by apply sublist_inserts_r).
  unfold assign_step.
  destruct (Z.leb_spec 2 (count_of counts (med_category m))) as [|Hlt]; [by finish|].
  step with always_should_assign_indicated as eligible He.
  eapply (always_bind _ _ (λ keep, keep = true -> eligible = true)).
  { destruct eligible; [|by finish].
    step with always_random_random as u _. by finish. }
  intros [] Hk; [|by finish]. finish. cbn [fst]. split.
  - by apply sublist_app.
  - apply Forall_app. split; [done|]. apply Forall_singleton. auto.
Qed.

Lemma always_medications_indicated conditions all_medications :
  always (assign_medications_by_conditions conditions all_medications)
    (λ r, Forall (λ m, indicated (flags_of conditions) (med_category m) = true) r.1 ∧
          (r.1 = [default_medication (flags_of conditions)] ∨ r.1 `sublist_of` r.2)).
Proof.
  unfold assign_medications_by_conditions. cbn zeta.
  step with always_random_shuffle as shuffled Hperm.
  step with (always_foldM_prefix (assign_step (flags_of conditions))
    (λ seen st, st.1 `sublist_of` seen ∧
       Forall (λ m, indicated (flags_of conditions) (med_category m) = true) st.1))
    as st Hst.
  { by split. }
  { intros seen x s Hs. by apply always_assign_step_indicated. }
  destruct st as [assigned counts]. destruct Hst as [Hsub Hall]. cbn [fst snd] in *.
  finish. cbn [fst snd]. destruct assigned as [|m0 rest].
  - split; [|by left]. apply Forall_singleton, default_medication_indicated.
  - split; [done|by right].
Qed.

(** Every assigned medication belongs to a category indicated for the
    patient, the default one included: a condition-specific category is
    never assigned without its condition.  The assigned list is the single
    default, or is taken from the catalog in the order the shuffle left. *)
Theorem medications_indicated conditions all_medications :
  always (assign_medications_by_conditions conditions all_medications)
    (λ r, Forall (λ m, indicated (flags_of conditions) (med_category m) = true) r.1 ∧
          (r.1 = [default_medication (flags_of conditions)] ∨ r.1 `sublist_of` r.2)).
Proof. apply always_medications_indicated. Qed.



(** The age is at least 65 whatever the normal variate. *)
Theorem patient_age_floor : always generate_patient_age (λ age, 65 <= age).
Proof. apply always_age_floor. Qed.

(** * The whole run *)

Lemma always_generate_patient_ok male_names female_names seen st i :
  male_names ≠ [] -> female_names ≠ [] ->
  patient_id <$> st.1 = format_0d 3 <$> seen ∧ Forall (patient_ok male_names female_names) st.1 ->
  always (generate_patient male_names female_names st i)
    (λ st', patient_id <$> st'.1 = format_0d 3 <$> (seen ++ [i])%list ∧
            Forall (patient_ok male_names female_names) st'.1).
Proof.
  intros Hm Hf [Hids Hok]. destruct st as [patients meds]. cbn [fst] in *.
  unfold generate_patient.
  step with (always_and _ _ _ assign_conditions_floor always_conditions_labelled)
    as conditions [[Hlen Hnd] [Hlab _]].
  step with always_age_floor as age Hage.
  step with (always_random_choice ["Male"; "Female"]) as gender Hg; [done|].
  step with (always_name_from_list gender male_names female_names) as name Hname.
  { by destruct (String.eqb gender "Male"). }
  step with (always_random_choice PAIN_LOCATIONS) as pain_location Hloc; [done|].
  step with (always_and _ _ _ (assign_medications_bounds conditions meds)
               (always_medications_indicated conditions meds))
    as [assigned meds'] [(Hone & Hcap & _) [Hind _]].
  step with always_patient_rows as df [Hdates Hrows].
  finish. cbn [fst snd] in *. split.
  - by rewrite !fmap_app, Hids.
  - apply Forall_app. split; [done|]. apply Forall_singleton.
    unfold patient_ok. cbn. split_and!; done.
Qed.

Lemma all_patients_df_length patients n :
  Forall (λ p, length (rows p) = n) patients ->
  length (all_patients_df patients) = (length patients * n)%nat.
Proof.
  unfold all_patients_df. induction 1 as [|p ps Hp _ IH]; [done|].
  rewrite bind_cons, length_app, length_fmap, IH, Hp. cbn. lia.
Qed.

(** The run over the hundred patients, given two non-empty name lists:
    it does not raise; the identifiers are 001 to 100 in order and
    distinct; every patient satisfies [patient_ok]; and the combined table
    has 100 times 396 rows. *)
Theorem dataset_shape male_names female_names ALL_MEDS_WITH_DOSAGES :
  male_names ≠ [] -> female_names ≠ [] ->
  always (generate_all male_names female_names ALL_MEDS_WITH_DOSAGES)
    (λ r, patient_id <$> r.1 = format_0d 3 <$> seqZ 1 100 ∧
          NoDup (patient_id <$> r.1) ∧
          Forall (patient_ok male_names female_names) r.1 ∧
          length (all_patients_df r.1) = (100 * 396)%nat).
Proof.
  intros Hm Hf. unfold generate_all.
  eapply always_mono.
  { apply (always_foldM_prefix (generate_patient male_names female_names)
      (λ seen st, patient_id <$> st.1 = format_0d 3 <$> seen ∧
                  Forall (patient_ok male_names female_names) st.1)).
    - by split.
    - intros seen x s Hs. by apply always_generate_patient_ok. }
  intros [patients meds] [Hids Hok]. cbn [fst] in *. split_and!; [done| |done|].
  - rewrite Hids. apply (bool_decide_unpack _). by vm_compute.
  - rewrite (all_patients_df_length patients 396).
    + apply (f_equal length) in Hids. rewrite !length_fmap, length_seqZ in Hids.
      rewrite Hids. done.
    + eapply Forall_impl; [exact Hok|]. intros p Hp. unfold patient_ok in Hp.
      destruct Hp as (_ & _ & _ & _ & _ & _ & _ & _ & _ & _ & Hd & _).
      apply (f_equal length) in Hd. by rewrite length_fmap in Hd.
Qed.

Lemma dataset_shape_witness :
  always (generate_all ["John"] ["Mary"] [])
    (λ r, patient_id <$> r.1 = format_0d 3 <$> seqZ 1 100 ∧
          NoDup (patient_id <$> r.1) ∧
          Forall (patient_ok ["John"] ["Mary"]) r.1 ∧
          length (all_patients_df r.1) = (100 * 396)%nat).
Proof. apply (dataset_shape ["John"] ["Mary"] []); done. Defined.

(** Conversely, if one of the two name lists is empty there are draws on
    which the run raises, at the first patient of that gender. *)
Theorem run_raises_on_empty_name_list male_names female_names ALL_MEDS_WITH_DOSAGES :
  male_names = [] ∨ female_names = [] ->
  ∃ g, generate_all male_names female_names ALL_MEDS_WITH_DOSAGES g = None.
Proof.
  intros [-> | ->].
  - exists (Rng (λ _, 0%Q) 0 (λ _, 0%Q) 0). by vm_compute.
  - exists (Rng (λ _, 0.99%Q) 0 (λ _, 0.99%Q) 0). by vm_compute.
Qed.

Lemma run_raises_on_empty_name_list_witness :
  ∃ g, generate_all [] ["Mary"] [] g = None.
Proof. apply (run_raises_on_empty_name_list [] ["Mary"] []). by left. Defined.

(** * The validation of the diastolic value *)

(** The final validation in [generate_blood_pressure_readings] never
    changes a value: after the cap at [systolic - 10] the test
    [diastolic >= systolic] is false, so a populated slot holds the
    truncated systolic draw and the smaller of the truncated diastolic draw
    and [systolic - 10].  The floor of 40 in the fallback therefore bounds
    nothing: there are draws on which the stored diastolic value is 25. *)
Theorem diastolic_fallback_unreachable :
  (∀ num_readings i g, i < num_readings ->
     ∃ s g1 d g2,
       random_normalvariate 130 15 g = Some (s, g1) ∧
       random_normalvariate 85 10 g1 = Some (d, g2) ∧
       let systolic := int_of_Q s in
       let diastolic := Z.min (int_of_Q d) (systolic - 10) in
       bp_slot num_readings i g =
         Some ((systolic, diastolic,
                (get_bp_type systolic diastolic).1, (get_bp_type systolic diastolic).2), g2)) ∧
  (∃ g r g', bp_slot 1 0 g = Some (r, g') ∧ r.1.1.1 = 40 ∧ r.1.1.2 = 25).
Proof.
  split.
  - intros num i g Hi.
    destruct (always_random_normalvariate 130 15 g) as (s & g1 & Es & _).
    destruct (always_random_normalvariate 85 10 g1) as (d & g2 & Ed & _).
    exists s, g1, d, g2. split_and!; [done..|]. cbn zeta.
    unfold bp_slot. destruct (Z.ltb_spec i num); [|lia].
    rewrite (bind_run _ _ _ _ _ Es). cbn zeta. rewrite (bind_run _ _ _ _ _ Ed). cbn zeta.
    destruct (Z.leb_spec (int_of_Q s) (Z.min (int_of_Q d) (int_of_Q s - 10))); [lia|].
    by destruct (get_bp_type _ _).
  - exists (Rng (λ _, (-6)%Q) 0 (λ _, 0%Q) 0). eexists _, _. split; [by vm_compute|done].
Qed.
